(** * Sprite asset organiser: category and name extraction, grouping, fan-out

    A shallow embedding of [organize_files.py] and [rename_sprites.py].

    Conventions of the model.
    - A Python [str] is a Rocq [string]; its characters are the code points
      U+0000..U+00FF (Rocq's 8-bit [ascii]).  On that range the class [\d]
      is exactly [0-9] and [[A-Za-z]] is the ASCII letters.
    - [os.path] is [posixpath] and [Path] is [PosixPath]: the only separator
      is ['/'], names are compared case-sensitively.
    - Code that may raise returns a [result]; code that touches the
      filesystem is a function from the filesystem state to a [result] and
      the new state.  Nothing is rolled back when an exception is raised.
    - The filesystem is a tree of directories and regular files, without
      links, and every entry has one key: the parts of its path from the
      working directory, or of its absolute path when it is not under the
      working directory.  The operating system resolves a part [..]
      against the tree, and it reaches an entry under the working
      directory by its absolute path as well; the model does neither.
      The properties that say where a run reads or writes are therefore
      stated for relative paths without a part [..] ([plain]).
    - [print] writes to standard output only; it is not part of the state. *)

From Stdlib Require Import ZArith Lia Ascii.
From stdpp Require Import gmap strings list sorting pretty.

Local Open Scope Z_scope.
Local Open Scope nat_scope.

(** ** Exceptions and results *)

Inductive exn :=
  | IndexError
  | FileNotFoundError
  | FileExistsError
  | NotADirectoryError
  | IsADirectoryError
  | SameFileError
  | TypeError.

Inductive result (A : Type) :=
  | Ok (a : A)
  | Raise (e : exn).
Arguments Ok {A} a.
Arguments Raise {A} e.

Global Instance result_ret : MRet result := λ A a, Ok a.

Global Instance result_bind : MBind result := λ A B f x,
  match x with Ok a => f a | Raise e => Raise e end.

Global Instance result_fmap : FMap result := λ A B f x,
  match x with Ok a => Ok (f a) | Raise e => Raise e end.

Definition is_ok {A} (x : result A) : bool :=
  match x with Ok _ => true | Raise _ => false end.

(** ** Python string primitives *)

Module Py.

(** [s.startswith(w)] *)
Definition startswith (s w : string) : bool := String.prefix w s.

(** [s[n:]] and [s[:n]] for a natural [n]. *)
Fixpoint drop (n : nat) (s : string) : string :=
  match n, s with
  | S n', String _ s' => drop n' s'
  | _, _ => s
  end.

Fixpoint take (n : nat) (s : string) : string :=
  match n, s with
  | S n', String c s' => String c (take n' s')
  | _, _ => ""
  end.

(** [s.find(w)], [None] standing for Python's [-1]. *)
Fixpoint find (s w : string) : option nat :=
  if String.prefix w s then Some 0
  else match s with
       | "" => None
       | String _ s' => S <$> find s' w
       end.

(** [w in s] *)
Definition contains (w s : string) : bool := bool_decide (is_Some (find s w)).

(** [s.rfind(w)], with Python's [-1] when [w] does not occur. *)
Fixpoint rfind_nat (s w : string) : option nat :=
  match s with
  | "" => if String.prefix w "" then Some 0 else None
  | String _ s' =>
      match rfind_nat s' w with
      | Some i => Some (S i)
      | None => if String.prefix w s then Some 0 else None
      end
  end.

Definition rfind (s w : string) : Z :=
  match rfind_nat s w with Some i => Z.of_nat i | None => (-1)%Z end.

(** Slices [s[lo:hi]]: a negative bound counts from the end, and bounds
    are clamped to the string. *)
Definition norm_index (n : nat) (i : Z) : nat :=
  Z.to_nat (Z.min (Z.max (if (i <? 0)%Z then (i + Z.of_nat n)%Z else i) 0) (Z.of_nat n)).

Definition slice (s : string) (lo hi : option Z) : string :=
  let n := String.length s in
  let a := from_option (norm_index n) 0 lo in
  let b := from_option (norm_index n) n hi in
  take (b - a) (drop a s).

(** [s.split(sep, maxsplit)] for a non-empty [sep]; [maxsplit = -1] is
    the default (no limit).  Each round removes at least one character,
    so [S (length s)] rounds are enough. *)
Fixpoint split_go (fuel : nat) (s sep : string) (maxsplit : Z) : list string :=
  match fuel with
  | 0 => [s]
  | S fuel' =>
      if (maxsplit =? 0)%Z then [s]
      else match find s sep with
           | None => [s]
           | Some i =>
               take i s :: split_go fuel' (drop (i + String.length sep) s) sep (maxsplit - 1)
           end
  end.

Definition split (s sep : string) (maxsplit : Z) : list string :=
  split_go (S (String.length s)) s sep maxsplit.

(** [l[i]] for [i >= 0] and [l[-1]]; both raise [IndexError] out of range. *)
Definition item {A} (l : list A) (i : nat) : result A :=
  match l !! i with Some x => Ok x | None => Raise IndexError end.

Definition item_last {A} (l : list A) : result A :=
  match last l with Some x => Ok x | None => Raise IndexError end.

(** [s.lower()] on U+0000..U+00FF: the ASCII capitals and the Latin-1
    capitals U+00C0..U+00DE (but the sign U+00D7) move up by 32. *)
Definition lower_char (c : ascii) : ascii :=
  let n := nat_of_ascii c in
  if ((65 <=? n) && (n <=? 90)) || ((192 <=? n) && (n <=? 222) && negb (n =? 215))
  then ascii_of_nat (n + 32) else c.

Fixpoint lower (s : string) : string :=
  match s with
  | "" => ""
  | String c s' => String (lower_char c) (lower s')
  end.

(** [s.endswith(w)] *)
Definition endswith (s w : string) : bool :=
  bool_decide (drop (String.length s - String.length w) s = w).

(** [sorted(l)] on strings: ascending by code points, stable. *)
Definition sorted (l : list string) : list string := merge_sort String.le l.

(** [s.lstrip(c)] for a single character [c]: the leading run of [c] is
    removed. *)
Fixpoint lstrip (s : string) (c : ascii) : string :=
  match s with
  | "" => ""
  | String a s' => if bool_decide (a = c) then lstrip s' c else s
  end.

End Py.

(** ** Regular expressions, as Python's backtracking matcher runs them *)

Module Re.

(** Single-character matchers. *)
Inductive cset :=
  | Lit (c : ascii)                      (* a literal character *)
  | Dot                                  (* [.]: anything but a newline *)
  | Ranges (rs : list (ascii * ascii))   (* [[a-z...]] *)
  | Digit.                               (* [\d] *)

Definition in_range (c : ascii) (r : ascii * ascii) : bool :=
  (nat_of_ascii r.1 <=? nat_of_ascii c) && (nat_of_ascii c <=? nat_of_ascii r.2).

Definition newline : ascii := "010"%char.

Definition cset_ok (a : cset) (c : ascii) : bool :=
  match a with
  | Lit c' => bool_decide (c = c')
  | Dot => negb (bool_decide (c = newline))
  | Ranges rs => existsb (in_range c) rs
  | Digit => in_range c ("0"%char, "9"%char)
  end.

Inductive t :=
  | Chr (a : cset)
  | Bol                                  (* [^] *)
  | Eol                                  (* [$] *)
  | Opt (r : t)                          (* [r?], greedy *)
  | Plus (a : cset)                      (* [a+], greedy *)
  | Cat (r1 r2 : t)
  | Group (n : nat) (r : t)              (* the [n]-th parenthesis *)
  | Eps.                                 (* the empty pattern *)

(** A literal word, one character after the other. *)
Fixpoint word (w : string) : t :=
  match w with
  | "" => Eps
  | String c w' => Cat (Chr (Lit c)) (word w')
  end.

(** [$] holds at the end of the subject and before a final newline. *)
Definition at_eol (s : string) : bool :=
  match s with
  | "" => true
  | String c "" => bool_decide (c = newline)
  | _ => false
  end.

Section matcher.
Context {R : Type}.

(** The continuation receives the position reached, the rest of the
    subject and the groups closed so far. *)
Definition cont := nat → string → gmap nat string → option R.

(** Greedy [a+]: the longest run first, then one character less. *)
Fixpoint plus_loop (a : cset) (i : nat) (s : string) (g : gmap nat string)
    (k : cont) : option R :=
  match s with
  | "" => None
  | String c s' =>
      if cset_ok a c then
        match plus_loop a (S i) s' g k with
        | Some x => Some x
        | None => k (S i) s' g
        end
      else None
  end.

Fixpoint run (r : t) (i : nat) (s : string) (g : gmap nat string)
    (k : cont) : option R :=
  match r with
  | Chr a =>
      match s with
      | "" => None
      | String c s' => if cset_ok a c then k (S i) s' g else None
      end
  | Bol => if i =? 0 then k i s g else None
  | Eol => if at_eol s then k i s g else None
  | Opt r' =>
      match run r' i s g k with
      | Some x => Some x
      | None => k i s g
      end
  | Plus a => plus_loop a i s g k
  | Cat r1 r2 => run r1 i s g (λ j s' g', run r2 j s' g' k)
  | Group n r' => run r' i s g (λ j s' g', k j s' (<[n := Py.take (j - i) s]> g'))
  | Eps => k i s g
  end.
End matcher.

(** A match object: the groups that took part. *)
Abbreviation match_obj := (gmap nat string).

Definition accept : @cont match_obj := λ _ _ g, Some g.

(** [re.match(r, s)]: a match starting at position 0. *)
Definition match_ (r : t) (s : string) : option match_obj := run r 0 s ∅ accept.

(** [re.search(r, s)]: the match at the leftmost position that has one. *)
Fixpoint search_go (r : t) (i : nat) (s : string) : option match_obj :=
  match run r i s ∅ accept with
  | Some m => Some m
  | None =>
      match s with
      | "" => None
      | String _ s' => search_go r (S i) s'
      end
  end.

Definition search (r : t) (s : string) : option match_obj := search_go r 0 s.

(** [m.group(n)] *)
Definition group (m : match_obj) (n : nat) : result string :=
  match m !! n with Some x => Ok x | None => Raise IndexError end.

End Re.

(** ** [posixpath] *)

Module PosixPath.

(** [os.path.basename(p)]: [i = p.rfind('/') + 1; return p[i:]] *)
Definition basename (p : string) : string :=
  let i := (Py.rfind p "/" + 1)%Z in
  Py.slice p (Some i) None.

(** The loop of [genericpath._splitext] that skips leading dots; [n] is
    the number of rounds left, [dotIndex - filenameIndex]. *)
Fixpoint splitext_loop (n : nat) (p : string) (filenameIndex dotIndex : Z)
    : option (string * string) :=
  match n with
  | 0 => None
  | S n' =>
      if bool_decide (Py.slice p (Some filenameIndex) (Some (filenameIndex + 1)%Z) ≠ ".")
      then Some (Py.slice p None (Some dotIndex), Py.slice p (Some dotIndex) None)
      else splitext_loop n' p (filenameIndex + 1)%Z dotIndex
  end.

(** [os.path.splitext(p)] *)
Definition splitext (p : string) : string * string :=
  let sepIndex := Py.rfind p "/" in
  let dotIndex := Py.rfind p "." in
  let whole := (p, Py.slice p None (Some 0%Z)) in
  if (sepIndex <? dotIndex)%Z then
    let filenameIndex := (sepIndex + 1)%Z in
    from_option id whole
      (splitext_loop (Z.to_nat (dotIndex - filenameIndex)) p filenameIndex dotIndex)
  else whole.

End PosixPath.

(** ** [pathlib]: pure paths *)

Module Path.

(** A path is the list of its parts, as [PurePath.parts] gives them; an
    absolute path starts with the part ["/"].  Paths are compared part
    by part: [".."] is kept as a part and is not resolved. *)
Abbreviation t := (list string).

Definition keep_part (x : string) : bool :=
  negb (bool_decide (x = "")) && negb (bool_decide (x = ".")).

(** [Path(s)]: empty parts and ["."] are dropped. *)
Definition parse (s : string) : t :=
  (if Py.startswith s "/" then ["/"] else []) ++ filter keep_part (Py.split s "/" (-1)).

(** [p / s]: an absolute [s] replaces [p]. *)
Definition join (p : t) (s : string) : t :=
  if Py.startswith s "/" then parse s else p ++ parse s.

(** [p.name] *)
Definition name (p : t) : string :=
  match last p with
  | Some n => if bool_decide (n = "/") then "" else n
  | None => ""
  end.

(** [p.parent] *)
Definition parent (p : t) : t :=
  if bool_decide (p = ["/"]) then p else removelast p.

(** [p.suffix]:
    [i = name.rfind('.'); name[i:] if 0 < i < len(name) - 1 else ''] *)
Definition suffix (p : t) : string :=
  let name := name p in
  let i := Py.rfind name "." in
  if (0 <? i)%Z && (i <? Z.of_nat (String.length name) - 1)%Z
  then Py.slice name (Some i) None else "".

End Path.

(** The operator [/] of [pathlib]. *)
Infix "</>" := Path.join (at level 40, left associativity) : stdpp_scope.

(** ** The filesystem *)

Module Fs.

Inductive node :=
  | File (data : string)    (* content and metadata *)
  | Dir.

Global Instance node_eq_dec : EqDecision node.
Proof. solve_decision. Defined.

(** The entries of the filesystem by path.  The working directory [[]]
    and the root [["/"]] are directories that always exist. *)
Abbreviation t := (gmap Path.t node).

Definition lookup (fs : gmap Path.t node) (p : Path.t) : option node :=
  if bool_decide (p = [] ∨ p = ["/"]) then Some Dir else fs !! p.

(** The proper prefixes of [p]: the directories that the operating
    system goes through to reach [p]. *)
Definition ancestors (p : Path.t) : list Path.t :=
  (λ k, take k p) <$> seq 0 (length p).

(** The error for a path that is not there: [ENOTDIR] when one of its
    ancestors is a regular file, [ENOENT] otherwise. *)
Definition not_found (fs : gmap Path.t node) (p : Path.t) : exn :=
  if existsb (λ q, match lookup fs q with Some (File _) => true | _ => false end)
       (ancestors p)
  then NotADirectoryError else FileNotFoundError.

(** The part [n] when [q] is the child [p ++ [n]] of [p]. *)
Definition child_name (p q : Path.t) : option string :=
  if bool_decide (length q = S (length p) ∧ take (length p) q = p) then last q else None.

(** The names under [p], in the order of the map. *)
Definition names (fs : gmap Path.t node) (p : Path.t) : list string :=
  omap (λ e, child_name p e.1) (map_to_list fs).

End Fs.

(** ** Computations on the filesystem *)

Definition io (A : Type) : Type := gmap Path.t Fs.node → result A * gmap Path.t Fs.node.

Global Instance io_ret : MRet io := λ A a fs, (Ok a, fs).

Global Instance io_bind : MBind io := λ A B f m fs,
  match m fs with
  | (Ok a, fs') => f a fs'
  | (Raise e, fs') => (Raise e, fs')
  end.

(** A pure computation that may raise. *)
Definition io_lift {A} (x : result A) : io A := λ fs, (x, fs).

(** [for x in l: body(x)] *)
Fixpoint for_ {A} (l : list A) (body : A → io unit) : io unit :=
  match l with
  | [] => mret ()
  | x :: l' => body x ;; for_ l' body
  end.

(** A loop that builds a value: [acc = init; for x in l: acc = step(acc, x)] *)
Fixpoint for_acc {A B} (l : list A) (acc : B) (step : B → A → io B) : io B :=
  match l with
  | [] => mret acc
  | x :: l' => acc' ← step acc x; for_acc l' acc' step
  end.

Section filesystem.

(** The order in which the operating system lists a directory: some
    arrangement of its entries, not necessarily sorted. *)
Variable scan : list string → list string.
Hypothesis scan_perm : ∀ l, scan l ≡ₚ l.

(** [os.listdir(p)] *)
Definition listdir (p : Path.t) : io (list string) := λ fs,
  match Fs.lookup fs p with
  | Some Fs.Dir => (Ok (scan (Fs.names fs p)), fs)
  | Some (Fs.File _) => (Raise NotADirectoryError, fs)
  | None => (Raise (Fs.not_found fs p), fs)
  end.

(** [p.iterdir()]: the children, each the path [p] with one more part. *)
Definition iterdir (p : Path.t) : io (list Path.t) :=
  names ← listdir p; mret ((λ n, p ++ [n]) <$> names).

(** [p.is_file()] and [os.path.isdir(p)] *)
Definition is_file (p : Path.t) : io bool := λ fs,
  (Ok (match Fs.lookup fs p with Some (Fs.File _) => true | _ => false end), fs).

Definition isdir (p : Path.t) : io bool := λ fs,
  (Ok (match Fs.lookup fs p with Some Fs.Dir => true | _ => false end), fs).

(** [p.mkdir(exist_ok=True)]: the parent has to be there.  [Path.mkdir]
    passes [os.mkdir]'s error on unless [p] is a directory already. *)
Definition mkdir_exist_ok (p : Path.t) : io unit := λ fs,
  match Fs.lookup fs p with
  | Some Fs.Dir => (Ok (), fs)
  | Some (Fs.File _) => (Raise FileExistsError, fs)
  | None =>
      match Fs.lookup fs (Path.parent p) with
      | Some Fs.Dir => (Ok (), <[p := Fs.Dir]> fs)
      | Some (Fs.File _) => (Raise NotADirectoryError, fs)
      | None => (Raise (Fs.not_found fs p), fs)
      end
  end.

(** [shutil.copy2(src, dst)]: into [dst] when it is a directory; content
    and metadata are copied, an existing file is overwritten. *)
Definition copy2 (src dst : Path.t) : io unit := λ fs,
  let dst :=
    match Fs.lookup fs dst with
    | Some Fs.Dir => dst </> Path.name src
    | _ => dst
    end in
  match Fs.lookup fs src with
  | None => (Raise (Fs.not_found fs src), fs)
  | Some Fs.Dir => (Raise IsADirectoryError, fs)
  | Some (Fs.File data) =>
      if bool_decide (src = dst) then (Raise SameFileError, fs)
      else match Fs.lookup fs dst with
           | Some Fs.Dir => (Raise IsADirectoryError, fs)
           | _ =>
               match Fs.lookup fs (Path.parent dst) with
               | Some Fs.Dir => (Ok (), <[dst := Fs.File data]> fs)
               | Some (Fs.File _) => (Raise NotADirectoryError, fs)
               | None => (Raise (Fs.not_found fs dst), fs)
               end
           end
  end.

(** [p.unlink()] *)
Definition unlink (p : Path.t) : io unit := λ fs,
  match Fs.lookup fs p with
  | Some (Fs.File _) => (Ok (), delete p fs)
  | Some Fs.Dir => (Raise IsADirectoryError, fs)
  | None => (Raise (Fs.not_found fs p), fs)
  end.

End filesystem.

(** ** [organize_files.py] *)

Module OrganizeFiles.

Import Re.

(** [^_?KEYWORD] *)
Definition prefix_pattern (keyword : string) : Re.t :=
  Cat Bol (Cat (Opt (Chr (Lit "_"%char))) (word keyword)).

Definition patterns : list (Re.t * string) :=
  [ (prefix_pattern "IconArt", "IconArt");
    (prefix_pattern "Frame", "Frame");
    (prefix_pattern "Doodad", "Doodad");
    (prefix_pattern "Window", "Window");
    (prefix_pattern "Button", "Button") ].

(** [([A-Za-z]+)] *)
Definition letters : Re.t :=
  Group 1 (Plus (Ranges [("A"%char, "Z"%char); ("a"%char, "z"%char)])).

(** [for pattern, category in patterns:
       if re.match(pattern, s): return category] *)
Fixpoint first_match (ps : list (Re.t * string)) (s : string) : option string :=
  match ps with
  | [] => None
  | (pattern, category) :: ps' =>
      match Re.match_ pattern s with
      | Some _ => Some category
      | None => first_match ps' s
      end
  end.

(** [match = re.match(r'([A-Za-z]+)', s); if match: return match.group(1)];
    [None] when the [if] is not taken. *)
Definition leading_letters (s : string) : result (option string) :=
  match Re.match_ letters s with
  | Some m => Some <$> Re.group m 1
  | None => Ok None
  end.

Definition extract_category (filename : string) : result string :=
  filename ←
    (if Py.contains "/" filename
     then Py.item_last (Py.split filename "/" (-1))
     else Ok filename);
  let base_filename := PosixPath.basename filename in
  match first_match patterns base_filename with
  | Some category => Ok category
  | None =>
      returned ←
        (if Py.contains "__" filename then
           after_double_underscore ← Py.item (Py.split filename "__" 1) 1;
           match first_match patterns after_double_underscore with
           | Some category => Ok (Some category)
           | None => leading_letters after_double_underscore
           end
         else Ok None);
      match returned with
      | Some category => Ok category
      | None =>
          returned ←
            (if Py.startswith base_filename "_" then
               let name_without_underscore := Py.slice base_filename (Some 1%Z) None in
               leading_letters name_without_underscore
             else Ok None);
          match returned with
          | Some category => Ok category
          | None => Ok (PosixPath.splitext filename).1
          end
      end
  end.

(** [categories[category].append(file_path)] on a [defaultdict(list)]:
    keys stay in the order of their first insertion. *)
Fixpoint dict_append (categories : list (string * list Path.t))
    (category : string) (file_path : Path.t) : list (string * list Path.t) :=
  match categories with
  | [] => [(category, [file_path])]
  | (c, file_paths) :: rest =>
      if bool_decide (c = category) then (c, file_paths ++ [file_path]) :: rest
      else (c, file_paths) :: dict_append rest category file_path
  end.

Section run.

Variable scan : list string → list string.

(** [not file_types or item.suffix.lower() in file_types] *)
Definition type_selected (file_types : list string) (item : Path.t) : bool :=
  bool_decide (file_types = []) || bool_decide (Py.lower (Path.suffix item) ∈ file_types).

(** [item.suffix.lower() in file_types] *)
Definition type_listed (file_types : list string) (item : Path.t) : bool :=
  bool_decide (Py.lower (Path.suffix item) ∈ file_types).

Definition delete_non_foldered_files (directory_path : Path.t)
    (file_types : option (list string)) : io unit :=
  let file_types := default [".svg"] file_types in
  items ← iterdir scan directory_path;
  for_ items (λ item,
    f ← is_file item;
    if (f : bool) && type_listed file_types item then unlink item else mret ()).

(** The listing loop: the matching files of the directory. *)
Definition list_files (directory_path : Path.t) (file_types : list string)
    : io (list Path.t) :=
  items ← iterdir scan directory_path;
  for_acc items [] (λ files item,
    f ← is_file item;
    if (f : bool) then
      if type_selected file_types item then mret (files ++ [item]) else mret files
    else mret files).

(** The grouping loop. *)
Definition group_files (files : list Path.t) : io (list (string * list Path.t)) :=
  for_acc files [] (λ categories file_path,
    let filename := Path.name file_path in
    category ← io_lift (extract_category filename);
    mret (dict_append categories category file_path)).

Definition organize_files (directory_path : Path.t) (output_dir : option Path.t)
    (file_types : option (list string)) (dry_run delete_originals : bool) : io unit :=
  output_dir ←
    match output_dir with
    | None => mret directory_path
    | Some output_dir => mkdir_exist_ok output_dir;; mret output_dir
    end;
  let file_types := default [".svg"] file_types in
  files ← list_files directory_path file_types;
  categories ← group_files files;
  for_ categories (λ '(category, file_paths),
    let category_dir := output_dir </> category in
    (if negb dry_run then mkdir_exist_ok category_dir else mret ());;
    for_ file_paths (λ file_path,
      let dest_path := category_dir </> Path.name file_path in
      if dry_run then mret ()
      else if bool_decide (file_path = dest_path) then mret ()
      else copy2 file_path dest_path));;
  if delete_originals && negb dry_run
  then delete_non_foldered_files directory_path (Some file_types)
  else mret ().

End run.

(** The namespace that [parser.parse_args()] returns: [directory] has a
    default, [output] and [types] are [None] when the option is not given,
    the two flags are [store_true] actions. *)
Module args.
Record t := Args {
  directory : string;
  output : option string;
  types : option (list string);
  dry_run : bool;
  delete_originals : bool }.
End args.

Section cli.

Variable scan : list string → list string.

(** [f".{t.lower().lstrip('.')}"] *)
Definition type_arg (t : string) : string := "." +:+ Py.lstrip (Py.lower t) "."%char.

(** [main], from the parsed arguments on.  [if args.types:] holds for a
    list that is not empty.  [organize_files] takes paths: the conversions
    [Path(directory_path)] and [Path(output_dir)] of its first lines are
    made here, at the call. *)
Definition main (args : args.t) : io unit :=
  let file_types : option (list string) := None in
  let file_types :=
    match args.types args with
    | Some ((_ :: _) as types) => Some (type_arg <$> types)
    | _ => file_types
    end in
  organize_files scan (Path.parse (args.directory args)) (Path.parse <$> args.output args)
    file_types (args.dry_run args) (args.delete_originals args).

End cli.

End OrganizeFiles.

(** ** [rename_sprites.py] *)

Module RenameSprites.

Import Re.

(** [a_(.+)$] *)
Definition a_pattern : Re.t :=
  Cat (word "a_") (Cat (Group 1 (Plus Dot)) Eol).

(** [DefineSprite_(\d+)_(.+)$] *)
Definition sprite_pattern : Re.t :=
  Cat (word "DefineSprite_")
    (Cat (Group 1 (Plus Digit)) (Cat (Chr (Lit "_"%char)) (Cat (Group 2 (Plus Dot)) Eol))).

Definition extract_proper_name (folder_name : string) : result string :=
  match Re.search a_pattern folder_name with
  | Some m => Re.group m 1
  | None =>
      match Re.search sprite_pattern folder_name with
      | Some m => Re.group m 2
      | None => Ok folder_name
      end
  end.

(** [f"{i:02d}"]: decimal, padded with zeros to two characters. *)
Definition format_02d (i : nat) : string :=
  let d := pretty i in
  if String.length d <? 2 then "0" +:+ d else d.

(** [enumerate(l, start)] *)
Fixpoint enumerate {A} (l : list A) (start : nat) : list (nat * A) :=
  match l with
  | [] => []
  | x :: l' => (start, x) :: enumerate l' (S start)
  end.

Section run.

Variable scan : list string → list string.

Definition output_dir : Path.t := Path.parse "sprites_done".

(** The body of the loop over the directories. *)
Definition process_folder (folder : string) : io unit :=
  proper_name ← io_lift (extract_proper_name folder);
  entries ← listdir scan (Path.parse folder);
  let svg_files := filter (λ f, Py.endswith (Py.lower f) ".svg" = true) entries in
  let num_files := length svg_files in
  subfolder ←
    (if 1 <? num_files
     then let subfolder := output_dir </> proper_name in
          mkdir_exist_ok subfolder;; mret (Some subfolder)
     else mret None);
  for_ (enumerate (Py.sorted svg_files) 1) (λ '(i, svg_file),
    let source_path := Path.parse folder </> svg_file in
    dest_path ←
      (if num_files =? 1 then
         let new_filename := proper_name +:+ ".svg" in
         mret (output_dir </> new_filename)
       else
         let new_filename := proper_name +:+ "_" +:+ format_02d i +:+ ".svg" in
         match subfolder with
         | Some subfolder => mret (subfolder </> new_filename)
         | None => io_lift (Raise TypeError)
         end);
    copy2 source_path dest_path).

Definition main : io unit :=
  mkdir_exist_ok output_dir;;
  names ← listdir scan [];
  directories ←
    for_acc names [] (λ directories d,
      b ← isdir (Path.parse d);
      if (b : bool) && negb (Py.startswith d "sprites_done")
      then mret (directories ++ [d]) else mret directories);
  for_ directories process_folder.

End run.

End RenameSprites.

(** * Vocabulary of the specification *)

(** The ASCII letters and the decimal digits. *)
Definition is_letter (c : ascii) : bool :=
  let n := nat_of_ascii c in
  ((65 <=? n) && (n <=? 90)) || ((97 <=? n) && (n <=? 122)).

Definition is_digit (c : ascii) : bool :=
  let n := nat_of_ascii c in (48 <=? n) && (n <=? 57).

Definition not_newline (c : ascii) : bool := negb (bool_decide (c = Re.newline)).

(** The longest prefix of [s] whose characters all satisfy [P]. *)
Fixpoint leading_run (P : ascii → bool) (s : string) : string :=
  match s with
  | "" => ""
  | String c s' => if P c then String c (leading_run P s') else ""
  end.

Fixpoint all_chars (P : ascii → bool) (s : string) : bool :=
  match s with
  | "" => true
  | String c s' => P c && all_chars P s'
  end.

(** The five category keywords, in the order in which they are tried. *)
Definition keywords : list string := ["IconArt"; "Frame"; "Doodad"; "Window"; "Button"].

(** [s] starts with the keyword, after an optional underscore. *)
Definition starts_with_keyword (s keyword : string) : bool :=
  Py.startswith s keyword || Py.startswith s ("_" +:+ keyword).

(** A name that a directory entry can bear. *)
Definition valid_name (n : string) : bool :=
  negb (bool_decide (n = "")) && negb (bool_decide (n = ".")) &&
  negb (bool_decide (n = "..")) && negb (Py.contains "/" n).

(** A relative path without a part [..]: it names a place under the
    working directory, which the operating system reaches part by part as
    the model does. *)
Definition plain (p : Path.t) : bool :=
  forallb (λ x, negb (bool_decide (x = "..")) && negb (bool_decide (x = "/"))) p.

(** Every entry of the filesystem bears a valid name. *)
Definition wf_names (fs : gmap Path.t Fs.node) : Prop :=
  map_Forall (λ p _, valid_name (Path.name p) = true) fs.

(** Hoare triples for [io]: from a state in [P] the computation ends in [Q]
    when it returns and in [E] when it raises. *)
Definition triple {A : Type} (P : gmap Path.t Fs.node → Prop) (m : io A)
    (Q : A → gmap Path.t Fs.node → Prop) (E : gmap Path.t Fs.node → Prop) : Prop :=
  ∀ fs, P fs →
    match m fs with
    | (Ok a, fs') => Q a fs'
    | (Raise _, fs') => E fs'
    end.

(** The category of a filename ([extract_category] never raises). *)
Definition category_of (filename : string) : string :=
  match OrganizeFiles.extract_category filename with
  | Ok category => category
  | Raise _ => ""
  end.

(** [p] is a regular file of [fs]. *)
Definition is_file_in (fs : gmap Path.t Fs.node) (p : Path.t) : bool :=
  match Fs.lookup fs p with Some (Fs.File _) => true | _ => false end.

(** A computation that leaves the filesystem as it is, whatever it returns. *)
Definition read_only {A : Type} (m : io A) : Prop := ∀ fs, (m fs).2 = fs.

(** A directory of sprites to organise, and no directory [sorted] yet. *)
Definition sprites : gmap Path.t Fs.node :=
  list_to_map
    [ (["sprites_done"], Fs.Dir);
      (["sprites_done"; "_FrameBendBronze01.svg"], Fs.File "bronze");
      (["sprites_done"; "_IconArtStoreFront14.svg"], Fs.File "store");
      (["sprites_done"; "notes.txt"], Fs.File "notes");
      (["sprites_done"; "old"], Fs.Dir);
      (["sprites_done"; "old"; "_WindowSkinHeader.svg"], Fs.File "skin") ].

(** A source directory where a regular file bears the name of a
    category. *)
Definition barred : gmap Path.t Fs.node :=
  list_to_map
    [ (["sprites_done"], Fs.Dir);
      (["sprites_done"; "Frame"], Fs.File "frame");
      (["sprites_done"; "_FrameBendBronze01.svg"], Fs.File "bronze");
      (["sprites_done"; "_IconArtStoreFront14.svg"], Fs.File "store") ].

(** The grouping of the files by category, as the grouping loop builds it. *)
Definition grouping (files : list Path.t) : list (string * list Path.t) :=
  foldl (λ categories file_path,
           OrganizeFiles.dict_append categories (category_of (Path.name file_path)) file_path)
        [] files.

(** [fs] still has every file of [fs0], and those directly in [dir] with
    their content; the files directly in [dir] bear valid names. *)
Definition files_kept (dir : Path.t) (fs0 fs : gmap Path.t Fs.node) : Prop :=
  (∀ p data, fs0 !! p = Some (Fs.File data) → ∃ data', fs !! p = Some (Fs.File data')) ∧
  (∀ n data, fs0 !! (dir ++ [n]) = Some (Fs.File data) →
             fs !! (dir ++ [n]) = Some (Fs.File data)) ∧
  (∀ n data, fs !! (dir ++ [n]) = Some (Fs.File data) → valid_name n = true).

(** The proper name of a folder ([extract_proper_name] never raises). *)
Definition proper_name_of (folder_name : string) : string :=
  match RenameSprites.extract_proper_name folder_name with
  | Ok name => name
  | Raise _ => ""
  end.

(** The name of the [k]-th file of a folder with several images. *)
Definition numbered_name (name : string) (k : nat) : string :=
  name +:+ "_" +:+ RenameSprites.format_02d k +:+ ".svg".

(** The image files among the entries of a folder, as the loop sees them. *)
Definition svg_files_of (scan : list string → list string) (fs : gmap Path.t Fs.node)
    (folder : string) : list string :=
  filter (λ f, Py.endswith (Py.lower f) ".svg" = true) (scan (Fs.names fs (Path.parse folder))).

(** Sprite exports: one folder with a single image, one with two images
    and a bitmap, one without images. *)
Definition exports : gmap Path.t Fs.node :=
  list_to_map
    [ (["sprites_done"], Fs.Dir);
      (["DefineSprite_2_a_WaistSide"], Fs.Dir);
      (["DefineSprite_2_a_WaistSide"; "1.svg"], Fs.File "waist");
      (["DefineSprite_3_Torso"], Fs.Dir);
      (["DefineSprite_3_Torso"; "2.svg"], Fs.File "back");
      (["DefineSprite_3_Torso"; "1.SVG"], Fs.File "front");
      (["DefineSprite_3_Torso"; "shape.png"], Fs.File "bitmap");
      (["DefineSprite_4_Empty"], Fs.Dir) ].


(** The names of the regular files directly in [dir] that the listing
    loop selects for the allowed suffixes. *)
Definition matching (fs : gmap Path.t Fs.node) (dir : Path.t) (allowed : list string)
    : list string :=
  filter (λ n, is_file_in fs (dir ++ [n]) && OrganizeFiles.type_selected allowed (dir ++ [n]) = true)
         (Fs.names fs dir).

(** The sprites again, with a destination [sorted] that already holds a
    file in its folder [Frame]. *)
Definition resorted : gmap Path.t Fs.node :=
  list_to_map
    [ (["sprites_done"], Fs.Dir);
      (["sprites_done"; "_FrameBendBronze01.svg"], Fs.File "bronze");
      (["sprites_done"; "_IconArtStoreFront14.svg"], Fs.File "store");
      (["sorted"], Fs.Dir);
      (["sorted"; "Frame"], Fs.Dir);
      (["sorted"; "Frame"; "_WindowSkinHeader.svg"], Fs.File "skin") ].

(** The state of the copying loops once the groups [groups] are dealt with,
    from the state [fs1] in which the loops started: the folder of each of
    these categories is there, each of their files has its copy in that
    folder, and nothing else has changed. *)
Definition staged (fs1 : gmap Path.t Fs.node) (dir out : Path.t)
    (groups : list (string * list Path.t)) (s : gmap Path.t Fs.node) : Prop :=
  (∀ q, s !! q = fs1 !! q ∨
        (∃ c, c ∈ groups.*1 ∧ q = out ++ [c] ∧ s !! q = Some Fs.Dir) ∨
        (∃ c ps n data, (c, ps) ∈ groups ∧ dir ++ [n] ∈ ps ∧ q = out ++ [c; n] ∧
           fs1 !! (dir ++ [n]) = Some (Fs.File data) ∧ s !! q = Some (Fs.File data))) ∧
  (∀ c ps, (c, ps) ∈ groups →
     s !! (out ++ [c]) = Some Fs.Dir ∧
     ∀ n, dir ++ [n] ∈ ps → s !! (out ++ [c; n]) = fs1 !! (dir ++ [n])).

(** The double-underscore rule gives nothing for [s]: [s] has no ["__"], or
    the text after its first ["__"] starts with no keyword and no letter. *)
Definition double_underscore_silent (s : string) : Prop :=
  Py.contains "__" s = false ∨
  ∃ pre after, s = pre +:+ "__" +:+ after ∧ Py.contains "__" (pre +:+ "_") = false ∧
    Forall (λ keyword, starts_with_keyword after keyword = false) keywords ∧
    leading_run is_letter after = "".

Definition is_dot (c : ascii) : bool := bool_decide (c = "."%char).

(** The distinct elements of a list, in the order of their first occurrence. *)
Fixpoint first_seen (l : list string) : list string :=
  match l with
  | [] => []
  | x :: l' => x :: filter (λ y, y ≠ x) (first_seen l')
  end.

(** A directory to organise in place with every file taken: [README] has
    no extension and no keyword, so its category is its own name. *)
Definition docs : gmap Path.t Fs.node :=
  list_to_map
    [ (["docs"], Fs.Dir);
      (["docs"; "README"], Fs.File "read me");
      (["docs"; "_FrameBendBronze01.svg"], Fs.File "bronze") ].

(** What the fan-out stage keeps of [fs]: no entry is removed, and an entry
    whose path does not start with the output directory is as it was. *)
Definition sources_kept (fs s : gmap Path.t Fs.node) : Prop :=
  (∀ p, is_Some (fs !! p) → is_Some (s !! p)) ∧
  (∀ p, head p ≠ Some "sprites_done" → s !! p = fs !! p).

(** Two sprite exports with the proper name [Head], one image each. *)
Definition twins : gmap Path.t Fs.node :=
  list_to_map
    [ (["sprites_done"], Fs.Dir);
      (["DefineSprite_1_a_Head"], Fs.Dir);
      (["DefineSprite_1_a_Head"; "1.svg"], Fs.File "first");
      (["DefineSprite_2_a_Head"], Fs.Dir);
      (["DefineSprite_2_a_Head"; "7.svg"], Fs.File "second") ].

(** A destination [sorted] that holds, in its folder [Frame], an older copy
    of a sprite and another file. *)
Definition stale : gmap Path.t Fs.node :=
  list_to_map
    [ (["sprites_done"], Fs.Dir);
      (["sprites_done"; "_FrameBendBronze01.svg"], Fs.File "bronze");
      (["sorted"], Fs.Dir);
      (["sorted"; "Frame"], Fs.Dir);
      (["sorted"; "Frame"; "_FrameBendBronze01.svg"], Fs.File "old bronze");
      (["sorted"; "Frame"; "_WindowSkinHeader.svg"], Fs.File "skin") ].

(** * Properties *)

(** ** Strings *)

Section string_facts.

Implicit Types (s t w : string) (c : ascii).

Lemma sapp_nil_l s : "" +:+ s = s.
Proof. reflexivity. Qed.

Lemma sapp_cons c s t : String c s +:+ t = String c (s +:+ t).
Proof. reflexivity. Qed.

Lemma sapp_nil_r s : s +:+ "" = s.
Proof. induction s as [|c s IH]; [done|]. by rewrite sapp_cons, IH. Qed.

Lemma sapp_assoc s t w : (s +:+ t) +:+ w = s +:+ t +:+ w.
Proof. induction s as [|c s IH]; [done|]. by rewrite !sapp_cons, IH. Qed.

Lemma sapp_length s t : String.length (s +:+ t) = String.length s + String.length t.
Proof. induction s as [|c s IH]; [done|]. rewrite sapp_cons. simpl. by rewrite IH. Qed.

Lemma sapp_eq_nil s t : s +:+ t = "" → s = "" ∧ t = "".
Proof. destruct s; [done|]. by rewrite sapp_cons. Qed.

Lemma str_length_zero s : String.length s = 0 → s = "".
Proof. by destruct s. Qed.

Lemma str_take_0 s : Py.take 0 s = "".
Proof. by destruct s. Qed.

Lemma str_drop_0 s : Py.drop 0 s = s.
Proof. by destruct s. Qed.

Lemma str_take_app s t : Py.take (String.length s) (s +:+ t) = s.
Proof.
  induction s as [|c s IH]; [apply str_take_0|].
  rewrite sapp_cons. simpl. by rewrite IH.
Qed.

Lemma str_drop_app s t : Py.drop (String.length s) (s +:+ t) = t.
Proof. induction s as [|c s IH]; [apply str_drop_0|]. by rewrite sapp_cons. Qed.

Lemma str_take_all s n : String.length s ≤ n → Py.take n s = s.
Proof.
  revert n. induction s as [|c s IH]; intros [|n] Hn; simpl in *; try done; [lia|].
  rewrite IH; [done|lia].
Qed.

Lemma str_take_drop n s : Py.take n s +:+ Py.drop n s = s.
Proof.
  revert s. induction n as [|n IH]; intros [|c s]; try done.
  simpl. by rewrite sapp_cons, IH.
Qed.

Lemma str_take_length n s : String.length (Py.take n s) = n `min` String.length s.
Proof.
  revert s. induction n as [|n IH]; intros [|c s]; try done.
  simpl. by rewrite IH.
Qed.

Lemma str_drop_length n s : String.length (Py.drop n s) = String.length s - n.
Proof. revert s. induction n as [|n IH]; intros [|c s]; try done. simpl. by rewrite IH. Qed.

Lemma str_drop_drop n m s : Py.drop n (Py.drop m s) = Py.drop (m + n) s.
Proof.
  revert s. induction m as [|m IH]; intros s; [by rewrite str_drop_0|].
  destruct s as [|c s]; [by destruct n|]. simpl. apply IH.
Qed.

(** [String.prefix w s] says that [s] starts with [w]. *)
Lemma str_prefix_app w t : String.prefix w (w +:+ t) = true.
Proof.
  induction w as [|c w IH]; [by destruct t|].
  rewrite sapp_cons. simpl. by destruct (ascii_dec c c).
Qed.

Lemma str_prefix_inv w s : String.prefix w s = true → s = w +:+ Py.drop (String.length w) s.
Proof.
  revert s. induction w as [|c w IH]; intros s Hp; [by rewrite str_drop_0|].
  destruct s as [|c' s]; [done|]. simpl in Hp.
  destruct (ascii_dec c c') as [->|]; [|done].
  rewrite sapp_cons. simpl. by rewrite <-IH.
Qed.

Lemma str_prefix_iff w s : String.prefix w s = true ↔ ∃ t, s = w +:+ t.
Proof.
  split; [intros Hp; eexists; by apply str_prefix_inv|].
  intros [t ->]. apply str_prefix_app.
Qed.

Lemma str_prefix_cons c w c' s :
  String.prefix (String c w) (String c' s) = bool_decide (c = c') && String.prefix w s.
Proof. simpl. destruct (ascii_dec c c'); by case_bool_decide. Qed.

Lemma str_prefix_nil w : String.prefix w "" = bool_decide (w = "").
Proof. by destruct w. Qed.

End string_facts.

(** ** Searching and splitting *)

Section find_facts.

Implicit Types (s t w p q : string) (c : ascii).

Lemma find_unfold s w :
  Py.find s w =
    if String.prefix w s then Some 0
    else match s with "" => None | String _ s' => S <$> Py.find s' w end.
Proof. by destruct s. Qed.

Lemma find_first s w pre t :
  s = pre +:+ w +:+ t →
  (∀ p q, s = p +:+ w +:+ q → String.length pre ≤ String.length p) →
  Py.find s w = Some (String.length pre).
Proof.
  revert s. induction pre as [|c pre IH]; intros s -> Hmin.
  - by rewrite sapp_nil_l, find_unfold, str_prefix_app.
  - rewrite sapp_cons, find_unfold.
    destruct (String.prefix w (String c (pre +:+ w +:+ t))) eqn:Hp.
    + apply str_prefix_iff in Hp as [q Hq].
      specialize (Hmin "" q). rewrite sapp_nil_l, sapp_cons in Hmin.
      specialize (Hmin Hq). simpl in Hmin. lia.
    + erewrite IH; [done..|]. intros p q Hpq.
      specialize (Hmin (String c p) q). rewrite !sapp_cons, Hpq in Hmin.
      specialize (Hmin eq_refl). simpl in Hmin. lia.
Qed.

Lemma find_Some s w n :
  Py.find s w = Some n →
  s = Py.take n s +:+ w +:+ Py.drop (n + String.length w) s ∧
  String.length (Py.take n s) = n ∧
  ∀ p q, s = p +:+ w +:+ q → n ≤ String.length p.
Proof.
  revert n. induction s as [|c s IH]; intros n; rewrite find_unfold.
  - rewrite str_prefix_nil. case_bool_decide as Hw; [|done]. intros [= <-]. subst w.
    split_and!; [done..|]. intros; lia.
  - destruct (String.prefix w (String c s)) eqn:Hp.
    + intros [= <-]. split_and!; [|done|intros; lia].
      rewrite sapp_nil_l. simpl. by apply str_prefix_inv.
    + destruct (Py.find s w) as [m|] eqn:Hf; [|done]. intros [= <-].
      destruct (IH m eq_refl) as (Hs & Hl & Hmin). split_and!.
      * simpl. by rewrite sapp_cons, <-Hs.
      * simpl. by rewrite Hl.
      * intros [|c' p] q Hpq.
        { rewrite sapp_nil_l in Hpq. rewrite Hpq, str_prefix_app in Hp. done. }
        rewrite sapp_cons in Hpq. injection Hpq as -> Hpq.
        specialize (Hmin _ _ Hpq). simpl. lia.
Qed.

Lemma find_None s w : Py.find s w = None → ∀ p q, s ≠ p +:+ w +:+ q.
Proof.
  induction s as [|c s IH]; rewrite find_unfold.
  - rewrite str_prefix_nil. case_bool_decide as Hw; [done|]. intros _ p q Hpq.
    symmetry in Hpq. apply sapp_eq_nil in Hpq as [_ Hpq].
    by apply sapp_eq_nil in Hpq as [? _].
  - destruct (String.prefix w (String c s)) eqn:Hp; [done|].
    destruct (Py.find s w) eqn:Hf; [done|]. intros _ [|c' p] q Hpq.
    + rewrite sapp_nil_l in Hpq. by rewrite Hpq, str_prefix_app in Hp.
    + rewrite sapp_cons in Hpq. injection Hpq as -> Hpq. by eapply IH.
Qed.

Lemma contains_true w s : Py.contains w s = true ↔ ∃ p q, s = p +:+ w +:+ q.
Proof.
  unfold Py.contains. rewrite bool_decide_eq_true. split.
  - intros [n Hn]. apply find_Some in Hn as (Hs & _). eauto.
  - intros (p & q & Hs). destruct (Py.find s w) eqn:Hf; [done|].
    by apply find_None with (p := p) (q := q) in Hf.
Qed.

Lemma contains_false w s : Py.contains w s = false ↔ ∀ p q, s ≠ p +:+ w +:+ q.
Proof.
  rewrite <-not_true_iff_false, contains_true. split.
  - intros Hno p q Hs. apply Hno. eauto.
  - intros Hno (p & q & Hs). by apply (Hno p q).
Qed.

Lemma contains_false_1 w s p q : Py.contains w s = false → s ≠ p +:+ w +:+ q.
Proof. rewrite contains_false. auto. Qed.

Lemma contains_find_None w s : Py.contains w s = false → Py.find s w = None.
Proof.
  unfold Py.contains. rewrite bool_decide_eq_false.
  destruct (Py.find s w); [|done]. intros []. done.
Qed.

Lemma rfind_nat_nil w : Py.rfind_nat "" w = if String.prefix w "" then Some 0 else None.
Proof. done. Qed.

Lemma rfind_nat_cons c s w :
  Py.rfind_nat (String c s) w =
    match Py.rfind_nat s w with
    | Some i => Some (S i)
    | None => if String.prefix w (String c s) then Some 0 else None
    end.
Proof. done. Qed.

Lemma rfind_nat_None s w : Py.contains w s = false → Py.rfind_nat s w = None.
Proof.
  rewrite contains_false. induction s as [|c s IH]; intros Hno.
  - rewrite rfind_nat_nil, str_prefix_nil. case_bool_decide as Hw; [|done]. subst w.
    by destruct (Hno "" "").
  - rewrite rfind_nat_cons, IH.
    + destruct (String.prefix w (String c s)) eqn:Hp; [|done].
      apply str_prefix_iff in Hp as [t Ht]. by destruct (Hno "" t).
    + intros p q ->. by destruct (Hno (String c p) q).
Qed.

Lemma rfind_nat_lt s c n : Py.rfind_nat s (String c "") = Some n → n < String.length s.
Proof.
  revert n. induction s as [|c' s IH]; intros n; [done|].
  rewrite rfind_nat_cons.
  destruct (Py.rfind_nat s (String c "")) as [m|]; [|].
  - intros [= <-]. specialize (IH m eq_refl). simpl. lia.
  - destruct (String.prefix _ _); intros [= <-]. simpl. lia.
Qed.

(** Every string with a ['/'] ends in a last segment without one. *)
Lemma last_occurrence c s :
  Py.contains (String c "") s = true →
  ∃ d seg, s = d +:+ String c seg ∧ Py.contains (String c "") seg = false.
Proof.
  induction s as [|c' s IH]; intros Hc.
  - apply contains_true in Hc as (p & q & Hs). symmetry in Hs.
    apply sapp_eq_nil in Hs as [_ Hs]. done.
  - destruct (Py.contains (String c "") s) eqn:Hs.
    + destruct (IH eq_refl) as (d & seg & -> & Hseg).
      exists (String c' d), seg. by rewrite sapp_cons.
    + apply contains_true in Hc as ([|c'' p] & q & Hpq).
      * rewrite sapp_nil_l, sapp_cons, sapp_nil_l in Hpq. injection Hpq as -> ->.
        exists "", q. by rewrite sapp_nil_l.
      * rewrite sapp_cons in Hpq. injection Hpq as -> ->.
        by destruct (proj1 (contains_false _ _) Hs p q).
Qed.

Lemma str_drop_app_le n s t :
  n ≤ String.length s → Py.drop n (s +:+ t) = Py.drop n s +:+ t.
Proof.
  revert s. induction n as [|n IH]; intros s Hn; [by rewrite !str_drop_0|].
  destruct s as [|c s]; [simpl in Hn; lia|]. rewrite sapp_cons. simpl in *. apply IH. lia.
Qed.

Lemma split_go_last fuel d seg c m :
  (m < 0)%Z → String.length d < fuel →
  Py.contains (String c "") seg = false →
  last (Py.split_go fuel (d +:+ String c seg) (String c "") m) = Some seg.
Proof.
  intros Hm Hfuel Hseg. revert d m Hm Hfuel.
  induction fuel as [|fuel IH]; intros d m Hm Hfuel; [lia|]. simpl.
  destruct (Z.eqb_spec m 0) as [|_]; [lia|].
  set (s := d +:+ String c seg).
  assert (Hs : s = d +:+ String c "" +:+ seg) by done.
  destruct (Py.find s (String c "")) as [i|] eqn:Hf.
  - apply find_Some in Hf as (Hi & Hl & Hmin). specialize (Hmin _ _ Hs).
    rewrite last_cons. simpl String.length.
    destruct (decide (i = String.length d)) as [->|Hne].
    + replace (String.length d + 1) with (String.length (d +:+ String c "")).
      2:{ rewrite sapp_length. done. }
      unfold s. replace (d +:+ String c seg) with ((d +:+ String c "") +:+ seg).
      2:{ by rewrite sapp_assoc. }
      rewrite str_drop_app. destruct fuel; simpl.
      * done.
      * destruct (Z.eqb_spec (m - 1) 0); [done|].
        by rewrite (contains_find_None _ _ Hseg).
    + unfold s. rewrite str_drop_app_le by lia.
      rewrite IH; [done|lia|]. rewrite str_drop_length. lia.
  - by apply find_None with (p := d) (q := seg) in Hf.
Qed.

Lemma split_last d seg c :
  Py.contains (String c "") seg = false →
  Py.item_last (Py.split (d +:+ String c seg) (String c "") (-1)) = Ok seg.
Proof.
  intros Hseg. unfold Py.item_last, Py.split.
  rewrite split_go_last; [done|lia| |done].
  rewrite sapp_length. simpl. lia.
Qed.

(** [s.split(w, 1)] cuts at the first occurrence of [w]. *)
Lemma split_once s w pre t :
  s = pre +:+ w +:+ t →
  (∀ p q, s = p +:+ w +:+ q → String.length pre ≤ String.length p) →
  Py.split s w 1 = [pre; t].
Proof.
  intros Hs Hmin. unfold Py.split. simpl.
  rewrite (find_first _ _ _ _ Hs Hmin). subst s.
  rewrite str_take_app. rewrite <-sapp_length, <-sapp_assoc, str_drop_app.
  by destruct (String.length ((pre +:+ w) +:+ t)).
Qed.

Lemma split_once_item s w :
  Py.contains w s = true → ∃ t, Py.item (Py.split s w 1) 1 = Ok t.
Proof.
  unfold Py.contains. rewrite bool_decide_eq_true. intros [n Hn].
  unfold Py.split. simpl. rewrite Hn.
  destruct (String.length s); simpl; eauto.
Qed.

End find_facts.

(** ** The matcher *)

Section re_facts.

Context {R : Type}.
Implicit Types (s t w : string) (c : ascii) (k : @Re.cont R) (g : gmap nat string).

Lemma run_word w i s g k :
  Re.run (Re.word w) i s g k =
    if String.prefix w s then k (i + String.length w) (Py.drop (String.length w) s) g
    else None.
Proof.
  revert i s. induction w as [|c w IH]; intros i s.
  - simpl. rewrite Nat.add_0_r. by destruct s.
  - destruct s as [|c' s]; [done|].
    rewrite str_prefix_cons. cbn [Re.word Re.run Re.cset_ok].
    rewrite (bool_decide_ext (c' = c) (c = c')) by done.
    case_bool_decide; [|done]. rewrite IH. simpl.
    by replace (i + S (String.length w)) with (S i + String.length w) by lia.
Qed.

Lemma run_cat r1 r2 i s g k :
  Re.run (Re.Cat r1 r2) i s g k = Re.run r1 i s g (λ j s' g', Re.run r2 j s' g' k).
Proof. done. Qed.

Lemma plus_loop_nil a i g k : Re.plus_loop a i "" g k = None.
Proof. done. Qed.

Lemma plus_loop_cons a i c s g k :
  Re.plus_loop a i (String c s) g k =
    if Re.cset_ok a c then
      match Re.plus_loop a (S i) s g k with
      | Some x => Some x
      | None => k (S i) s g
      end
    else None.
Proof. done. Qed.

(** The run [w] is taken whole when nothing longer leads to a match. *)
Lemma plus_loop_greedy a i w t g k x :
  w ≠ "" → all_chars (Re.cset_ok a) w = true →
  Re.plus_loop a (i + String.length w) t g k = None →
  k (i + String.length w) t g = Some x →
  Re.plus_loop a i (w +:+ t) g k = Some x.
Proof.
  revert i. induction w as [|c w IH]; intros i Hne Hall Hstop Hk; [done|].
  simpl in Hall. apply andb_true_iff in Hall as [Hc Hall].
  rewrite sapp_cons, plus_loop_cons, Hc. simpl String.length in *.
  replace (i + S (String.length w)) with (S i + String.length w) in * by lia.
  destruct w as [|c' w].
  - rewrite sapp_nil_l. simpl in *. rewrite Nat.add_0_r in *. by rewrite Hstop.
  - by rewrite (IH (S i)).
Qed.

(** A match of [a+] took some non-empty run. *)
Lemma plus_loop_Some a i s g k x :
  Re.plus_loop a i s g k = Some x →
  ∃ w t, s = w +:+ t ∧ w ≠ "" ∧ all_chars (Re.cset_ok a) w = true ∧
         k (i + String.length w) t g = Some x.
Proof.
  revert i. induction s as [|c s IH]; intros i; [done|].
  rewrite plus_loop_cons. destruct (Re.cset_ok a c) eqn:Hc; [|done].
  destruct (Re.plus_loop a (S i) s g k) as [y|] eqn:Hl.
  - intros [= ->]. destruct (IH _ Hl) as (w & t & -> & Hw & Hall & Hk).
    exists (String c w), t. split_and!; [done|done|by simpl; rewrite Hc|].
    simpl. by replace (i + S (String.length w)) with (S i + String.length w) by lia.
  - intros Hk. exists (String c ""), s. split_and!; [done|done|by simpl; rewrite Hc|].
    simpl. by replace (i + 1) with (S i) by lia.
Qed.

Lemma plus_loop_stop a i s g k :
  leading_run (Re.cset_ok a) s = "" → Re.plus_loop a i s g k = None.
Proof.
  destruct s as [|c s]; [done|]. rewrite plus_loop_cons. simpl.
  by destruct (Re.cset_ok a c).
Qed.

End re_facts.

Section run_facts.

Implicit Types (s t w : string) (c : ascii) (P : ascii → bool).

Lemma leading_run_split P s :
  s = leading_run P s +:+ Py.drop (String.length (leading_run P s)) s.
Proof.
  induction s as [|c s IH]; [done|]. simpl. destruct (P c); [|done].
  rewrite sapp_cons. simpl. by rewrite <-IH.
Qed.

Lemma take_leading_run P s :
  Py.take (String.length (leading_run P s)) s = leading_run P s.
Proof.
  induction s as [|c s IH]; [done|]. simpl. destruct (P c); [|done].
  simpl. by rewrite IH.
Qed.

Lemma leading_run_all P s : all_chars P (leading_run P s) = true.
Proof.
  induction s as [|c s IH]; [done|]. simpl.
  destruct (P c) eqn:Hc; [|done]. simpl. by rewrite Hc.
Qed.

Lemma leading_run_rest P s :
  leading_run P (Py.drop (String.length (leading_run P s)) s) = "".
Proof.
  induction s as [|c s IH]; [done|]. simpl.
  destruct (P c) eqn:Hc; simpl; [done|]. by rewrite Hc.
Qed.

Lemma leading_run_app P w t :
  all_chars P w = true → leading_run P (w +:+ t) = w +:+ leading_run P t.
Proof.
  induction w as [|c w IH]; [done|]. simpl. intros [Hc Hw]%andb_true_iff.
  rewrite !sapp_cons. simpl. by rewrite Hc, IH.
Qed.

Lemma letters_ok c :
  Re.cset_ok (Re.Ranges [("A"%char, "Z"%char); ("a"%char, "z"%char)]) c = is_letter c.
Proof. unfold is_letter. simpl. unfold Re.in_range. simpl. by rewrite orb_false_r. Qed.

Lemma digit_ok c : Re.cset_ok Re.Digit c = is_digit c.
Proof. done. Qed.

Lemma dot_ok c : Re.cset_ok Re.Dot c = not_newline c.
Proof. done. Qed.

Lemma leading_run_ext P Q s : (∀ c, P c = Q c) → leading_run P s = leading_run Q s.
Proof. intros HPQ. induction s as [|c s IH]; [done|]. simpl. by rewrite HPQ, IH. Qed.

Lemma all_chars_ext P Q s : (∀ c, P c = Q c) → all_chars P s = all_chars Q s.
Proof. intros HPQ. induction s as [|c s IH]; [done|]. simpl. by rewrite HPQ, IH. Qed.

End run_facts.

(** ** The category extractor *)

Section category_facts.

Import OrganizeFiles.
Implicit Types (s t seg d : string) (c : ascii).

Lemma match_prefix_pattern keyword s :
  Re.match_ (prefix_pattern keyword) s =
    if starts_with_keyword s keyword then Some ∅ else None.
Proof.
  unfold Re.match_, prefix_pattern, starts_with_keyword, Py.startswith.
  cbn [Re.run Nat.eqb]. rewrite sapp_cons, sapp_nil_l.
  destruct s as [|c s].
  - rewrite run_word, !str_prefix_nil. unfold Re.accept.
    case_bool_decide; by case_bool_decide.
  - rewrite str_prefix_cons. cbn [Re.cset_ok].
    rewrite (bool_decide_ext (c = "_"%char) ("_"%char = c)) by done.
    rewrite !run_word. unfold Re.accept.
    case_bool_decide; destruct (String.prefix keyword s);
      destruct (String.prefix keyword (String c s)); done.
Qed.

Lemma first_match_patterns s :
  first_match patterns s = List.find (starts_with_keyword s) keywords.
Proof.
  unfold patterns, keywords. cbn [first_match List.find].
  rewrite !match_prefix_pattern.
  repeat (destruct (starts_with_keyword s _); [done|]). done.
Qed.

Lemma first_match_keyword s category :
  first_match patterns s = Some category →
  category ∈ keywords ∧ starts_with_keyword s category = true.
Proof.
  rewrite first_match_patterns. intros Hf.
  apply List.find_some in Hf as [Hin Hs]. by apply list_elem_of_In in Hin.
Qed.

(** No filename starts with two different keywords. *)
Lemma keyword_unique s k1 k2 :
  k1 ∈ keywords → k2 ∈ keywords →
  starts_with_keyword s k1 = true → starts_with_keyword s k2 = true → k1 = k2.
Proof.
  unfold keywords, starts_with_keyword, Py.startswith. intros H1 H2 Hs1 Hs2.
  apply orb_true_iff in Hs1 as [Hs1|Hs1]; apply str_prefix_iff in Hs1 as [t ->];
    repeat (apply elem_of_cons in H1 as [->|H1]); try (by apply elem_of_nil in H1);
    repeat (apply elem_of_cons in H2 as [->|H2]); try (by apply elem_of_nil in H2);
    try done; rewrite ?sapp_assoc, ?sapp_cons, ?sapp_nil_l in Hs2; simpl in Hs2; done.
Qed.

Lemma first_match_starts s keyword :
  keyword ∈ keywords → starts_with_keyword s keyword = true →
  first_match patterns s = Some keyword.
Proof.
  intros Hin Hs. destruct (first_match patterns s) as [k|] eqn:Hf.
  - apply first_match_keyword in Hf as [Hk Hsk]. f_equal. by eapply keyword_unique.
  - rewrite first_match_patterns in Hf.
    apply List.find_none with (x := keyword) in Hf; [congruence|].
    by apply list_elem_of_In.
Qed.

Lemma leading_letters_run s :
  leading_letters s =
    Ok (if bool_decide (leading_run is_letter s = "") then None
        else Some (leading_run is_letter s)).
Proof.
  unfold leading_letters, Re.match_, letters. cbn [Re.run].
  set (a := Re.Ranges _).
  rewrite <-(leading_run_ext (Re.cset_ok a)) by apply letters_ok.
  case_bool_decide as Hrun.
  - by rewrite plus_loop_stop.
  - rewrite (leading_run_split (Re.cset_ok a) s) at 1.
    erewrite plus_loop_greedy; [|done|apply leading_run_all| |done].
    + cbn. unfold Re.group. by rewrite lookup_insert_eq, Nat.sub_0_r, take_leading_run.
    + apply plus_loop_stop, leading_run_rest.
Qed.

Lemma norm_index_nat n (i : Z) :
  (0 ≤ i ≤ Z.of_nat n)%Z → Py.norm_index n i = Z.to_nat i.
Proof.
  intros Hi. unfold Py.norm_index. destruct (Z.ltb_spec i 0); [lia|]. f_equal. lia.
Qed.

Lemma slice_from (i : nat) s :
  i ≤ String.length s → Py.slice s (Some (Z.of_nat i)) None = Py.drop i s.
Proof.
  intros Hi. unfold Py.slice. simpl. rewrite norm_index_nat by lia.
  rewrite Nat2Z.id. apply str_take_all. rewrite str_drop_length. lia.
Qed.

Lemma slice_to (i : nat) s :
  i ≤ String.length s → Py.slice s None (Some (Z.of_nat i)) = Py.take i s.
Proof.
  intros Hi. unfold Py.slice. simpl. rewrite norm_index_nat by lia.
  by rewrite Nat2Z.id, Nat.sub_0_r.
Qed.

Lemma basename_segment seg : Py.contains "/" seg = false → PosixPath.basename seg = seg.
Proof.
  intros Hno. unfold PosixPath.basename, Py.rfind.
  rewrite (rfind_nat_None _ _ Hno). apply (slice_from 0). lia.
Qed.

(** Only the last path segment counts. *)
Lemma extract_category_trim d seg :
  Py.contains "/" seg = false →
  extract_category (d +:+ "/" +:+ seg) = extract_category seg.
Proof.
  intros Hno. unfold extract_category at 1.
  assert (Py.contains "/" (d +:+ "/" +:+ seg) = true) as ->.
  { apply contains_true. eauto. }
  pose proof (split_last d seg "/"%char Hno) as Hl.
  rewrite sapp_cons, sapp_nil_l. rewrite Hl.
  unfold extract_category. by rewrite Hno.
Qed.

Lemma rfind_ge s w : (-1 ≤ Py.rfind s w)%Z.
Proof. unfold Py.rfind. destruct (Py.rfind_nat s w); lia. Qed.

Lemma rfind_lt s c : (Py.rfind s (String c "") < Z.of_nat (String.length s))%Z.
Proof.
  unfold Py.rfind. destruct (Py.rfind_nat s _) eqn:Hr; [|lia].
  apply rfind_nat_lt in Hr. lia.
Qed.

Lemma splitext_loop_Some n p fi di r :
  PosixPath.splitext_loop n p fi di = Some r →
  0 < n ∧ r.1 = Py.slice p None (Some di).
Proof.
  revert fi. induction n as [|n IH]; intros fi; [done|]. simpl.
  case_bool_decide.
  - intros [= <-]. split; [lia|done].
  - intros Hr. apply IH in Hr as [_ Hr]. split; [lia|done].
Qed.

Lemma splitext_nonempty p : p ≠ "" → (PosixPath.splitext p).1 ≠ "".
Proof.
  intros Hp. unfold PosixPath.splitext.
  pose proof (rfind_ge p "/") as Hsep. pose proof (rfind_lt p "."%char) as Hdot.
  destruct (_ <? _)%Z; [|done].
  destruct (PosixPath.splitext_loop _ _ _ _) as [r|] eqn:Hloop; [|done].
  apply splitext_loop_Some in Hloop as [Hn Hr]. simpl. rewrite Hr.
  rewrite <-(Z2Nat.id (Py.rfind p ".")) by lia. rewrite slice_to by lia.
  destruct (Z.to_nat (Py.rfind p ".")) as [|m] eqn:Hm; [lia|]. by destruct p.
Qed.

(** What a segment without ['/'] is mapped to. *)
Lemma extract_category_segment seg :
  Py.contains "/" seg = false →
  ∃ category, extract_category seg = Ok category ∧
    (category ∈ keywords ∨
     (category ≠ "" ∧ all_chars is_letter category = true) ∨
     category = (PosixPath.splitext seg).1).
Proof.
  intros Hno. unfold extract_category. rewrite Hno. cbn [mbind result_bind].
  rewrite (basename_segment _ Hno).
  destruct (first_match patterns seg) as [k|] eqn:Hf.
  { apply first_match_keyword in Hf as [? _]. eauto 10. }
  assert (Hrun : ∀ t, ∃ o, leading_letters t = Ok o ∧
            ∀ x, o = Some x → x ≠ "" ∧ all_chars is_letter x = true).
  { intros t. rewrite leading_letters_run. eexists; split; [done|].
    intros x. case_bool_decide; [done|]. intros [= <-].
    split; [done|apply leading_run_all]. }
  destruct (Py.contains "__" seg) eqn:Hdu.
  - destruct (split_once_item _ _ Hdu) as [after ->]. cbn [mbind result_bind].
    destruct (first_match patterns after) as [k|] eqn:Hfa.
    { apply first_match_keyword in Hfa as [? _]. eauto 10. }
    destruct (Hrun after) as (o & -> & Ho). cbn [mbind result_bind].
    destruct o as [x|]; [destruct (Ho x eq_refl); eauto 10|].
    destruct (Py.startswith seg "_"); cbn [mbind result_bind]; [|eauto 10].
    destruct (Hrun (Py.slice seg (Some 1%Z) None)) as (o & -> & Ho').
    destruct o as [x|]; [destruct (Ho' x eq_refl); eauto 10|eauto 10].
  - cbn [mbind result_bind].
    destruct (Py.startswith seg "_"); cbn [mbind result_bind]; [|eauto 10].
    destruct (Hrun (Py.slice seg (Some 1%Z) None)) as (o & -> & Ho').
    destruct o as [x|]; [destruct (Ho' x eq_refl); eauto 10|eauto 10].
Qed.

Lemma extract_category_Ok filename : extract_category filename = Ok (category_of filename).
Proof.
  unfold category_of. destruct (Py.contains "/" filename) eqn:Hslash.
  - apply last_occurrence in Hslash as (d & seg & -> & Hno).
    change (String "/" seg) with ("/" +:+ seg).
    rewrite extract_category_trim by done.
    by destruct (extract_category_segment seg Hno) as (category & -> & _).
  - by destruct (extract_category_segment filename Hslash) as (category & -> & _).
Qed.

End category_facts.

Section category_claims.

Import OrganizeFiles.
Implicit Types (s t seg d pre after : string) (c : ascii).

Lemma sapp_eq_snoc s t u c :
  s +:+ t = u +:+ String c "" → t = "" ∨ ∃ t', t = t' +:+ String c "".
Proof.
  revert u. induction s as [|a s IH]; intros u Hs.
  - right. by exists u.
  - destruct u as [|b u]; rewrite !sapp_cons in Hs.
    + rewrite sapp_nil_l in Hs. injection Hs as _ Hs.
      apply sapp_eq_nil in Hs as [_ ->]. by left.
    + injection Hs as _ Hs. by eapply IH.
Qed.

Lemma sapp_eq_app s1 t1 s2 t2 :
  s1 +:+ t1 = s2 +:+ t2 → String.length s2 ≤ String.length s1 →
  ∃ r, s1 = s2 +:+ r ∧ t2 = r +:+ t1.
Proof.
  revert s1. induction s2 as [|b s2 IH]; intros s1 Hs Hl.
  - exists s1. by rewrite sapp_nil_l in *.
  - destruct s1 as [|a s1]; [simpl in Hl; lia|].
    rewrite !sapp_cons in Hs. injection Hs as -> Hs.
    destruct (IH s1 Hs) as (r & -> & ->); [simpl in Hl; lia|].
    exists r. by rewrite sapp_cons.
Qed.

Lemma keyword_nonempty keyword : keyword ∈ keywords → keyword ≠ "".
Proof.
  unfold keywords. intros Hk ->.
  repeat (apply elem_of_cons in Hk as [Hk|Hk]; [done|]). by apply elem_of_nil in Hk.
Qed.

(** The ["__"] that follows [pre] is the first one of the filename. *)
Lemma first_double_underscore pre after p q :
  Py.contains "__" (pre +:+ "_") = false →
  pre +:+ "__" +:+ after = p +:+ "__" +:+ q →
  String.length pre ≤ String.length p.
Proof.
  intros Hno Heq. destruct (decide (String.length pre ≤ String.length p)) as [|Hlt]; [done|].
  destruct (sapp_eq_app _ _ _ _ Heq) as (r & -> & Hr); [lia|].
  rewrite sapp_length in Hlt.
  exfalso.
  destruct r as [|a r]; [simpl in Hlt; lia|].
  rewrite !sapp_cons, !sapp_nil_l in Hr. injection Hr as <- Hr.
  destruct r as [|b r].
  - apply (contains_false_1 _ _ p "" Hno). by rewrite sapp_assoc.
  - rewrite sapp_cons in Hr. injection Hr as <- _.
    apply (contains_false_1 _ _ p (r +:+ "_") Hno). by rewrite !sapp_assoc.
Qed.

(** C2: the directory part of a filename is dropped before the
    double-underscore test, so on the two filenames of the docstring the
    function returns ["1"], the stem of the last segment ["1.svg"], where
    the docstring and the claim give ["IconArt"] and ["Frame"]. *)
Theorem extract_category_directory_double_underscore :
  extract_category "DefineSprite_265__IconArtStoreFront14/1.svg" = Ok "1" ∧
  extract_category "DefineSprite_539__FrameBendBronze01/1.svg" = Ok "1".
Proof. split; vm_compute; reflexivity. Qed.

(** C3 (counterexample): a non-empty input that ends in ['/'] is mapped
    to the empty string. *)
Lemma extract_category_empty_result :
  "sprites/" ≠ "" ∧ extract_category "sprites/" = Ok "".
Proof. split; [done|]. vm_compute. reflexivity. Qed.

(** C3 (amended): [extract_category] never raises, on any string, and its
    result is the empty string exactly when the input is empty or ends in
    ['/']; for every other input the category is non-empty. *)
Theorem extract_category_total filename :
  ∃ category, extract_category filename = Ok category ∧
    (category = "" ↔ filename = "" ∨ ∃ d, filename = d +:+ "/").
Proof.
  assert (Hseg : ∀ seg, Py.contains "/" seg = false →
            ∃ category, extract_category seg = Ok category ∧
                        (category = "" ↔ seg = "")).
  { intros seg Hno. destruct (decide (seg = "")) as [->|Hne].
    { exists "". split; [by vm_compute|done]. }
    destruct (extract_category_segment seg Hno) as (category & Hc & Hcases).
    exists category. split; [done|]. split; [|done]. intros ->. exfalso.
    destruct Hcases as [Hk|[[? _]|Hs]]; [by apply keyword_nonempty in Hk|done|].
    by apply (splitext_nonempty seg). }
  destruct (Py.contains "/" filename) eqn:Hslash.
  - apply last_occurrence in Hslash as (d & seg & -> & Hno).
    change (String "/" seg) with ("/" +:+ seg).
    rewrite extract_category_trim by done.
    destruct (Hseg seg Hno) as (category & Hc & Hiff).
    exists category. split; [done|]. rewrite Hiff. split.
    + intros ->. right. by exists d.
    + intros [Hnil|[d' Hd']].
      { apply sapp_eq_nil in Hnil as [_ Hnil]. done. }
      apply sapp_eq_snoc in Hd' as [Hn|[t' Ht']]; [done|].
      change ("/" +:+ seg) with (String "/" seg) in Ht'.
      destruct t' as [|a t']; rewrite ?sapp_cons, ?sapp_nil_l in Ht'.
      * by injection Ht'.
      * injection Ht' as _ ->.
        by destruct (contains_false_1 _ _ t' "" Hno).
  - destruct (Hseg filename Hslash) as (category & Hc & Hiff).
    exists category. split; [done|]. rewrite Hiff. split; [by left|].
    intros [?|[d ->]]; [done|].
    by destruct (contains_false_1 _ _ d "" Hslash).
Qed.

(** C4 (counterexample): the substring after ["__"] matches no keyword
    and starts with the letters ["Zorblat"], yet the category is
    ["Frame"], because the filename itself starts with a keyword. *)
Lemma extract_category_fallback_shadowed :
  Py.split "Frame__Zorblat.svg" "__" 1 = ["Frame"; "Zorblat.svg"] ∧
  Forall (λ keyword, starts_with_keyword "Zorblat.svg" keyword = false) keywords ∧
  leading_run is_letter "Zorblat.svg" = "Zorblat" ∧
  extract_category "Frame__Zorblat.svg" = Ok "Frame".
Proof. split_and!; [by vm_compute| |by vm_compute..]. by repeat constructor. Qed.

(** C4 (amended): let a filename without ['/'] be [pre ++ "__" ++ after],
    this ["__"] being its first.  If neither the filename nor [after]
    starts with one of the five keywords (after an optional underscore),
    and [after] starts with a letter, then the category is the leading run
    of letters of [after]. *)
Theorem extract_category_fallback pre after :
  Py.contains "/" (pre +:+ "__" +:+ after) = false →
  Py.contains "__" (pre +:+ "_") = false →
  Forall (λ keyword, starts_with_keyword (pre +:+ "__" +:+ after) keyword = false) keywords →
  Forall (λ keyword, starts_with_keyword after keyword = false) keywords →
  leading_run is_letter after ≠ "" →
  extract_category (pre +:+ "__" +:+ after) = Ok (leading_run is_letter after).
Proof.
  intros Hslash Hfirst Hname Hafter Hrun.
  assert (Hnone : ∀ s, Forall (λ keyword, starts_with_keyword s keyword = false) keywords →
            first_match patterns s = None).
  { intros s Hs. destruct (first_match patterns s) as [k|] eqn:Hf; [|done].
    apply first_match_keyword in Hf as [Hk Hsk].
    rewrite Forall_forall in Hs. by rewrite (Hs k Hk) in Hsk. }
  unfold extract_category. rewrite Hslash. cbn [mbind result_bind].
  rewrite (basename_segment _ Hslash), (Hnone _ Hname).
  assert (Py.contains "__" (pre +:+ "__" +:+ after) = true) as ->.
  { apply contains_true. eauto. }
  rewrite (split_once _ "__" pre after eq_refl).
  2:{ intros p q. by apply first_double_underscore. }
  change (Py.item [pre; after] 1) with (Ok after). cbn [mbind result_bind].
  rewrite (Hnone _ Hafter), (leading_letters_run after).
  rewrite bool_decide_eq_false_2 by done. reflexivity.
Qed.

(** The filename of the specification: [extract_category
    "DefineSprite_10__Zorblat99.svg"] is ["Zorblat"]. *)
Lemma extract_category_fallback_witness :
  extract_category ("DefineSprite_10" +:+ "__" +:+ "Zorblat99.svg") = Ok "Zorblat".
Proof.
  apply (extract_category_fallback "DefineSprite_10" "Zorblat99.svg").
  - vm_compute. reflexivity.
  - vm_compute. reflexivity.
  - repeat constructor.
  - repeat constructor.
  - vm_compute. discriminate.
Defined.

(** C5 (counterexample): the filename starts with the keyword ["Frame"],
    but its last path segment does not, and the category is ["x"]. *)
Lemma extract_category_keyword_directory :
  "Frame" ∈ keywords ∧ starts_with_keyword "Frame/x.svg" "Frame" = true ∧
  extract_category "Frame/x.svg" = Ok "x".
Proof. split_and!; [|by vm_compute..]. unfold keywords. set_solver. Qed.

(** C5 (amended): the patterns are tried in the order IconArt, Frame,
    Doodad, Window, Button and the first that matches wins; each matches
    an optional underscore and the keyword at position 0.  For every
    filename whose last path segment starts with one of the keywords
    (after the optional underscore) the category is that keyword; so
    ["FrameDoodadThing.svg"] is a ["Frame"]. *)
Theorem extract_category_keyword :
  patterns.*2 = keywords ∧
  (∀ s keyword,
     is_Some (Re.match_ (prefix_pattern keyword) s) ↔ starts_with_keyword s keyword = true) ∧
  (∀ s, first_match patterns s = List.find (starts_with_keyword s) keywords) ∧
  (∀ keyword d seg,
     keyword ∈ keywords → Py.contains "/" seg = false →
     starts_with_keyword seg keyword = true →
     extract_category seg = Ok keyword ∧
     extract_category (d +:+ "/" +:+ seg) = Ok keyword) ∧
  extract_category "FrameDoodadThing.svg" = Ok "Frame".
Proof.
  split_and!; [done| |apply first_match_patterns| |by vm_compute].
  - intros s keyword. rewrite match_prefix_pattern.
    destruct (starts_with_keyword s keyword); split; done.
  - intros keyword d seg Hk Hno Hs.
    rewrite extract_category_trim by done.
    assert (extract_category seg = Ok keyword) as ->; [|done].
    unfold extract_category. rewrite Hno. cbn [mbind result_bind].
    by rewrite (basename_segment _ Hno), (first_match_starts _ _ Hk Hs).
Qed.

Lemma extract_category_keyword_witness :
  extract_category "_ButtonFrameStandard08.svg" = Ok "Button" ∧
  extract_category ("art/icons" +:+ "/" +:+ "_ButtonFrameStandard08.svg") = Ok "Button".
Proof.
  apply (proj1 (proj2 (proj2 (proj2 extract_category_keyword))) "Button").
  - unfold keywords. set_solver.
  - vm_compute. reflexivity.
  - vm_compute. reflexivity.
Defined.

End category_claims.

(** ** The name extractor *)

Section name_facts.

Import RenameSprites.
Implicit Types (s t pre rest ds name : string) (c : ascii) (g : gmap nat string).

Lemma search_go_skip r i pre t :
  (∀ p1 p2, pre = p1 +:+ p2 → p2 ≠ "" →
     Re.run r (i + String.length p1) (p2 +:+ t) ∅ Re.accept = None) →
  Re.search_go r i (pre +:+ t) = Re.search_go r (i + String.length pre) t.
Proof.
  revert i. induction pre as [|c pre IH]; intros i Hnone.
  - rewrite sapp_nil_l. simpl. by rewrite Nat.add_0_r.
  - rewrite sapp_cons. simpl.
    pose proof (Hnone "" (String c pre) eq_refl) as H0.
    rewrite sapp_cons in H0. simpl in H0. rewrite Nat.add_0_r in H0.
    rewrite H0 by done. rewrite IH.
    + f_equal. lia.
    + intros p1 p2 -> Hp2. specialize (Hnone (String c p1) p2).
      rewrite sapp_cons in Hnone. simpl in Hnone.
      replace (S i + String.length p1) with (i + S (String.length p1)) by lia. auto.
Qed.

Lemma search_go_None r i s :
  (∀ p1 p2, s = p1 +:+ p2 →
     Re.run r (i + String.length p1) p2 ∅ Re.accept = None) →
  Re.search_go r i s = None.
Proof.
  intros Hnone. rewrite <-(sapp_nil_r s), search_go_skip.
  - simpl. specialize (Hnone s ""). rewrite sapp_nil_r in Hnone. by rewrite Hnone.
  - intros p1 p2 -> _. rewrite sapp_nil_r. by apply Hnone.
Qed.

Lemma search_go_here r i s m :
  Re.run r i s ∅ Re.accept = Some m → Re.search_go r i s = Some m.
Proof. intros Hm. destruct s; simpl; by rewrite Hm. Qed.

(** [(.+)$] on a non-empty rest without newline takes all of it. *)
Lemma run_rest n j rest g :
  rest ≠ "" → all_chars not_newline rest = true →
  Re.run (Re.Cat (Re.Group n (Re.Plus Re.Dot)) Re.Eol) j rest g Re.accept
  = Some (<[n := rest]> g).
Proof.
  intros Hne Hall. cbn [Re.run].
  rewrite <-(sapp_nil_r rest) at 1.
  erewrite plus_loop_greedy; [done|done|done|done|].
  cbn [Re.at_eol]. unfold Re.accept. do 2 f_equal.
  replace (j + String.length rest - j) with (String.length rest) by lia.
  apply str_take_all. lia.
Qed.

Lemma run_rest_Some n j s g m :
  Re.run (Re.Cat (Re.Group n (Re.Plus Re.Dot)) Re.Eol) j s g Re.accept = Some m →
  s ≠ "".
Proof.
  cbn [Re.run]. intros Hm. apply plus_loop_Some in Hm as (w & t & -> & Hw & _).
  intros [-> _]%sapp_eq_nil. done.
Qed.

Lemma run_a_pattern i rest :
  rest ≠ "" → all_chars not_newline rest = true →
  Re.run a_pattern i ("a_" +:+ rest) ∅ Re.accept = Some {[1 := rest]}.
Proof.
  intros Hne Hall. unfold a_pattern.
  rewrite run_cat, run_word, str_prefix_app, str_drop_app. by rewrite run_rest.
Qed.

Lemma run_a_pattern_Some i s m :
  Re.run a_pattern i s ∅ Re.accept = Some m → ∃ rest, s = "a_" +:+ rest ∧ rest ≠ "".
Proof.
  unfold a_pattern. rewrite run_cat, run_word.
  destruct (String.prefix "a_" s) eqn:Hp; [|done].
  intros Hm%run_rest_Some. apply str_prefix_inv in Hp. eauto.
Qed.

Lemma run_sprite_pattern i ds rest :
  ds ≠ "" → all_chars is_digit ds = true →
  rest ≠ "" → all_chars not_newline rest = true →
  ∃ m, Re.run sprite_pattern i ("DefineSprite_" +:+ ds +:+ "_" +:+ rest) ∅ Re.accept = Some m ∧
       m !! 2 = Some rest.
Proof.
  intros Hds Hdig Hne Hall. unfold sprite_pattern.
  rewrite run_cat, run_word, str_prefix_app, str_drop_app.
  cbv beta. rewrite run_cat. cbn [Re.run].
  erewrite plus_loop_greedy; [|done|done|done|].
  - eexists. split; [done|]. apply lookup_insert_eq.
  - rewrite sapp_cons, sapp_nil_l. cbn [Re.cset_ok]. rewrite bool_decide_eq_true_2 by done.
    pose proof (run_rest 2) as Hrest. cbn [Re.run] in Hrest. by rewrite Hrest.
Qed.

Lemma run_sprite_pattern_Some i s m :
  Re.run sprite_pattern i s ∅ Re.accept = Some m →
  ∃ ds rest, s = "DefineSprite_" +:+ ds +:+ "_" +:+ rest ∧
             ds ≠ "" ∧ all_chars is_digit ds = true ∧ rest ≠ "".
Proof.
  unfold sprite_pattern. rewrite run_cat, run_word.
  destruct (String.prefix "DefineSprite_" s) eqn:Hp; [|done].
  apply str_prefix_inv in Hp. rewrite run_cat. cbn [Re.run]. intros Hm.
  apply plus_loop_Some in Hm as (ds & t & Ht & Hds & Hdig & Hm).
  destruct t as [|c t]; [done|]. cbn [Re.cset_ok] in Hm.
  case_bool_decide as Hc; [subst c|done].
  pose proof (run_rest_Some 2) as Hrest. cbn [Re.run] in Hrest. apply Hrest in Hm.
  exists ds, t. split_and!; [|done..]. by rewrite Hp, Ht.
Qed.

End name_facts.

Section name_claims.

Import RenameSprites.
Implicit Types (s t pre rest ds name : string) (c : ascii).

Lemma search_a_pattern_None name :
  (∀ p r, name = p +:+ "a_" +:+ r → r = "") → Re.search a_pattern name = None.
Proof.
  intros Hno. apply search_go_None. intros p1 p2 ->.
  destruct (Re.run a_pattern _ p2 ∅ Re.accept) eqn:Hm; [|done].
  apply run_a_pattern_Some in Hm as (rest & -> & Hne). by destruct (Hno p1 rest).
Qed.

(** C6 (counterexample): in ["sprite_a_"] followed by a newline the
    ["a_"] is followed by one character, but [.] does not match a
    newline: the name comes back unchanged and not as that character. *)
Lemma extract_proper_name_newline :
  let rest := String Re.newline "" in
  rest ≠ "" ∧
  extract_proper_name ("sprite_" +:+ "a_" +:+ rest) = Ok ("sprite_" +:+ "a_" +:+ rest) ∧
  extract_proper_name ("sprite_" +:+ "a_" +:+ rest) ≠ Ok rest.
Proof. split_and!; [done|by vm_compute|by vm_compute]. Qed.

(** C6 (amended): the rules are tried in order and the first that applies
    wins.  (1) If the name is [pre ++ "a_" ++ rest] with this ["a_"] the
    leftmost one, and [rest] is non-empty and has no newline, the result
    is [rest], whatever else the name matches.  (2) Otherwise, if no
    ["a_"] is followed by a character and the name is
    [pre ++ "DefineSprite_" ++ digits ++ "_" ++ rest], leftmost, with
    [rest] non-empty and without newline, the result is [rest].  (3) If
    neither shape is present the name is returned unchanged. *)
Theorem extract_proper_name_rules :
  (∀ pre rest,
     Py.contains "a_" (pre +:+ "a") = false →
     rest ≠ "" → all_chars not_newline rest = true →
     extract_proper_name (pre +:+ "a_" +:+ rest) = Ok rest) ∧
  (∀ name pre ds rest,
     name = pre +:+ "DefineSprite_" +:+ ds +:+ "_" +:+ rest →
     (∀ p r, name = p +:+ "a_" +:+ r → r = "") →
     (∀ p ds' r, name = p +:+ "DefineSprite_" +:+ ds' +:+ "_" +:+ r →
        ds' ≠ "" → all_chars is_digit ds' = true → r ≠ "" →
        String.length pre ≤ String.length p) →
     ds ≠ "" → all_chars is_digit ds = true →
     rest ≠ "" → all_chars not_newline rest = true →
     extract_proper_name name = Ok rest) ∧
  (∀ name,
     (∀ p r, name = p +:+ "a_" +:+ r → r = "") →
     (∀ p ds r, name = p +:+ "DefineSprite_" +:+ ds +:+ "_" +:+ r →
        ds ≠ "" → all_chars is_digit ds = true → r = "") →
     extract_proper_name name = Ok name) ∧
  extract_proper_name "DefineSprite_2_a_WaistSide_ThunderGolem" = Ok "WaistSide_ThunderGolem" ∧
  extract_proper_name "DefineSprite_1234_Torso_EscapedGladiator" = Ok "Torso_EscapedGladiator" ∧
  extract_proper_name "NoPatternHere" = Ok "NoPatternHere".
Proof.
  split_and!; [| | |by vm_compute..].
  - intros pre rest Hleft Hne Hall. unfold extract_proper_name, Re.search.
    rewrite search_go_skip.
    + erewrite search_go_here by (by apply run_a_pattern).
      unfold Re.group. by rewrite lookup_singleton_eq.
    + intros p1 p2 -> Hp2.
      destruct (Re.run a_pattern _ _ ∅ Re.accept) eqn:Hm; [|done]. exfalso.
      apply run_a_pattern_Some in Hm as (r & Hr & _).
      destruct p2 as [|a p2]; [done|].
      rewrite !sapp_cons, !sapp_nil_l in Hr. injection Hr as -> Hr.
      destruct p2 as [|b p2]; [done|].
      rewrite sapp_cons in Hr. injection Hr as -> _.
      apply (contains_false_1 _ _ p1 (p2 +:+ "a") Hleft).
      by rewrite !sapp_assoc, !sapp_cons, !sapp_nil_l.
  - intros name pre ds rest -> Hno Hleft Hds Hdig Hne Hall.
    unfold extract_proper_name. rewrite (search_a_pattern_None _ Hno).
    unfold Re.search. rewrite search_go_skip.
    + destruct (run_sprite_pattern (0 + String.length pre) ds rest) as (m & Hm & Hm2);
        [done..|].
      rewrite (search_go_here _ _ _ _ Hm). unfold Re.group. by rewrite Hm2.
    + intros p1 p2 -> Hp2.
      destruct (Re.run sprite_pattern _ _ ∅ Re.accept) eqn:Hm; [|done]. exfalso.
      apply run_sprite_pattern_Some in Hm as (ds' & r & Hr & Hds' & Hdig' & Hr').
      specialize (Hleft p1 ds' r). rewrite sapp_assoc, Hr in Hleft.
      specialize (Hleft eq_refl Hds' Hdig' Hr'). rewrite sapp_length in Hleft.
      destruct p2; [done|]. simpl in Hleft. lia.
  - intros name Hno Hnone. unfold extract_proper_name.
    rewrite (search_a_pattern_None _ Hno).
    assert (Re.search sprite_pattern name = None) as ->; [|done].
    apply search_go_None. intros p1 p2 ->.
    destruct (Re.run sprite_pattern _ p2 ∅ Re.accept) eqn:Hm; [|done].
    apply run_sprite_pattern_Some in Hm as (ds & r & -> & Hds & Hdig & Hr).
    by destruct (Hnone p1 ds r).
Qed.

Lemma extract_proper_name_rules_witness :
  extract_proper_name ("DefineSprite_2_" +:+ "a_" +:+ "WaistSide_ThunderGolem")
    = Ok "WaistSide_ThunderGolem" ∧
  extract_proper_name "DefineSprite_1234_Torso_EscapedGladiator"
    = Ok "Torso_EscapedGladiator" ∧
  extract_proper_name "NoPatternHere" = Ok "NoPatternHere".
Proof.
  destruct extract_proper_name_rules as (Ha & Hsprite & Hnone & _).
  assert (Hno : ∀ name, Py.contains "a_" name = false →
            ∀ p r, name = p +:+ "a_" +:+ r → r = "").
  { intros name Hc p r Hn. by destruct (contains_false_1 _ _ p r Hc). }
  split_and!.
  - apply Ha; by vm_compute.
  - apply (Hsprite _ "" "1234" "Torso_EscapedGladiator"); try by vm_compute.
    + apply Hno. by vm_compute.
    + intros. simpl. lia.
  - apply Hnone; [apply Hno; by vm_compute|].
    intros p ds r Hn. exfalso.
    apply (contains_false_1 "DefineSprite_" "NoPatternHere" p (ds +:+ "_" +:+ r));
      [by vm_compute|done].
Defined.

End name_claims.

(** ** Computations on the filesystem *)

Section io_facts.

Implicit Types (fs : gmap Path.t Fs.node) (p q : Path.t) (n : string).

Lemma io_bind_unfold {A B : Type} (m : io A) (f : A → io B) fs :
  (m ≫= f) fs =
    match m fs with
    | (Ok a, fs') => f a fs'
    | (Raise e, fs') => (Raise e, fs')
    end.
Proof. done. Qed.

Lemma io_bind_Ok {A B : Type} (m : io A) (f : A → io B) fs a fs' :
  m fs = (Ok a, fs') → (m ≫= f) fs = f a fs'.
Proof. intros Hm. by rewrite io_bind_unfold, Hm. Qed.

Lemma io_bind_Raise {A B : Type} (m : io A) (f : A → io B) fs e fs' :
  m fs = (Raise e, fs') → (m ≫= f) fs = (Raise e, fs').
Proof. intros Hm. by rewrite io_bind_unfold, Hm. Qed.

Lemma io_bind_inv {A B : Type} (m : io A) (f : A → io B) fs b fs' :
  (m ≫= f) fs = (Ok b, fs') → ∃ a fs1, m fs = (Ok a, fs1) ∧ f a fs1 = (Ok b, fs').
Proof.
  rewrite io_bind_unfold. destruct (m fs) as [[a|e] fs1]; [eauto|done].
Qed.

Lemma for_nil {A : Type} (body : A → io unit) fs : for_ [] body fs = (Ok (), fs).
Proof. done. Qed.

Lemma for_cons {A : Type} (x : A) l (body : A → io unit) :
  for_ (x :: l) body = (body x ≫= λ _, for_ l body).
Proof. done. Qed.

Lemma for_app {A : Type} (l1 l2 : list A) (body : A → io unit) fs :
  for_ (l1 ++ l2) body fs = (for_ l1 body ≫= λ _, for_ l2 body) fs.
Proof.
  revert fs. induction l1 as [|x l1 IH]; intros fs; [done|].
  rewrite <-app_comm_cons, !for_cons, !io_bind_unfold.
  destruct (body x fs) as [[[]|e] fs1]; [|done].
  by rewrite IH, io_bind_unfold.
Qed.

(** A loop whose step only computes. *)
Lemma for_acc_pure {A B : Type} (l : list A) (acc : B) (step : B → A → io B) (g : B → A → B) fs :
  (∀ b x, x ∈ l → step b x fs = (Ok (g b x), fs)) →
  for_acc l acc step fs = (Ok (foldl g acc l), fs).
Proof.
  revert acc. induction l as [|x l IH]; intros acc Hstep; [done|].
  simpl. rewrite io_bind_unfold, Hstep by left. apply IH.
  intros b y Hy. apply Hstep. by right.
Qed.

(** *** The rules of the triples *)

Lemma triple_ret {A : Type} (P : gmap Path.t Fs.node → Prop) (a : A) Q E :
  (∀ fs, P fs → Q a fs) → triple P (mret a) Q E.
Proof. intros HQ fs HP. by apply HQ. Qed.

Lemma triple_bind {A B : Type} P (m : io A) (f : A → io B) Q1 Q E :
  triple P m Q1 E → (∀ a, triple (Q1 a) (f a) Q E) → triple P (m ≫= f) Q E.
Proof.
  intros Hm Hf fs HP. rewrite io_bind_unfold. specialize (Hm fs HP).
  destruct (m fs) as [[a|e] fs1]; [|done]. by apply Hf.
Qed.

Lemma triple_weaken {A : Type} (P P' : gmap Path.t Fs.node → Prop) (m : io A) Q Q' E E' :
  triple P' m Q' E' → (∀ fs, P fs → P' fs) → (∀ a fs, Q' a fs → Q a fs) →
  (∀ fs, E' fs → E fs) → triple P m Q E.
Proof.
  intros Hm HP HQ HE fs Hfs. specialize (Hm fs (HP fs Hfs)).
  destruct (m fs) as [[a|e] fs1]; auto.
Qed.

Lemma triple_exn {A : Type} (P : gmap Path.t Fs.node → Prop) (m : io A)
    (Q : A → gmap Path.t Fs.node → Prop) (E E' : gmap Path.t Fs.node → Prop) :
  triple P m Q E' → (∀ fs, E' fs → E fs) → triple P m Q E.
Proof. intros Hm HE. eapply triple_weaken; [apply Hm|auto..]. Qed.

(** A loop keeps an invariant that its body keeps. *)
Lemma triple_for {A : Type} (I : gmap Path.t Fs.node → Prop) (l : list A) body E :
  (∀ x, x ∈ l → triple I (body x) (λ _, I) E) →
  triple I (for_ l body) (λ _, I) E.
Proof.
  induction l as [|x l IH]; intros Hbody; [by apply triple_ret|].
  rewrite for_cons. eapply triple_bind; [apply Hbody; by left|].
  intros []. apply IH. intros y Hy. apply Hbody. by right.
Qed.

(** The invariant may speak of the elements already dealt with. *)
Lemma triple_for_prefix {A : Type} (I : list A → gmap Path.t Fs.node → Prop) (l : list A) body E :
  (∀ l1 x l2, l = l1 ++ x :: l2 → triple (I l1) (body x) (λ _, I (l1 ++ [x])) E) →
  triple (I []) (for_ l body) (λ _, I l) E.
Proof.
  intros Hbody.
  cut (∀ l1 l2, l = l1 ++ l2 → triple (I l1) (for_ l2 body) (λ _, I l) E).
  { intros Hcut. by apply (Hcut [] l). }
  intros l1 l2. revert l1. induction l2 as [|x l2 IH]; intros l1 Hl.
  - rewrite app_nil_r in Hl. subst l1. by apply triple_ret.
  - rewrite for_cons. eapply triple_bind; [by apply (Hbody l1 x l2)|].
    intros []. apply IH. by rewrite <-app_assoc.
Qed.

Lemma triple_run {A : Type} P (m : io A) Q E fs :
  triple P m Q E → P fs →
  match m fs with (Ok a, fs') => Q a fs' | (Raise _, fs') => E fs' end.
Proof. intros Hm. apply Hm. Qed.

End io_facts.

(** ** Paths and directory listings *)

Section fs_facts.

Implicit Types (fs : gmap Path.t Fs.node) (p q : Path.t) (n : string).

Lemma valid_name_parts n :
  valid_name n = true → n ≠ "" ∧ n ≠ "." ∧ n ≠ ".." ∧ Py.contains "/" n = false.
Proof.
  unfold valid_name. rewrite !andb_true_iff, !negb_true_iff, !bool_decide_eq_false.
  by intros [[[??]?]?].
Qed.

Lemma valid_name_not_root n : valid_name n = true → n ≠ "/".
Proof. intros (_ & _ & _ & Hs)%valid_name_parts ->. done. Qed.

Lemma parse_valid n : valid_name n = true → Path.parse n = [n].
Proof.
  intros Hv. pose proof (valid_name_not_root _ Hv) as Hroot.
  apply valid_name_parts in Hv as (Hne & Hdot & _ & Hslash).
  unfold Path.parse, Py.startswith.
  destruct (String.prefix "/" n) eqn:Hp.
  { apply str_prefix_iff in Hp as [t ->].
    by destruct (contains_false_1 _ _ "" t Hslash). }
  unfold Py.split. simpl. rewrite (contains_find_None _ _ Hslash). simpl.
  rewrite filter_cons_True; [done|]. unfold Path.keep_part.
  by rewrite !bool_decide_eq_false_2.
Qed.

Lemma join_valid p n : valid_name n = true → p </> n = p ++ [n].
Proof.
  intros Hv. unfold Path.join. rewrite (parse_valid _ Hv).
  apply valid_name_parts in Hv as (_ & _ & _ & Hslash).
  unfold Py.startswith. destruct (String.prefix "/" n) eqn:Hp; [|done].
  apply str_prefix_iff in Hp as [t ->].
  by destruct (contains_false_1 _ _ "" t Hslash).
Qed.

Lemma name_child p n : n ≠ "/" → Path.name (p ++ [n]) = n.
Proof. intros Hn. unfold Path.name. rewrite last_snoc. by rewrite bool_decide_eq_false_2. Qed.


Lemma lookup_child fs p n : n ≠ "/" → Fs.lookup fs (p ++ [n]) = fs !! (p ++ [n]).
Proof.
  intros Hn. unfold Fs.lookup. rewrite bool_decide_eq_false_2; [done|].
  intros [Hp|Hp]; [by destruct p|]. destruct p as [|? [|]]; simplify_eq/=.
Qed.

Lemma child_name_Some p q n : Fs.child_name p q = Some n ↔ q = p ++ [n].
Proof.
  unfold Fs.child_name. case_bool_decide as Hq.
  - destruct Hq as [Hlen Htake]. rewrite last_Some. split.
    + intros [l' ->]. rewrite length_app in Hlen. simpl in Hlen.
      rewrite take_app_length' in Htake by lia. by subst.
    + intros ->. eauto.
  - split; [done|]. intros ->. destruct Hq.
    rewrite length_app, take_app_length. simpl. split; [lia|done].
Qed.

Lemma elem_of_names fs p n : n ∈ Fs.names fs p ↔ is_Some (fs !! (p ++ [n])).
Proof.
  unfold Fs.names. rewrite list_elem_of_omap. split.
  - intros ([q x] & Hin & Hq). apply elem_of_map_to_list in Hin.
    apply child_name_Some in Hq. simpl in Hq. subst q. eauto.
  - intros [x Hx]. exists (p ++ [n], x). split; [by apply elem_of_map_to_list|].
    by apply child_name_Some.
Qed.

Lemma NoDup_names fs p : NoDup (Fs.names fs p).
Proof.
  unfold Fs.names. pose proof (NoDup_fst_map_to_list fs) as Hnd.
  induction (map_to_list fs) as [|[q x] l IH]; [constructor|].
  rewrite fmap_cons in Hnd. apply NoDup_cons in Hnd as [Hq Hnd]. simpl.
  destruct (Fs.child_name p q) as [n|] eqn:Hn; [|by apply IH].
  apply NoDup_cons. split; [|by apply IH].
  intros ([q' x'] & Hin & Hq')%list_elem_of_omap.
  apply child_name_Some in Hn, Hq'. simpl in *. subst q q'.
  apply Hq. apply list_elem_of_fmap. by exists (p ++ [n], x').
Qed.

End fs_facts.

(** ** Computations that only read *)

Section read_only_facts.

Variable scan : list string → list string.
Implicit Types (fs : gmap Path.t Fs.node) (p q : Path.t) (n : string).

Lemma read_only_ret {A : Type} (a : A) : read_only (mret a).
Proof. done. Qed.

Lemma read_only_lift {A : Type} (x : result A) : read_only (io_lift x).
Proof. done. Qed.

Lemma read_only_bind {A B : Type} (m : io A) (f : A → io B) :
  read_only m → (∀ a, read_only (f a)) → read_only (m ≫= f).
Proof.
  intros Hm Hf fs. rewrite io_bind_unfold. specialize (Hm fs).
  destruct (m fs) as [[a|e] fs1]; simpl in *; subst; [apply Hf|done].
Qed.

Lemma bind_read_only_state {A B : Type} (m : io A) (f : A → io B) fs :
  (∀ a, read_only (f a)) → ((m ≫= f) fs).2 = (m fs).2.
Proof.
  intros Hf. rewrite io_bind_unfold. destruct (m fs) as [[a|e] fs1]; [apply Hf|done].
Qed.

Lemma read_only_for {A : Type} (l : list A) body :
  (∀ x, read_only (body x)) → read_only (for_ l body).
Proof.
  intros Hbody. induction l as [|x l IH]; [done|].
  rewrite for_cons. by apply read_only_bind.
Qed.

Lemma read_only_for_acc {A B : Type} (l : list A) (acc : B) step :
  (∀ b x, read_only (step b x)) → read_only (for_acc l acc step).
Proof.
  intros Hstep. revert acc. induction l as [|x l IH]; intros acc; [done|].
  simpl. apply read_only_bind; [done|]. intros b. apply IH.
Qed.

Lemma read_only_listdir p : read_only (listdir scan p).
Proof. intros fs. unfold listdir. by repeat case_match. Qed.

Lemma read_only_iterdir p : read_only (iterdir scan p).
Proof. apply read_only_bind; [apply read_only_listdir|done]. Qed.

Lemma read_only_is_file p : read_only (is_file p).
Proof. done. Qed.

Lemma read_only_isdir p : read_only (isdir p).
Proof. done. Qed.

Lemma read_only_list_files directory_path file_types :
  read_only (OrganizeFiles.list_files scan directory_path file_types).
Proof.
  apply read_only_bind; [apply read_only_iterdir|]. intros items.
  apply read_only_for_acc. intros files item.
  apply read_only_bind; [apply read_only_is_file|]. intros [];
    [destruct (OrganizeFiles.type_selected _ _)|]; apply read_only_ret.
Qed.

Lemma read_only_group_files files : read_only (OrganizeFiles.group_files files).
Proof.
  apply read_only_for_acc. intros categories file_path.
  apply read_only_bind; [apply read_only_lift|]. intros c. apply read_only_ret.
Qed.

End read_only_facts.

Section dry_run.

Import OrganizeFiles.

(** C1: a dry run changes nothing but for [output_dir.mkdir(exist_ok=True)],
    which is not guarded by [dry_run]: without an output directory the
    filesystem is left as it was, with one that does not exist yet the
    directory is created.  On [sprites] the dry run to [sorted] returns
    with the new directory [sorted] in place. *)
Theorem organize_files_dry_run :
  (∀ scan directory_path output_dir file_types delete_originals fs,
     (organize_files scan directory_path output_dir file_types true delete_originals fs).2
     = match output_dir with
       | None => fs
       | Some output_dir => (mkdir_exist_ok output_dir fs).2
       end) ∧
  sprites !! ["sorted"] = None ∧
  (organize_files id ["sprites_done"] (Some ["sorted"]) None true false sprites).1 = Ok () ∧
  (organize_files id ["sprites_done"] (Some ["sorted"]) None true false sprites).2 !! ["sorted"]
  = Some Fs.Dir.
Proof.
  split_and!; [|vm_compute; reflexivity..].
  intros scan directory_path output_dir file_types delete_originals fs.
  unfold organize_files. rewrite bind_read_only_state.
  - destruct output_dir as [o|]; [|done].
    by rewrite bind_read_only_state by (intros; apply read_only_ret).
  - intros out. apply read_only_bind; [apply read_only_list_files|]. intros files.
    apply read_only_bind; [apply read_only_group_files|]. intros categories.
    apply read_only_bind.
    + apply read_only_for. intros [category file_paths].
      apply read_only_bind; [apply read_only_ret|]. intros _.
      apply read_only_for. intros file_path. apply read_only_ret.
    + intros _. rewrite andb_false_r. apply read_only_ret.
Qed.

End dry_run.

(** ** The listing of the source directory *)

Section listing.

Import OrganizeFiles.
Variable scan : list string → list string.
Hypothesis scan_perm : ∀ l, scan l ≡ₚ l.
Implicit Types (fs : gmap Path.t Fs.node) (p q : Path.t) (n : string).

Lemma lookup_File fs p data :
  Fs.lookup fs p = Some (Fs.File data) ↔
  fs !! p = Some (Fs.File data) ∧ p ≠ [] ∧ p ≠ ["/"].
Proof.
  unfold Fs.lookup. case_bool_decide as Hp.
  - split; [done|]. intros (_ & ? & ?). by destruct Hp.
  - split; [|by intros []]. intros ?. split_and!; [done|..]; intros ->; apply Hp; auto.
Qed.

Lemma lookup_None fs p : Fs.lookup fs p = None → fs !! p = None.
Proof. unfold Fs.lookup. by case_bool_decide. Qed.

Lemma is_file_in_File fs p :
  is_file_in fs p = true ↔ ∃ data, Fs.lookup fs p = Some (Fs.File data).
Proof.
  unfold is_file_in. destruct (Fs.lookup fs p) as [[]|]; split; try done; eauto.
  all: by intros [? ?].
Qed.

Lemma listdir_Ok fs p :
  Fs.lookup fs p = Some Fs.Dir → listdir scan p fs = (Ok (scan (Fs.names fs p)), fs).
Proof. intros Hp. unfold listdir. by rewrite Hp. Qed.

Lemma listdir_Raise fs p :
  Fs.lookup fs p ≠ Some Fs.Dir → ∃ e, listdir scan p fs = (Raise e, fs).
Proof. intros Hp. unfold listdir. destruct (Fs.lookup fs p) as [[]|]; by eauto. Qed.

Lemma iterdir_Ok fs p :
  Fs.lookup fs p = Some Fs.Dir →
  iterdir scan p fs = (Ok ((λ n, p ++ [n]) <$> scan (Fs.names fs p)), fs).
Proof. intros Hp. unfold iterdir. by rewrite io_bind_unfold, listdir_Ok. Qed.

Lemma iterdir_Raise fs p :
  Fs.lookup fs p ≠ Some Fs.Dir → ∃ e, iterdir scan p fs = (Raise e, fs).
Proof.
  intros Hp. destruct (listdir_Raise fs p Hp) as [e He]. exists e.
  unfold iterdir. by rewrite io_bind_unfold, He.
Qed.

Lemma elem_of_scan_names fs p n : n ∈ scan (Fs.names fs p) ↔ is_Some (fs !! (p ++ [n])).
Proof. by rewrite scan_perm, elem_of_names. Qed.

Lemma foldl_snoc_filter {A : Type} (f : A → bool) (l acc : list A) :
  foldl (λ acc x, if f x then acc ++ [x] else acc) acc l = acc ++ filter (λ x, f x = true) l.
Proof.
  revert acc. induction l as [|x l IH]; intros acc; [by rewrite app_nil_r|].
  simpl. rewrite IH. destruct (f x) eqn:Hf.
  - rewrite filter_cons_True by done. by rewrite <-app_assoc.
  - rewrite filter_cons_False by congruence. done.
Qed.

(** The files that the listing loop selects. *)
Lemma list_files_Ok fs directory_path file_types :
  Fs.lookup fs directory_path = Some Fs.Dir →
  list_files scan directory_path file_types fs =
    (Ok (filter (λ item, is_file_in fs item && type_selected file_types item = true)
           ((λ n, directory_path ++ [n]) <$> scan (Fs.names fs directory_path))), fs).
Proof.
  intros Hdir. unfold list_files. rewrite io_bind_unfold, iterdir_Ok by done.
  erewrite for_acc_pure.
  - by rewrite foldl_snoc_filter.
  - intros files item _. rewrite io_bind_unfold. unfold is_file. fold (is_file_in fs item).
    by destruct (is_file_in fs item), (type_selected file_types item).
Qed.

Lemma list_files_Raise fs directory_path file_types :
  Fs.lookup fs directory_path ≠ Some Fs.Dir →
  ∃ e, list_files scan directory_path file_types fs = (Raise e, fs).
Proof.
  intros Hdir. destruct (iterdir_Raise fs directory_path Hdir) as [e He]. exists e.
  unfold list_files. by rewrite io_bind_unfold, He.
Qed.

(** C10: with [file_types = []] the extension filter is off: the listing
    loop selects every regular file that is directly in the source
    directory, whatever its extension (with [None], the default, only the
    files whose lower-cased suffix is [".svg"]).  On [sprites] the file
    [notes.txt] is then copied to its category folder, which it is not with
    the default. *)
Theorem list_files_empty_types fs directory_path :
  Fs.lookup fs directory_path = Some Fs.Dir →
  (∀ item, type_selected (default [".svg"] (Some [])) item = true) ∧
  (∀ item, type_selected (default [".svg"] None) item = true ↔
           Py.lower (Path.suffix item) = ".svg") ∧
  (∃ files,
     list_files scan directory_path (default [".svg"] (Some [])) fs = (Ok files, fs) ∧
     ∀ item, item ∈ files ↔
       (∃ n, item = directory_path ++ [n]) ∧ is_file_in fs item = true) ∧
  (organize_files id ["sprites_done"] None (Some []) false false sprites).2
    !! ["sprites_done"; "notes"; "notes.txt"] = Some (Fs.File "notes") ∧
  (organize_files id ["sprites_done"] None None false false sprites).2
    !! ["sprites_done"; "notes"; "notes.txt"] = None.
Proof.
  intros Hdir. split_and!; [done| | |vm_compute; reflexivity..].
  - intros item. unfold type_selected. simpl.
    rewrite bool_decide_eq_true, list_elem_of_singleton. done.
  - eexists. split; [by apply list_files_Ok|]. intros item.
    rewrite list_elem_of_filter, list_elem_of_fmap. simpl.
    rewrite andb_true_r. split.
    + intros [Hfile (n & -> & Hn)]. eauto.
    + intros [[n ->] Hfile]. split; [done|]. exists n. split; [done|].
      apply elem_of_scan_names. apply is_file_in_File in Hfile as [data Hd].
      apply lookup_File in Hd as [Hd _]. eauto.
Qed.

End listing.

Lemma list_files_empty_types_witness :
  ∃ files,
    OrganizeFiles.list_files id ["sprites_done"] (default [".svg"] (Some [])) sprites
      = (Ok files, sprites) ∧
    ∀ item, item ∈ files ↔
      (∃ n, item = ["sprites_done"] ++ [n]) ∧ is_file_in sprites item = true.
Proof.
  refine (proj1 (proj2 (proj2 (list_files_empty_types id _ sprites ["sprites_done"] _)))).
  - intros l. reflexivity.
  - vm_compute. reflexivity.
Defined.

(** ** What the grouping stage leaves in place *)

Section sources.

Import OrganizeFiles.
Variable scan : list string → list string.
Hypothesis scan_perm : ∀ l, scan l ≡ₚ l.
Implicit Types (fs : gmap Path.t Fs.node) (p q dir : Path.t) (n : string).

Lemma wf_names_child fs dir n x :
  wf_names fs → fs !! (dir ++ [n]) = Some x → valid_name n = true.
Proof.
  intros Hwf Hn. specialize (Hwf _ _ Hn). simpl in Hwf.
  unfold Path.name in Hwf. rewrite last_snoc in Hwf. by case_bool_decide.
Qed.

Lemma files_kept_refl fs dir : wf_names fs → files_kept dir fs fs.
Proof.
  intros Hwf. split_and!; [eauto..|]. intros n data Hn. by eapply wf_names_child.
Qed.

Lemma mkdir_kept dir fs0 p :
  triple (files_kept dir fs0) (mkdir_exist_ok p) (λ _, files_kept dir fs0) (files_kept dir fs0).
Proof.
  intros fs Hk. unfold mkdir_exist_ok.
  destruct (Fs.lookup fs p) as [[]|] eqn:Hp; [done..|].
  destruct (Fs.lookup fs (Path.parent p)) as [[]|]; [done| |done].
  apply lookup_None in Hp. destruct Hk as (K1 & K2 & K4). split_and!.
  - intros p' data Hp'. destruct (K1 _ _ Hp') as [data' Hd]. exists data'.
    rewrite lookup_insert_ne; [done|]. by intros ->; simplify_eq.
  - intros n data Hn. specialize (K2 _ _ Hn).
    rewrite lookup_insert_ne; [done|]. by intros ->; simplify_eq.
  - intros n data Hn. destruct (decide (p = dir ++ [n])) as [->|Hne].
    + by rewrite lookup_insert_eq in Hn.
    + rewrite lookup_insert_ne in Hn by done. eauto.
Qed.

Lemma copy2_kept dir fs0 n dst :
  valid_name n = true → last dst = Some n →
  triple (files_kept dir fs0) (copy2 (dir ++ [n]) dst)
    (λ _, files_kept dir fs0) (files_kept dir fs0).
Proof.
  intros Hv Hlast fs Hk. pose proof (valid_name_not_root _ Hv) as Hroot.
  unfold copy2. rewrite (name_child _ _ Hroot).
  set (dst' := match Fs.lookup fs dst with Some Fs.Dir => dst </> n | _ => dst end).
  assert (Hlast' : last dst' = Some n).
  { unfold dst'. destruct (Fs.lookup fs dst) as [[]|]; try done.
    rewrite join_valid by done. apply last_snoc. }
  destruct (Fs.lookup fs (dir ++ [n])) as [[data|]|]; [|done..].
  case_bool_decide as Hsame; [done|].
  destruct (Fs.lookup fs dst') as [[]|] eqn:Hdst';
    (destruct (Fs.lookup fs (Path.parent dst')) as [[]|]; try done).
  all: destruct Hk as (K1 & K2 & K4); split_and!.
  all: try (intros p' data' Hp'; destruct (K1 _ _ Hp') as [data'' Hd];
            destruct (decide (dst' = p')) as [->|];
            [rewrite lookup_insert_eq; eauto|rewrite lookup_insert_ne by done; eauto]).
  all: try (intros n' data' Hn'; specialize (K2 _ _ Hn');
            rewrite lookup_insert_ne; [done|]; intros Heq; apply Hsame;
            rewrite Heq, last_snoc in Hlast'; by simplify_eq).
  all: intros n' data' Hn'; destruct (decide (dst' = dir ++ [n'])) as [Heq|Hne];
    [rewrite Heq, last_snoc in Hlast'; by simplify_eq
    |rewrite lookup_insert_ne in Hn' by done; eauto].
Qed.

Lemma dict_append_elem categories category file_path c ps fp :
  (c, ps) ∈ dict_append categories category file_path → fp ∈ ps →
  fp = file_path ∨ ∃ ps0, (c, ps0) ∈ categories ∧ fp ∈ ps0.
Proof.
  induction categories as [|[c0 ps0] rest IH]; simpl.
  - intros [= -> ->]%list_elem_of_singleton. rewrite list_elem_of_singleton. auto.
  - case_bool_decide as Hc.
    + intros [Heq|Hin]%elem_of_cons Hfp.
      * simplify_eq. apply elem_of_app in Hfp as [?|Hfp].
        -- right. exists ps0. split; [by left|done].
        -- apply list_elem_of_singleton in Hfp. by left.
      * right. exists ps. split; [by right|done].
    + intros [Heq|Hin]%elem_of_cons Hfp.
      * simplify_eq. right. eexists. split; [by left|done].
      * destruct (IH Hin Hfp) as [|(ps1 & ? & ?)]; [by left|].
        right. exists ps1. split; [by right|done].
Qed.

Lemma grouping_elem files c ps fp : (c, ps) ∈ grouping files → fp ∈ ps → fp ∈ files.
Proof.
  unfold grouping.
  cut (∀ d, (c, ps) ∈ foldl (λ categories file_path,
                 dict_append categories (category_of (Path.name file_path)) file_path) d files →
            fp ∈ ps → fp ∈ files ∨ ∃ ps0, (c, ps0) ∈ d ∧ fp ∈ ps0).
  { intros Hcut Hin Hfp. destruct (Hcut [] Hin Hfp) as [|(? & Hnil & _)]; [done|].
    by apply elem_of_nil in Hnil. }
  induction files as [|x files IH]; intros d; simpl; [eauto|].
  intros Hin Hfp. destruct (IH _ Hin Hfp) as [|(ps0 & Hin0 & Hfp0)]; [left; by right|].
  destruct (dict_append_elem _ _ _ _ _ _ Hin0 Hfp0) as [->|]; [left; by left|by right].
Qed.

Lemma group_files_Ok files fs : group_files files fs = (Ok (grouping files), fs).
Proof.
  unfold group_files, grouping. apply for_acc_pure. intros categories file_path _.
  rewrite io_bind_unfold. unfold io_lift. by rewrite extract_category_Ok.
Qed.

End sources.

(** ** Copying and deleting *)

Section deletion.

Import OrganizeFiles.
Variable scan : list string → list string.
Hypothesis scan_perm : ∀ l, scan l ≡ₚ l.
Implicit Types (fs : gmap Path.t Fs.node) (p q dir : Path.t) (n : string).

Lemma is_file_in_lookup fs p :
  is_file_in fs p = true ↔ (∃ data, fs !! p = Some (Fs.File data)) ∧ p ≠ [] ∧ p ≠ ["/"].
Proof.
  rewrite is_file_in_File. split.
  - intros [data Hd]. apply lookup_File in Hd as (? & ? & ?). eauto.
  - intros ([data Hd] & ? & ?). exists data. by apply lookup_File.
Qed.

(** The copying loops keep the source files. *)
Lemma copy_stage_kept dir fs0 output_dir categories :
  (∀ c ps fp, (c, ps) ∈ categories → fp ∈ ps →
     ∃ n, fp = dir ++ [n] ∧ valid_name n = true) →
  triple (files_kept dir fs0)
    (for_ categories (λ '(category, file_paths),
       let category_dir := output_dir </> category in
       (if negb false then mkdir_exist_ok category_dir else mret ());;
       for_ file_paths (λ file_path,
         let dest_path := category_dir </> Path.name file_path in
         if false then mret ()
         else if bool_decide (file_path = dest_path) then mret ()
         else copy2 file_path dest_path)))
    (λ _, files_kept dir fs0) (files_kept dir fs0).
Proof.
  intros Hshape. apply triple_for. intros [c ps] Hin. cbn zeta.
  eapply triple_bind; [apply mkdir_kept|]. intros [].
  apply triple_for. intros fp Hfp.
  destruct (Hshape _ _ _ Hin Hfp) as (n & -> & Hv).
  rewrite (name_child _ _ (valid_name_not_root _ Hv)).
  case_bool_decide; [by apply triple_ret|].
  apply copy2_kept; [done|]. rewrite join_valid by done. apply last_snoc.
Qed.

(** The deletion loop removes the listed regular files of the directory,
    and nothing else. *)
Lemma delete_non_foldered_files_spec dir file_types fs0 :
  let removed fs := ∀ q,
    fs !! q = fs0 !! q ∨
    (fs !! q = None ∧ (∃ n, q = dir ++ [n]) ∧
     is_file_in fs0 q = true ∧ type_listed file_types q = true) in
  triple (λ fs, fs = fs0) (delete_non_foldered_files scan dir (Some file_types))
    (λ _ fs, removed fs ∧
       ∀ n, is_file_in fs0 (dir ++ [n]) = true →
            type_listed file_types (dir ++ [n]) = true → fs !! (dir ++ [n]) = None)
    removed.
Proof.
  intros removed fs ->. unfold delete_non_foldered_files. simpl default.
  rewrite io_bind_unfold.
  destruct (decide (Fs.lookup fs0 dir = Some Fs.Dir)) as [Hdir|Hdir].
  2:{ destruct (iterdir_Raise scan _ _ Hdir) as [e ->]. intros q. by left. }
  rewrite iterdir_Ok by done.
  set (items := (λ n, dir ++ [n]) <$> scan (Fs.names fs0 dir)).
  set (I := λ (seen : list Path.t) fs,
         removed fs ∧
         ∀ q, q ∈ seen → is_file_in fs0 q = true → type_listed file_types q = true →
              fs !! q = None).
  match goal with |- context [for_ items ?b] => set (body := b) end.
  assert (Hloop : triple (I []) (for_ items body) (λ _, I items) removed).
  { apply triple_for_prefix.
    intros seen x rest Hitems fs [Hrem Hseen]. unfold body.
    rewrite io_bind_unfold. unfold is_file.
    fold (is_file_in fs x).
    assert (Hx : ∃ n, x = dir ++ [n]).
    { assert (x ∈ items) as Hin by (rewrite Hitems; set_solver).
      apply list_elem_of_fmap in Hin as (n & -> & _). eauto. }
    destruct (is_file_in fs x && type_listed file_types x) eqn:Hcond.
    + apply andb_true_iff in Hcond as [Hfile Hlisted].
      pose proof Hfile as Hfile'. apply is_file_in_File in Hfile' as [data Hdata].
      unfold unlink. rewrite Hdata.
      assert (Hfile0 : is_file_in fs0 x = true).
      { apply is_file_in_lookup in Hfile as ([d Hd] & ? & ?). apply is_file_in_lookup.
        split_and!; [|done..]. destruct (Hrem x) as [<-|[Hn _]]; [eauto|congruence]. }
      split.
      * intros q. destruct (decide (q = x)) as [->|Hne].
        -- right. by rewrite lookup_delete_eq.
        -- rewrite lookup_delete_ne by done. apply Hrem.
      * intros q [Hq|Hq]%elem_of_app Hq0 Hql.
        -- apply lookup_delete_None. right. by apply Hseen.
        -- apply list_elem_of_singleton in Hq as ->. apply lookup_delete_eq.
    + assert (Hgoal : I (seen ++ [x]) fs); [|by destruct (is_file_in fs x)].
      split; [done|].
      intros q [Hq|Hq]%elem_of_app Hq0 Hql; [by apply Hseen|].
      apply list_elem_of_singleton in Hq as ->.
      destruct (Hrem x) as [Heq|[Hn _]]; [|done].
      rewrite Hql, andb_true_r in Hcond.
      apply is_file_in_lookup in Hq0 as ([d Hd] & ? & ?).
      assert (is_file_in fs x = true); [|congruence].
      apply is_file_in_lookup. rewrite Heq. eauto. }
  assert (HI0 : I [] fs0).
  { split; [intros q; by left|]. intros q Hq. by apply elem_of_nil in Hq. }
  specialize (Hloop fs0 HI0).
  destruct (for_ items body fs0) as [[[]|e] fs']; [|done].
  destruct Hloop as [Hrem Hseen]. split; [done|]. intros n Hfile Hlisted.
  apply Hseen; [|done..]. apply list_elem_of_fmap. exists n. split; [done|].
  apply elem_of_scan_names; [done|].
  apply is_file_in_lookup in Hfile as ([d Hd] & _). eauto.
Qed.

End deletion.

Section sources_claim.

Import OrganizeFiles.
Variable scan : list string → list string.
Hypothesis scan_perm : ∀ l, scan l ≡ₚ l.
Implicit Types (fs : gmap Path.t Fs.node) (p q dir : Path.t) (n : string).

(** C9 (counterexample): in [barred] a regular file stands where the
    folder of the category [Frame] has to be made.  The run with
    [delete_originals] set and [dry_run] unset raises [FileExistsError]
    when it makes that folder and never comes to the deletion: the two
    [.svg] files of the source directory are still there afterwards. *)
Lemma organize_files_sources_barred :
  let run := organize_files id ["sprites_done"] None None false true barred in
  run.1 = Raise FileExistsError ∧
  type_listed [".svg"] ["sprites_done"; "_FrameBendBronze01.svg"] = true ∧
  type_listed [".svg"] ["sprites_done"; "_IconArtStoreFront14.svg"] = true ∧
  run.2 !! ["sprites_done"; "_FrameBendBronze01.svg"] = Some (Fs.File "bronze") ∧
  run.2 !! ["sprites_done"; "_IconArtStoreFront14.svg"] = Some (Fs.File "store").
Proof. cbv zeta. split_and!; vm_compute; reflexivity. Qed.

(** C9 (amended): with relative paths without a part [..] for the source
    and the output directory, on a filesystem whose entries bear valid
    names, whether the run returns or raises: (1) a file that is not
    directly in the source directory is never removed; (2) a file directly
    in the source directory is left as it was, content included, or else
    it is removed, and that only with [delete_originals] set, [dry_run]
    unset and its lower-cased suffix in the allowed list; (3) with
    [delete_originals] set and [dry_run] unset, when the run returns,
    every regular file directly in the source directory whose lower-cased
    suffix is in the allowed list is gone, copied or not. *)
Theorem organize_files_sources directory_path output_dir file_types dry_run
    delete_originals fs r fs' :
  plain directory_path = true →
  plain (default directory_path output_dir) = true →
  wf_names fs →
  organize_files scan directory_path output_dir file_types dry_run delete_originals fs
    = (r, fs') →
  let allowed := default [".svg"] file_types in
  (∀ p data, fs !! p = Some (Fs.File data) → (∀ n, p ≠ directory_path ++ [n]) →
     ∃ data', fs' !! p = Some (Fs.File data')) ∧
  (∀ n data, fs !! (directory_path ++ [n]) = Some (Fs.File data) →
     fs' !! (directory_path ++ [n]) = Some (Fs.File data) ∨
     (fs' !! (directory_path ++ [n]) = None ∧
      delete_originals = true ∧ dry_run = false ∧
      type_listed allowed (directory_path ++ [n]) = true)) ∧
  (delete_originals = true → dry_run = false → r = Ok () →
   ∀ n data, fs !! (directory_path ++ [n]) = Some (Fs.File data) →
     type_listed allowed (directory_path ++ [n]) = true →
     fs' !! (directory_path ++ [n]) = None).
Proof.
  intros _ _ Hwf Hrun allowed.
  set (P1 := λ s : gmap Path.t Fs.node,
         ∀ p data, fs !! p = Some (Fs.File data) → (∀ n, p ≠ directory_path ++ [n]) →
           ∃ data', s !! p = Some (Fs.File data')).
  set (P2 := λ s : gmap Path.t Fs.node,
         ∀ n data, fs !! (directory_path ++ [n]) = Some (Fs.File data) →
           s !! (directory_path ++ [n]) = Some (Fs.File data) ∨
           (s !! (directory_path ++ [n]) = None ∧
            delete_originals = true ∧ dry_run = false ∧
            type_listed allowed (directory_path ++ [n]) = true)).
  set (P3 := λ s : gmap Path.t Fs.node,
         delete_originals = true → dry_run = false →
         ∀ n data, fs !! (directory_path ++ [n]) = Some (Fs.File data) →
           type_listed allowed (directory_path ++ [n]) = true →
           s !! (directory_path ++ [n]) = None).
  assert (Hkept : ∀ s, files_kept directory_path fs s → P1 s ∧ P2 s).
  { intros s (K1 & K2 & _). split; [intros p data Hp _; eauto|].
    intros n data Hn. left. eauto. }
  cut (triple (files_kept directory_path fs)
         (organize_files scan directory_path output_dir file_types dry_run delete_originals)
         (λ _ s, P1 s ∧ P2 s ∧ P3 s) (λ s, P1 s ∧ P2 s)).
  { intros Ht. specialize (Ht fs (files_kept_refl _ _ Hwf)). rewrite Hrun in Ht.
    destruct r as [[]|e].
    - destruct Ht as (H1 & H2 & H3). split_and!; [done..|]. intros ?? _. by apply H3.
    - destruct Ht as (H1 & H2). split_and!; done. }
  unfold organize_files.
  eapply triple_bind.
  { apply (triple_exn _ _ (λ _, files_kept directory_path fs) _ (files_kept directory_path fs));
      [|apply Hkept].
    destruct output_dir as [o|]; [|by apply triple_ret].
    eapply triple_bind; [apply mkdir_kept|]. intros []. by apply triple_ret. }
  intros out. fold allowed. cbn zeta.
  eapply (triple_bind _ _ _
            (λ files s, files_kept directory_path fs s ∧
               ∀ fp, fp ∈ files → ∃ n, fp = directory_path ++ [n] ∧ valid_name n = true)).
  { intros s Hs.
    destruct (decide (Fs.lookup s directory_path = Some Fs.Dir)) as [Hdir|Hdir].
    - rewrite list_files_Ok by done. split; [done|]. intros fp Hfp.
      apply list_elem_of_filter in Hfp as [Hsel Hfp].
      apply list_elem_of_fmap in Hfp as (n & -> & _). exists n. split; [done|].
      apply andb_true_iff in Hsel as [Hfile _].
      apply is_file_in_lookup in Hfile as ([d Hd] & _).
      destruct Hs as (_ & _ & K4). eauto.
    - destruct (list_files_Raise scan _ _ allowed Hdir) as [e ->]. by apply Hkept. }
  intros files.
  eapply (triple_bind _ _ _
            (λ categories s, files_kept directory_path fs s ∧
               ∀ c ps fp, (c, ps) ∈ categories → fp ∈ ps →
                 ∃ n, fp = directory_path ++ [n] ∧ valid_name n = true)).
  { intros s [Hs Hfiles]. rewrite group_files_Ok. split; [done|].
    intros c ps fp Hin Hfp. apply Hfiles. by eapply grouping_elem. }
  intros categories.
  eapply (triple_bind _ _ _ (λ _, files_kept directory_path fs)).
  { apply (triple_exn _ _ _ _ (files_kept directory_path fs)); [|apply Hkept].
    intros s [Hs Hshape]. destruct dry_run.
    - match goal with |- context [for_ categories ?b s] =>
        assert (Hro : read_only (for_ categories b)) end.
      { apply read_only_for. intros [c ps].
        apply read_only_bind; [apply read_only_ret|]. intros _.
        apply read_only_for. intros fp. apply read_only_ret. }
      specialize (Hro s).
      destruct (for_ categories _ s) as [[[]|e] s']; simpl in Hro; by subst s'.
    - exact (copy_stage_kept directory_path fs out categories Hshape s Hs). }
  intros [].
  destruct (delete_originals && negb dry_run) eqn:Hflags.
  2:{ apply triple_ret. intros s Hs. destruct (Hkept s Hs) as [H1 H2]. split_and!; [done..|].
      intros -> ->. done. }
  apply andb_true_iff in Hflags as [-> Hdry]. apply negb_true_iff in Hdry as ->.
  intros s Hs.
  pose proof (delete_non_foldered_files_spec scan scan_perm directory_path allowed s s eq_refl)
    as Hdel.
  destruct Hs as (K1 & K2 & K4).
  assert (Hfile : ∀ n data, fs !! (directory_path ++ [n]) = Some (Fs.File data) →
            is_file_in s (directory_path ++ [n]) = true).
  { intros n data Hn. apply is_file_in_lookup.
    pose proof (valid_name_not_root _ (wf_names_child _ _ _ _ Hwf Hn)) as Hroot.
    split_and!; [eauto|by destruct directory_path|].
    destruct directory_path as [|? [|]]; intros ?; simplify_eq/=. }
  assert (Hrem : ∀ s',
    (∀ q, s' !! q = s !! q ∨
       (s' !! q = None ∧ (∃ n, q = directory_path ++ [n]) ∧
        is_file_in s q = true ∧ type_listed allowed q = true)) → P1 s' ∧ P2 s').
  { intros s' Hs'. split.
    - intros p data Hp Hnot. destruct (K1 _ _ Hp) as [d' Hd'].
      destruct (Hs' p) as [->|(_ & [n ->] & _)]; [eauto|]. by destruct (Hnot n).
    - intros n data Hn. specialize (K2 _ _ Hn).
      destruct (Hs' (directory_path ++ [n])) as [->|(? & _ & _ & ?)]; [by left|by right]. }
  destruct (delete_non_foldered_files scan directory_path (Some allowed) s) as [[[]|e] s'].
  - destruct Hdel as [Hs' Hgone]. destruct (Hrem s' Hs') as [H1 H2]. split_and!; [done..|].
    intros _ _ n data Hn Hl. apply Hgone; [by eapply Hfile|done].
  - by apply Hrem.
Qed.

End sources_claim.

Lemma wf_names_sprites : wf_names sprites.
Proof. apply (bool_decide_unpack _). vm_compute. exact I. Qed.

Lemma organize_files_sources_witness :
  (OrganizeFiles.organize_files id ["sprites_done"] None None false true sprites).2
    !! (["sprites_done"] ++ ["_FrameBendBronze01.svg"]) = None.
Proof.
  set (run := OrganizeFiles.organize_files id ["sprites_done"] None None false true sprites).
  refine (proj2 (proj2 (organize_files_sources id _ ["sprites_done"] None None false true
                          sprites run.1 run.2 _ _ _ _))
            eq_refl eq_refl _ "_FrameBendBronze01.svg" "bronze" _ _).
  - intros l. reflexivity.
  - reflexivity.
  - reflexivity.
  - exact wf_names_sprites.
  - apply surjective_pairing.
  - vm_compute. reflexivity.
  - vm_compute. reflexivity.
  - vm_compute. reflexivity.
Defined.

(** ** Names of the output files *)

Section output_names.

Import RenameSprites.
Implicit Types (s t w name : string) (c : ascii) (k : nat).

Lemma contains_char_app c s t :
  Py.contains (String c "") (s +:+ t) = false ↔
  Py.contains (String c "") s = false ∧ Py.contains (String c "") t = false.
Proof.
  split.
  - intros Hno. split; apply contains_false; intros p q Hs.
    + apply (contains_false_1 _ _ p (q +:+ t) Hno). by rewrite Hs, !sapp_assoc.
    + apply (contains_false_1 _ _ (s +:+ p) q Hno). by rewrite Hs, !sapp_assoc.
  - intros [Hs Ht]. apply contains_false. intros p q Hpq.
    destruct (decide (String.length p < String.length s)) as [Hlt|Hge].
    + rewrite <-sapp_assoc in Hpq.
      destruct (sapp_eq_app _ _ _ _ Hpq) as (r & Hr & _).
      { rewrite sapp_length. simpl. lia. }
      apply (contains_false_1 _ _ p r Hs). by rewrite Hr, sapp_assoc.
    + symmetry in Hpq. destruct (sapp_eq_app _ _ _ _ Hpq) as (r & _ & Hr); [lia|].
      by apply (contains_false_1 _ _ r q Ht).
Qed.

Lemma contains_substring c s a w b :
  s = a +:+ w +:+ b → Py.contains (String c "") s = false →
  Py.contains (String c "") w = false.
Proof. intros -> Hno. apply contains_char_app in Hno as [_ Hno]. by apply contains_char_app in Hno as [? _]. Qed.

Lemma valid_name_svg w :
  Py.contains "/" w = false → valid_name (w +:+ ".svg") = true.
Proof.
  intros Hw. unfold valid_name.
  assert (Hlen : 4 ≤ String.length (w +:+ ".svg")) by (rewrite sapp_length; simpl; lia).
  rewrite !bool_decide_eq_false_2, (proj2 (contains_char_app _ _ _)); [done|done|..].
  all: intros Heq; rewrite Heq in Hlen; simpl in Hlen; lia.
Qed.

(** *** Decimal numbers *)

Lemma pretty_N_go_no_slash x s :
  Py.contains "/" s = false → Py.contains "/" (pretty_N_go x s) = false.
Proof.
  revert s. induction (N.lt_wf_0 x) as [x _ IH]; intros s Hs.
  assert (x = 0 ∨ 0 < x)%N as [->|?] by lia; [by rewrite pretty_N_go_0|].
  rewrite pretty_N_go_step by done. apply IH; [by apply N.div_lt|].
  change (String ?c s) with (String c "" +:+ s). apply contains_char_app. split; [|done].
  unfold pretty_N_char. by repeat case_match.
Qed.


Lemma pretty_nat_no_slash k : Py.contains "/" (pretty k) = false.
Proof.
  unfold pretty, pretty_nat, pretty, pretty_N. case_decide; [done|].
  by apply pretty_N_go_no_slash.
Qed.


Lemma format_02d_no_slash k : Py.contains "/" (format_02d k) = false.
Proof.
  unfold format_02d. pose proof (pretty_nat_no_slash k). case_match; [|done].
  by apply (contains_char_app _ "0").
Qed.





Lemma numbered_name_valid name k :
  Py.contains "/" name = false → valid_name (numbered_name name k) = true.
Proof.
  intros Hname. unfold numbered_name. rewrite <-!sapp_assoc. apply valid_name_svg.
  apply contains_char_app. split; [|apply format_02d_no_slash].
  by apply contains_char_app.
Qed.

End output_names.

(** ** The fan-out stage *)

Section fan_out_facts.

Import RenameSprites.
Implicit Types (s t w name : string) (c : ascii) (k : nat).
Implicit Types (fs : gmap Path.t Fs.node) (src dst : Path.t).

Lemma run_rest_group n j s g m :
  Re.run (Re.Cat (Re.Group n (Re.Plus Re.Dot)) Re.Eol) j s g Re.accept = Some m →
  ∃ w t, s = w +:+ t ∧ m = <[n := w]> g.
Proof.
  cbn [Re.run]. intros Hm. apply plus_loop_Some in Hm as (w & t & -> & _ & _ & Hm).
  exists w, t. split; [done|]. destruct (Re.at_eol t); [|done].
  unfold Re.accept in Hm. injection Hm as <-.
  replace (j + String.length w - j) with (String.length w) by lia.
  by rewrite str_take_app.
Qed.

Lemma search_go_Some r i s m :
  Re.search_go r i s = Some m →
  ∃ p1 p2, s = p1 +:+ p2 ∧ Re.run r (i + String.length p1) p2 ∅ Re.accept = Some m.
Proof.
  revert i. induction s as [|c s IH]; intros i; simpl.
  - destruct (Re.run r i "" ∅ Re.accept) eqn:Hr; [|done]. intros [= ->].
    exists "", "". simpl. by rewrite Nat.add_0_r.
  - destruct (Re.run r i (String c s) ∅ Re.accept) eqn:Hr.
    + intros [= ->]. exists "", (String c s). simpl. by rewrite Nat.add_0_r.
    + intros (p1 & p2 & -> & Hm)%IH. exists (String c p1), p2. split; [done|].
      simpl. by replace (i + S (String.length p1)) with (S i + String.length p1) by lia.
Qed.

(** The proper name is a piece of the folder name. *)
Lemma extract_proper_name_substring s :
  ∃ a b, extract_proper_name s = Ok (proper_name_of s) ∧ s = a +:+ proper_name_of s +:+ b.
Proof.
  unfold proper_name_of, extract_proper_name, Re.search.
  destruct (Re.search_go a_pattern 0 s) as [m|] eqn:Ha.
  { apply search_go_Some in Ha as (p1 & p2 & -> & Hm).
    unfold a_pattern in Hm. rewrite run_cat, run_word in Hm.
    destruct (String.prefix "a_" p2) eqn:Hp; [|done]. apply str_prefix_inv in Hp.
    apply run_rest_group in Hm as (w & t & Hw & ->).
    unfold Re.group. rewrite lookup_insert_eq.
    exists (p1 +:+ "a_"), t. split; [done|]. by rewrite Hp, Hw, !sapp_assoc. }
  destruct (Re.search_go sprite_pattern 0 s) as [m|] eqn:Hs.
  { apply search_go_Some in Hs as (p1 & p2 & -> & Hm).
    unfold sprite_pattern in Hm. rewrite run_cat, run_word in Hm.
    destruct (String.prefix "DefineSprite_" p2) eqn:Hp; [|done]. apply str_prefix_inv in Hp.
    rewrite run_cat in Hm. cbn [Re.run] in Hm.
    apply plus_loop_Some in Hm as (ds & t & Ht & _ & _ & Hm).
    destruct t as [|c t]; [done|]. destruct (Re.cset_ok _ c); [|done].
    pose proof (run_rest_group 2) as Hrest. cbn [Re.run] in Hrest.
    apply Hrest in Hm as (w & t' & Hw & ->).
    unfold Re.group. rewrite lookup_insert_eq.
    exists (p1 +:+ "DefineSprite_" +:+ ds +:+ String c ""), t'. split; [done|].
    rewrite Hp, Ht, Hw, !sapp_assoc. done. }
  exists "", "". by rewrite sapp_nil_r.
Qed.

Lemma proper_name_no_slash folder :
  valid_name folder = true → Py.contains "/" (proper_name_of folder) = false.
Proof.
  intros (_ & _ & _ & Hno)%valid_name_parts.
  destruct (extract_proper_name_substring folder) as (a & b & _ & Hs).
  by eapply contains_substring.
Qed.

Lemma copy2_Ok fs src dst fs' :
  Fs.lookup fs dst ≠ Some Fs.Dir → copy2 src dst fs = (Ok (), fs') →
  ∃ data, Fs.lookup fs src = Some (Fs.File data) ∧ fs' = <[dst := Fs.File data]> fs.
Proof.
  intros Hdst. unfold copy2.
  destruct (Fs.lookup fs dst) as [[d|]|] eqn:Hd; [|done|].
  all: destruct (Fs.lookup fs src) as [[data|]|]; [|done..].
  all: case_bool_decide; [done|]; rewrite ?Hd.
  all: destruct (Fs.lookup fs (Path.parent dst)) as [[]|]; [done| |done].
  all: intros [= <-]; eauto.
Qed.

Lemma mkdir_Ok fs (p : Path.t) fs' :
  mkdir_exist_ok p fs = (Ok (), fs') →
  Fs.lookup fs' p = Some Fs.Dir ∧
  (fs' = fs ∨ (Fs.lookup fs p = None ∧ fs' = <[p := Fs.Dir]> fs)).
Proof.
  unfold mkdir_exist_ok. destruct (Fs.lookup fs p) as [[]|] eqn:Hp; [done| |].
  - intros [= <-]. auto.
  - destruct (Fs.lookup fs (Path.parent p)) as [[]|]; [done| |done].
    intros [= <-]. split; [|auto]. unfold Fs.lookup in *.
    case_bool_decide; [done|]. apply lookup_insert_eq.
Qed.

Lemma enumerate_lookup {A : Type} (l : list A) a i :
  enumerate l a !! i = (λ x, (a + i, x)) <$> l !! i.
Proof.
  revert a i. induction l as [|x l IH]; intros a [|i]; simpl; [done|done| |].
  - by rewrite Nat.add_0_r.
  - rewrite IH. by replace (S a + i) with (a + S i) by lia.
Qed.

Lemma enumerate_length {A : Type} (l : list A) a : length (enumerate l a) = length l.
Proof. revert a. induction l as [|x l IH]; intros a; simpl; [done|]. by rewrite IH. Qed.


End fan_out_facts.

Section fan_out.

Import RenameSprites.
Variable scan : list string → list string.
Hypothesis scan_perm : ∀ l, scan l ≡ₚ l.
Implicit Types (fs : gmap Path.t Fs.node) (f name folder : string) (k : nat).

Lemma output_dir_parts : output_dir = ["sprites_done"].
Proof. vm_compute. reflexivity. Qed.

Lemma join_no_slash (p : Path.t) name :
  Py.contains "/" name = false → p </> name = p ++ Path.parse name.
Proof.
  intros Hno. unfold Path.join, Py.startswith.
  destruct (String.prefix "/" name) eqn:Hp; [|done].
  apply str_prefix_iff in Hp as [t ->]. by destruct (contains_false_1 _ _ "" t Hno).
Qed.

Lemma svg_files_spec fs folder :
  NoDup (svg_files_of scan fs folder) ∧
  ∀ f, f ∈ svg_files_of scan fs folder ↔
       is_Some (fs !! (Path.parse folder ++ [f])) ∧ Py.endswith (Py.lower f) ".svg" = true.
Proof.
  unfold svg_files_of. split.
  - apply NoDup_filter. rewrite scan_perm. apply NoDup_names.
  - intros f. rewrite list_elem_of_filter, elem_of_scan_names by done. tauto.
Qed.


End fan_out.

Section fan_out_claim.

Import RenameSprites.
Variable scan : list string → list string.
Hypothesis scan_perm : ∀ l, scan l ≡ₚ l.
Implicit Types (fs : gmap Path.t Fs.node) (f name folder : string) (k : nat).



End fan_out_claim.

Lemma wf_names_exports : wf_names exports.
Proof. apply (bool_decide_unpack _). vm_compute. exact I. Qed.


(** ** The grouping by category *)

Section grouping_facts.

Import OrganizeFiles.
Implicit Types (d : list (string * list Path.t)) (c : string) (x : Path.t).

Lemma dict_append_keys d c x :
  (dict_append d c x).*1 = if bool_decide (c ∈ d.*1) then d.*1 else d.*1 ++ [c].
Proof.
  induction d as [|[c0 ps0] d IH]; simpl; [done|].
  destruct (decide (c0 = c)) as [->|Hne].
  - rewrite (bool_decide_eq_true_2 (c = c)) by done. simpl.
    rewrite bool_decide_eq_true_2; [done|by left].
  - rewrite (bool_decide_eq_false_2 (c0 = c)) by done. rewrite fmap_cons, IH. simpl.
    destruct (decide (c ∈ d.*1)) as [Hin|Hin].
    + rewrite !bool_decide_eq_true_2; [done|by right|done].
    + rewrite !bool_decide_eq_false_2; [done| |done].
      intros [?|?]%elem_of_cons; by simplify_eq.
Qed.

Lemma dict_append_NoDup d c x : NoDup d.*1 → NoDup (dict_append d c x).*1.
Proof.
  intros Hnd. rewrite dict_append_keys. case_bool_decide as Hc; [done|].
  apply NoDup_app. split_and!; [done| |apply NoDup_singleton].
  intros c' Hc' ->%list_elem_of_singleton. done.
Qed.

Lemma elem_of_dict_append d c x c' ps' :
  NoDup d.*1 →
  (c', ps') ∈ dict_append d c x ↔
    (c' ≠ c ∧ (c', ps') ∈ d) ∨
    (c' = c ∧ ((ps' = [x] ∧ c ∉ d.*1) ∨ ∃ ps, (c, ps) ∈ d ∧ ps' = ps ++ [x])).
Proof.
  induction d as [|[c0 ps0] d IH]; intros Hnd; simpl.
  - rewrite list_elem_of_singleton. split.
    + intros [= -> ->]. right. split; [done|]. left. split; [done|apply not_elem_of_nil].
    + intros [[_ Hin]|[-> [[-> _]|(ps & Hin & _)]]];
        [by apply elem_of_nil in Hin|done|by apply elem_of_nil in Hin].
  - rewrite fmap_cons in Hnd. apply NoDup_cons in Hnd as [Hc0 Hnd]. simpl in Hc0.
    specialize (IH Hnd). destruct (decide (c0 = c)) as [->|Hne].
    + rewrite (bool_decide_eq_true_2 (c = c)) by done. rewrite !elem_of_cons. split.
      * intros [[= -> ->]|Hin].
        -- right. split; [done|]. right. exists ps0. split; [by left|done].
        -- left. split; [|by right]. intros ->. apply Hc0.
           apply list_elem_of_fmap. by exists (c, ps').
      * intros [[Hne [Heq|Hin]]|[-> [[_ Hnin]|(ps & Hin & ->)]]].
        -- by simplify_eq.
        -- by right.
        -- destruct Hnin. by left.
        -- apply elem_of_cons in Hin as [Heq|Hin]; [simplify_eq; by left|].
           destruct Hc0. apply list_elem_of_fmap. by exists (c, ps).
    + rewrite (bool_decide_eq_false_2 (c0 = c)) by done. rewrite !elem_of_cons, IH. split.
      * intros [[= -> ->]|[[Hne' Hin]|[-> [[-> Hnin]|(ps & Hin & ->)]]]].
        -- left. split; [done|by left].
        -- left. split; [done|by right].
        -- right. split; [done|]. left. split; [done|].
           intros [?|?]; by simplify_eq.
        -- right. split; [done|]. right. exists ps. split; [by right|done].
      * intros [[Hne' [Heq|Hin]]|[-> [[-> Hnin]|(ps & Hin & ->)]]].
        -- by left.
        -- right. left. done.
        -- right. right. split; [done|]. left. split; [done|].
           intros Hin. apply Hnin. by right.
        -- apply elem_of_cons in Hin as [Heq|Hin]; [by simplify_eq|].
           right. right. split; [done|]. right. by exists ps.
Qed.

(** The dictionary built from [files] maps each category that occurs to
    the files of that category, in their order. *)
Lemma grouping_spec (files : list Path.t) :
  NoDup (grouping files).*1 ∧
  ∀ c ps, (c, ps) ∈ grouping files ↔
          ps ≠ [] ∧ ps = filter (λ x, category_of (Path.name x) = c) files.
Proof.
  unfold grouping.
  cut (∀ d l,
         (NoDup d.*1 ∧
          ∀ c ps, (c, ps) ∈ d ↔ ps ≠ [] ∧ ps = filter (λ x, category_of (Path.name x) = c) l) →
         let d' := foldl (λ categories file_path,
                     dict_append categories (category_of (Path.name file_path)) file_path)
                     d files in
         NoDup d'.*1 ∧
         ∀ c ps, (c, ps) ∈ d' ↔
                 ps ≠ [] ∧ ps = filter (λ x, category_of (Path.name x) = c) (l ++ files)).
  { intros Hcut. apply (Hcut [] []). split; [constructor|].
    intros c ps. split; [by intros ?%elem_of_nil|]. by intros [? ->]. }
  induction files as [|x files IH]; intros d l [Hnd Hd]; simpl.
  { by rewrite app_nil_r. }
  replace (l ++ x :: files) with ((l ++ [x]) ++ files) by (by rewrite <-app_assoc).
  apply IH. split; [by apply dict_append_NoDup|].
  intros c ps. rewrite elem_of_dict_append by done. rewrite filter_app.
  destruct (decide (category_of (Path.name x) = c)) as [Hc|Hc].
  - rewrite filter_cons_True by done. rewrite filter_nil. split.
    + intros [[Hne _]|[_ [[-> Hnin]|(ps0 & Hin & ->)]]]; [by subst| |].
      * split; [done|]. rewrite Hc in Hnin.
        destruct (filter (λ x0, category_of (Path.name x0) = c) l) as [|y l'] eqn:Hf; [done|].
        destruct Hnin. apply list_elem_of_fmap. exists (c, y :: l'). split; [done|].
        apply Hd. by rewrite Hf.
      * apply Hd in Hin as [_ ->]. rewrite Hc. split; [|done]. by destruct (filter _ l).
    + intros [_ ->]. right. split; [done|]. rewrite Hc.
      destruct (filter (λ x0, category_of (Path.name x0) = c) l) as [|y l'] eqn:Hf.
      * left. split; [done|]. intros ([c' ps'] & Hc' & Hin)%list_elem_of_fmap.
        simpl in Hc'. subst c'.
        apply Hd in Hin as [Hne Heq]. rewrite Hf in Heq. done.
      * right. exists (y :: l'). split; [|done]. apply Hd. by rewrite Hf.
  - rewrite filter_cons_False by done. rewrite filter_nil, app_nil_r. split.
    + intros [[_ Hin]|[-> _]]; [by apply Hd|done].
    + intros Hps. left. split; [congruence|by apply Hd].
Qed.

End grouping_facts.

(** ** Categories as folder names *)

Section category_parts.

Import OrganizeFiles.
Implicit Types (s w n c : string) (a : ascii).

Lemma parse_part c :
  c ≠ "" → c ≠ "." → Py.contains "/" c = false → Path.parse c = [c].
Proof.
  intros Hne Hdot Hslash. unfold Path.parse, Py.startswith.
  destruct (String.prefix "/" c) eqn:Hp.
  { apply str_prefix_iff in Hp as [t ->]. by destruct (contains_false_1 _ _ "" t Hslash). }
  unfold Py.split. simpl. rewrite (contains_find_None _ _ Hslash). simpl.
  rewrite filter_cons_True; [done|]. unfold Path.keep_part.
  by rewrite !bool_decide_eq_false_2.
Qed.

Lemma join_part (p : Path.t) c :
  c ≠ "" → c ≠ "." → Py.contains "/" c = false → p </> c = p ++ [c].
Proof. intros Hne Hdot Hslash. by rewrite join_no_slash, parse_part. Qed.

Lemma contains_char_cons (x : ascii) a s :
  Py.contains (String x "") (String a s) = false ↔
  a ≠ x ∧ Py.contains (String x "") s = false.
Proof.
  change (String a s) with (String a "" +:+ s). rewrite contains_char_app.
  assert (Py.contains (String x "") (String a "") = false ↔ a ≠ x) as ->; [|done].
  unfold Py.contains. rewrite bool_decide_eq_false. rewrite find_unfold, str_prefix_cons.
  case_bool_decide as Hx; simpl.
  - subst. split; [intros []; eauto|done].
  - split; [congruence|]. intros _ [? ?]. done.
Qed.

Lemma all_chars_no_slash (P : ascii → bool) w :
  P "/"%char = false → all_chars P w = true → Py.contains "/" w = false.
Proof.
  intros HP. induction w as [|a w IH]; [done|]. simpl. intros [Ha Hw]%andb_true_iff.
  apply contains_char_cons. split; [congruence|auto].
Qed.

Lemma slice_range (lo hi : nat) s :
  lo ≤ hi ≤ String.length s →
  Py.slice s (Some (Z.of_nat lo)) (Some (Z.of_nat hi)) = Py.take (hi - lo) (Py.drop lo s).
Proof.
  intros Hr. unfold Py.slice. simpl. rewrite !norm_index_nat by lia. by rewrite !Nat2Z.id.
Qed.

(** The loop of [splitext] stops at a character that is not a dot. *)
Lemma splitext_loop_dot (rounds : nat) s (fi di : Z) r :
  PosixPath.splitext_loop rounds s fi di = Some r →
  ∃ j : nat, j < rounds ∧
    Py.slice s (Some (fi + Z.of_nat j)%Z) (Some (fi + Z.of_nat j + 1)%Z) ≠ ".".
Proof.
  revert fi. induction rounds as [|rounds IH]; intros fi; [done|]. simpl.
  case_bool_decide as Hdot.
  - intros _. exists 0. rewrite Z.add_0_r. split; [lia|done].
  - intros (j & Hj & Hs)%IH. exists (S j).
    replace (fi + Z.of_nat (S j))%Z with (fi + 1 + Z.of_nat j)%Z by lia. split; [lia|done].
Qed.

(** The stem of a valid name can be joined to a path as one part. *)
Lemma splitext_root n :
  valid_name n = true →
  let root := (PosixPath.splitext n).1 in
  root ≠ "" ∧ root ≠ "." ∧ Py.contains "/" root = false.
Proof.
  intros (Hne & Hdot & _ & Hslash)%valid_name_parts root.
  split; [by apply splitext_nonempty|]. unfold root, PosixPath.splitext.
  assert (Hsep : Py.rfind n "/" = (-1)%Z).
  { unfold Py.rfind. by rewrite rfind_nat_None. }
  rewrite Hsep. pose proof (rfind_lt n "."%char) as Hlt.
  destruct (_ <? _)%Z; [|done].
  destruct (PosixPath.splitext_loop _ _ _ _) as [r|] eqn:Hloop; [|done].
  pose proof (splitext_loop_Some _ _ _ _ _ Hloop) as [Hrounds Hr].
  apply splitext_loop_dot in Hloop as (j & Hj & Hchar). simpl. rewrite Hr.
  set (di := Py.rfind n ".") in *.
  assert (0 ≤ di)%Z as Hdi by lia.
  rewrite <-(Z2Nat.id di) by done. rewrite slice_to by lia. split.
  - intros Htake. pose proof (f_equal String.length Htake) as Hlen.
    rewrite str_take_length in Hlen. simpl in Hlen.
    assert (Z.to_nat di = 1) as Hone by lia. assert (j = 0) as -> by lia.
    apply Hchar. change (-1 + 1 + Z.of_nat 0)%Z with (Z.of_nat 0).
    change (Z.of_nat 0 + 1)%Z with (Z.of_nat 1).
    rewrite slice_range by lia. rewrite str_drop_0. rewrite Hone in Htake.
    exact Htake.
  - eapply (contains_substring _ n "" _ (Py.drop (Z.to_nat di) n)); [|done].
    by rewrite sapp_nil_l, str_take_drop.
Qed.

(** The category of a valid name can be joined to a path as one part. *)
Lemma category_part n :
  valid_name n = true →
  category_of n ≠ "" ∧ category_of n ≠ "." ∧ Py.contains "/" (category_of n) = false.
Proof.
  intros Hv. pose proof (splitext_root n Hv) as Hroot.
  apply valid_name_parts in Hv as (_ & _ & _ & Hslash).
  unfold category_of.
  destruct (extract_category_segment n Hslash) as (c & -> & [Hk|[[Hne Hall]|Hc]]).
  - unfold keywords in Hk.
    repeat (apply elem_of_cons in Hk as [->|Hk]; [done|]). by apply elem_of_nil in Hk.
  - split_and!; [done|by intros ->|].
    apply (all_chars_no_slash is_letter); [reflexivity|done].
  - by subst c.
Qed.

End category_parts.

(** ** Counting by category *)

Section counting.

Context {A B : Type} `{EqDecision B}.
Implicit Types (f : A → B) (l : list A) (cs : list B).

Lemma sum_list_zero cs : sum_list ((λ _, 0) <$> cs) = 0.
Proof. induction cs as [|c cs IH]; [done|]. by rewrite fmap_cons. Qed.

Lemma sum_list_add (g h : B → nat) cs :
  sum_list ((λ c, g c + h c) <$> cs) = sum_list (g <$> cs) + sum_list (h <$> cs).
Proof. induction cs as [|c cs IH]; [done|]. rewrite !fmap_cons. simpl. rewrite IH. lia. Qed.

Lemma sum_list_indicator (b : B) cs :
  NoDup cs → b ∈ cs → sum_list ((λ c, if decide (b = c) then 1 else 0) <$> cs) = 1.
Proof.
  induction cs as [|c cs IH]; intros Hnd Hin; [by apply elem_of_nil in Hin|].
  apply NoDup_cons in Hnd as [Hc Hnd]. rewrite fmap_cons. simpl.
  destruct (decide (b = c)) as [->|Hne].
  - rewrite (list_fmap_ext _ (λ _, 0) cs); [by rewrite sum_list_zero|].
    intros i c' Hc'. destruct (decide (c = c')) as [->|]; [|done].
    destruct Hc. by eapply list_elem_of_lookup_2.
  - apply elem_of_cons in Hin as [?|Hin]; [done|]. by rewrite IH.
Qed.

(** The groups of a partition have, together, as many elements as the list. *)
Lemma sum_list_partition f l cs :
  NoDup cs → (∀ x, x ∈ l → f x ∈ cs) →
  sum_list ((λ c, length (filter (λ x, f x = c) l)) <$> cs) = length l.
Proof.
  intros Hnd. induction l as [|x l IH]; intros Hin.
  - apply sum_list_zero.
  - rewrite (list_fmap_ext _
      (λ c, (if decide (f x = c) then 1 else 0) + length (filter (λ x, f x = c) l)) cs).
    + rewrite sum_list_add, sum_list_indicator; [|done|apply Hin; by left].
      rewrite IH; [done|]. intros y Hy. apply Hin. by right.
    + intros i c _. destruct (decide (f x = c)) as [Hc|Hc].
      * by rewrite filter_cons_True.
      * by rewrite filter_cons_False.
Qed.

End counting.

(** ** The copying loops *)

Section staging.

Import OrganizeFiles.
Variables (fs1 : gmap Path.t Fs.node) (dir out : Path.t).
Implicit Types (s : gmap Path.t Fs.node) (p q : Path.t) (c n : string).
Implicit Types (ps : list Path.t) (G : list (string * list Path.t)).

Lemma app_two p c n : p ++ [c; n] = (p ++ [c]) ++ [n].
Proof. by rewrite <- app_assoc. Qed.

Lemma folder_ne_file p c c' n : p ++ [c] ≠ p ++ [c'; n].
Proof. intros H. apply app_inv_head in H. discriminate. Qed.

Lemma folder_ne_parent p c : p ++ [c] ≠ p.
Proof. intros H. apply (f_equal length) in H. rewrite length_app in H. simpl in H. lia. Qed.

Lemma file_ne_parent p c n : p ++ [c; n] ≠ p.
Proof. intros H. apply (f_equal length) in H. rewrite length_app in H. simpl in H. lia. Qed.

Lemma staged_nil : staged fs1 dir out [] fs1.
Proof.
split; [intros q; by left|]. intros c ps Hin. by apply elem_of_nil in Hin.
Qed.

Lemma staged_mkdir G c s s' :
  c ≠ "/" →
  staged fs1 dir out G s →
  mkdir_exist_ok (out ++ [c]) s = (Ok (), s') →
  staged fs1 dir out (G ++ [(c, [])]) s'.
Proof.
intros Hc [HA HB] Hmk. apply mkdir_Ok in Hmk as [Hdir Hs'].
rewrite lookup_child in Hdir by done.
assert (Hsame : ∀ q, s' !! q = s !! q ∨ (q = out ++ [c] ∧ s !! q = None)).
{ intros q. destruct Hs' as [->|[Hnone ->]]; [by left|].
  rewrite lookup_child in Hnone by done.
  destruct (decide (q = out ++ [c])) as [->|Hne]; [by right|].
  left. by apply lookup_insert_ne. }
split.
- intros q. destruct (Hsame q) as [->|[-> _]].
  + destruct (HA q) as [?|[(c' & Hc' & ? & ?)|(c' & ps & n & data & Hin & ? & ? & ? & ?)]].
    * by left.
    * right; left. exists c'. split_and!; [|done..].
      rewrite fmap_app. apply elem_of_app. by left.
    * right; right. exists c', ps, n, data. split_and!; [|done..].
      apply elem_of_app. by left.
  + right; left. exists c. split_and!; [|done..].
    rewrite fmap_app. apply elem_of_app. right. by apply list_elem_of_singleton.
- intros c' ps [Hin|Hin]%elem_of_app.
  + destruct (HB _ _ Hin) as [Hd Hf]. split.
    * destruct (Hsame (out ++ [c'])) as [->|[_ ?]]; [done|congruence].
    * intros n Hn. destruct (Hsame (out ++ [c'; n])) as [->|[Heq _]]; [by apply Hf|].
      symmetry in Heq. by apply folder_ne_file in Heq.
  + apply list_elem_of_singleton in Hin. simplify_eq. split; [done|].
    intros n Hn. by apply elem_of_nil in Hn.
Qed.

Lemma staged_copy G c ps n data s s' :
  valid_name n = true →
  fs1 !! (dir ++ [n]) = Some (Fs.File data) →
  fs1 !! (out ++ [c; n]) = None →
  staged fs1 dir out (G ++ [(c, ps)]) s →
  copy2 (dir ++ [n]) (out ++ [c; n]) s = (Ok (), s') →
  staged fs1 dir out (G ++ [(c, ps ++ [dir ++ [n]])]) s'.
Proof.
intros Hv Hsrc Hfresh [HA HB] Hcp.
pose proof (valid_name_not_root _ Hv) as Hn.
assert (Hdst : Fs.lookup s (out ++ [c; n]) ≠ Some Fs.Dir).
{ rewrite app_two, lookup_child, <- app_two by done.
  destruct (HA (out ++ [c; n]))
    as [->|[(c' & _ & Heq & _)|(c' & ps' & n' & d' & _ & _ & _ & _ & ->)]];
    [congruence| |done].
  symmetry in Heq. by apply folder_ne_file in Heq. }
apply copy2_Ok in Hcp as (d & Hd & ->); [|done].
rewrite lookup_child in Hd by done.
assert (d = data) as ->.
{ destruct (HA (dir ++ [n]))
    as [Heq|[(c' & _ & _ & ?)|(c' & ps' & n' & d' & _ & _ & Heq & ? & ?)]];
    [congruence..|].
  rewrite app_two in Heq. apply app_inj_tail in Heq as [_ <-]. congruence. }
split.
- intros q. destruct (decide (q = out ++ [c; n])) as [->|Hne].
  { right; right. exists c, (ps ++ [dir ++ [n]]), n, data.
    rewrite lookup_insert_eq. split_and!; [| |done..].
    - apply elem_of_app. right. by apply list_elem_of_singleton.
    - apply elem_of_app. right. by apply list_elem_of_singleton. }
  rewrite lookup_insert_ne by done.
  destruct (HA q) as [?|[(c' & Hc' & ? & ?)|(c' & ps' & n' & d' & Hin & Hn' & ? & ? & ?)]].
  + by left.
  + right; left. exists c'. split_and!; [|done..].
    rewrite fmap_app in Hc' |- *. done.
  + right; right. apply elem_of_app in Hin as [Hin|Hin].
    * exists c', ps', n', d'. split_and!; [|done..]. apply elem_of_app. by left.
    * apply list_elem_of_singleton in Hin. simplify_eq.
      exists c, (ps ++ [dir ++ [n]]), n', d'. split_and!; [| |done..].
      -- apply elem_of_app. right. by apply list_elem_of_singleton.
      -- apply elem_of_app. by left.
- assert (Hfile : ∀ c' n', (c' = c ∧ n' = n) ∨ s !! (out ++ [c'; n']) = fs1 !! (dir ++ [n']) →
            <[out ++ [c; n] := Fs.File data]> s !! (out ++ [c'; n']) = fs1 !! (dir ++ [n'])).
  { intros c' n' Hcase.
    destruct (decide (out ++ [c'; n'] = out ++ [c; n])) as [Heq|Hne].
    - rewrite Heq, lookup_insert_eq. apply app_inv_head in Heq. by simplify_eq.
    - rewrite lookup_insert_ne by done. destruct Hcase as [[-> ->]|?]; done. }
  intros c' ps' [Hin|Hin]%elem_of_app.
  + destruct (HB c' ps') as [Hd' Hf]; [apply elem_of_app; by left|]. split.
    * rewrite lookup_insert_ne; [done|]. intros Heq. symmetry in Heq.
      by apply folder_ne_file in Heq.
    * intros n' Hn'. apply Hfile. right. by apply Hf.
  + apply list_elem_of_singleton in Hin. simplify_eq.
    destruct (HB c ps) as [Hd' Hf].
    { apply elem_of_app. right. by apply list_elem_of_singleton. }
    split.
    * rewrite lookup_insert_ne; [done|]. intros Heq. symmetry in Heq.
      by apply folder_ne_file in Heq.
    * intros n' [Hn'|Hn']%elem_of_app; apply Hfile.
      -- right. by apply Hf.
      -- apply list_elem_of_singleton in Hn'. apply app_inj_tail in Hn' as [_ ->]. by left.
Qed.

(** The copying loops of a run that is not dry. *)
Lemma copy_stage_staged G :
  (∀ c ps, (c, ps) ∈ G → out </> c = out ++ [c] ∧ c ≠ "/") →
  (∀ c ps fp, (c, ps) ∈ G → fp ∈ ps →
     ∃ n data, fp = dir ++ [n] ∧ valid_name n = true ∧
       fs1 !! (dir ++ [n]) = Some (Fs.File data) ∧ fs1 !! (out ++ [c; n]) = None) →
  triple (staged fs1 dir out [])
    (for_ G (λ '(category, file_paths),
       let category_dir := out </> category in
       (if negb false then mkdir_exist_ok category_dir else mret ());;
       for_ file_paths (λ file_path,
         let dest_path := category_dir </> Path.name file_path in
         if false then mret ()
         else if bool_decide (file_path = dest_path) then mret ()
         else copy2 file_path dest_path)))
    (λ _, staged fs1 dir out G) (λ _, True).
Proof.
intros Hcat Hfiles. apply (triple_for_prefix (staged fs1 dir out)).
intros G1 [c ps] G2 HG. cbn zeta.
assert (Hin : (c, ps) ∈ G).
{ rewrite HG. apply elem_of_app. right. apply elem_of_cons. by left. }
destruct (Hcat _ _ Hin) as [-> Hc].
apply (triple_bind _ _ _ (λ _, staged fs1 dir out (G1 ++ [(c, [])]))).
{ intros s Hs. change (negb false) with true. cbv iota.
  destruct (mkdir_exist_ok (out ++ [c]) s) as [[[]|e] s'] eqn:Hmk; [|done].
  by eapply staged_mkdir. }
intros [].
apply (triple_for_prefix (λ ps1, staged fs1 dir out (G1 ++ [(c, ps1)]))).
intros ps1 fp ps2 Hps.
assert (Hfp : fp ∈ ps).
{ rewrite Hps. apply elem_of_app. right. apply elem_of_cons. by left. }
destruct (Hfiles c ps fp Hin Hfp) as (n & data & -> & Hv & Hsrc & Hfresh).
rewrite (name_child _ _ (valid_name_not_root _ Hv)), join_valid, <- app_two by done.
rewrite bool_decide_eq_false_2 by (intros Heq; rewrite Heq in Hsrc; congruence).
intros s Hs.
destruct (copy2 (dir ++ [n]) (out ++ [c; n]) s) as [[[]|e] s'] eqn:Hcp; [|done].
by eapply staged_copy.
Qed.

End staging.

(** ** The grouping stage as a whole *)

Section grouping_stages.

Import OrganizeFiles.
Variable scan : list string → list string.
Hypothesis scan_perm : ∀ l, scan l ≡ₚ l.
Implicit Types (fs s : gmap Path.t Fs.node) (p q dir out : Path.t) (c n : string).

Lemma is_file_in_mkdir p fs fs' q :
  mkdir_exist_ok p fs = (Ok (), fs') → is_file_in fs' q = is_file_in fs q.
Proof.
intros [_ [->|[Hnone ->]]]%mkdir_Ok; [done|].
unfold is_file_in, Fs.lookup in *.
destruct (decide (q = p)) as [->|Hne].
- destruct (bool_decide (p = [] ∨ p = ["/"])); [done|].
  by rewrite lookup_insert_eq, Hnone.
- by rewrite lookup_insert_ne.
Qed.

(** The first statements of [organize_files]: the output directory. *)
Lemma output_stage dir (output_dir : option Path.t) fs out fs1 :
  (match output_dir with
   | None => mret dir
   | Some output_dir => mkdir_exist_ok output_dir;; mret output_dir
   end) fs = (Ok out, fs1) →
  out = default dir output_dir ∧
  (∀ q, fs1 !! q = fs !! q ∨ (q = out ∧ fs !! q = None)) ∧
  (∀ q, is_file_in fs1 q = is_file_in fs q).
Proof.
destruct output_dir as [o|]; simpl.
- intros ([] & s & Hmk & Hret)%io_bind_inv. injection Hret as <- <-.
  split; [done|]. split; [|intros q; by eapply is_file_in_mkdir].
  apply mkdir_Ok in Hmk as [_ [->|[Hnone ->]]]; intros q; [by left|].
  destruct (decide (q = o)) as [->|]; [right|left; by apply lookup_insert_ne].
  split; [done|]. by apply lookup_None.
- intros [= <- <-]. split; [done|]. split; [intros q; by left|done].
Qed.

Lemma matching_spec fs dir allowed n :
  wf_names fs →
  n ∈ matching fs dir allowed ↔
    (∃ data, fs !! (dir ++ [n]) = Some (Fs.File data)) ∧
    type_selected allowed (dir ++ [n]) = true.
Proof.
intros Hwf. unfold matching.
rewrite list_elem_of_filter, andb_true_iff, is_file_in_lookup, elem_of_names. split.
- intros [[[Hd _] Hsel] _]. done.
- intros [[data Hd] Hsel].
  pose proof (valid_name_not_root _ (wf_names_child _ _ _ _ Hwf Hd)) as Hn.
  split_and!; [eauto| | |done|eauto].
  + by destruct dir.
  + destruct dir as [|? [|]]; intros ?; simplify_eq/=.
Qed.

Lemma matching_NoDup fs dir allowed : NoDup (matching fs dir allowed).
Proof. apply NoDup_filter, NoDup_names. Qed.

(** The files that the listing loop finds after the output directory has
    been made are the matching files of the directory as it was. *)
Lemma listed_files fs fs1 dir allowed fp :
  (∀ q, is_file_in fs1 q = is_file_in fs q) →
  fp ∈ filter (λ item, is_file_in fs1 item && type_selected allowed item = true)
         ((λ n, dir ++ [n]) <$> scan (Fs.names fs1 dir)) ↔
  ∃ n, fp = dir ++ [n] ∧ n ∈ matching fs dir allowed.
Proof.
intros Hif. unfold matching. rewrite list_elem_of_filter, list_elem_of_fmap. split.
- intros (Hsel & n & -> & Hn). exists n. split; [done|].
  apply list_elem_of_filter. rewrite <- Hif. split; [done|].
  apply elem_of_names. apply andb_true_iff in Hsel as [Hfile _].
  rewrite Hif in Hfile. apply is_file_in_lookup in Hfile as ([d Hd] & _). eauto.
- intros (n & -> & [Hsel Hn]%list_elem_of_filter). rewrite <- Hif in Hsel.
  split; [done|]. exists n. split; [done|].
  apply elem_of_scan_names; [done|]. apply andb_true_iff in Hsel as [Hfile _].
  apply is_file_in_lookup in Hfile as ([d Hd] & _). eauto.
Qed.

End grouping_stages.

Section grouping_claim.

Import OrganizeFiles.
Variable scan : list string → list string.
Hypothesis scan_perm : ∀ l, scan l ≡ₚ l.
Implicit Types (fs s : gmap Path.t Fs.node) (p q : Path.t) (c n : string).

(** C8 (counterexample): the folder [sorted/Frame] of [resorted] holds a
    file of category [Window] beforehand.  The run over the N = 2 matching
    files, of K = 2 categories, returns and leaves that file where it was:
    the folder [Frame] does not hold exactly the files of its category, and
    the two category folders hold 3 files. *)
Lemma organize_files_preexisting :
  let run := organize_files id ["sprites_done"] (Some ["sorted"]) None false false resorted in
  let names := matching resorted ["sprites_done"] [".svg"] in
  let cats := remove_dups (category_of <$> names) in
  run.1 = Ok () ∧
  names = ["_IconArtStoreFront14.svg"; "_FrameBendBronze01.svg"] ∧
  cats = ["IconArt"; "Frame"] ∧
  run.2 !! ["sorted"; "Frame"; "_WindowSkinHeader.svg"] = Some (Fs.File "skin") ∧
  category_of "_WindowSkinHeader.svg" = "Window" ∧
  sum_list ((λ c, length (Fs.names run.2 (["sorted"] ++ [c]))) <$> cats) = 3.
Proof. cbv zeta. split_and!; vm_compute; reflexivity. Qed.

(** C8 (amended): take a run of [organize_files] that is not dry and that
    returns, with relative paths without a part [..] for the source and
    the output directory, on a filesystem whose entries bear valid names
    and where no folder of a category of the matching files holds an
    entry yet.  With N
    the number of matching files directly in the source directory and K the
    number of their distinct categories: each of the K category folders is a
    directory under the output directory afterwards, and any other directory
    there was there before; a category folder holds an entry named [n]
    exactly when [n] is a matching file of that category, and it holds it
    with the content of the source file; so the entries of a category folder
    are the matching files of its category, and their number over the K
    folders is N. *)
Theorem organize_files_grouping directory_path output_dir file_types delete_originals fs fs' :
  let out := default directory_path output_dir in
  let allowed := default [".svg"] file_types in
  let names := matching fs directory_path allowed in
  let cats := remove_dups (category_of <$> names) in
  plain directory_path = true →
  plain out = true →
  wf_names fs →
  (∀ c n, c ∈ cats → fs !! (out ++ [c; n]) = None) →
  organize_files scan directory_path output_dir file_types false delete_originals fs
    = (Ok (), fs') →
  (NoDup cats ∧ ∀ n, n ∈ names → category_of n ∈ cats) ∧
  (∀ c, c ∈ cats → fs' !! (out ++ [c]) = Some Fs.Dir) ∧
  (∀ c, fs' !! (out ++ [c]) = Some Fs.Dir → c ∈ cats ∨ fs !! (out ++ [c]) = Some Fs.Dir) ∧
  (∀ c n, c ∈ cats →
     is_Some (fs' !! (out ++ [c; n])) ↔ n ∈ names ∧ category_of n = c) ∧
  (∀ n, n ∈ names →
     ∃ data, fs !! (directory_path ++ [n]) = Some (Fs.File data) ∧
             fs' !! (out ++ [category_of n; n]) = Some (Fs.File data)) ∧
  (∀ c, c ∈ cats →
     Fs.names fs' (out ++ [c]) ≡ₚ filter (λ n, category_of n = c) names) ∧
  sum_list ((λ c, length (Fs.names fs' (out ++ [c]))) <$> cats) = length names.
Proof.
intros out allowed names cats _ _ Hwf Hfresh Hrun.
assert (Hnames : ∀ n, n ∈ names →
          valid_name n = true ∧ ∃ data, fs !! (directory_path ++ [n]) = Some (Fs.File data)).
{ intros n [[data Hd] _]%matching_spec; [|done]. split; [by eapply wf_names_child|eauto]. }
assert (Hcats : ∀ c, c ∈ cats ↔ ∃ n, n ∈ names ∧ category_of n = c).
{ intros c. unfold cats. rewrite elem_of_remove_dups, list_elem_of_fmap.
  split; intros (n & ? & ?); eauto. }
unfold organize_files in Hrun.
apply io_bind_inv in Hrun as (out_ & fs1 & Hout & Hrun).
apply output_stage in Hout as (-> & Hfs1 & Hif). fold out in Hrun, Hfs1.
cbn zeta in Hrun. fold allowed in Hrun.
apply io_bind_inv in Hrun as (files & fs2 & Hlist & Hrun).
destruct (decide (Fs.lookup fs1 directory_path = Some Fs.Dir)) as [Hdir|Hdir].
2:{ destruct (list_files_Raise scan _ _ allowed Hdir) as [e He]. congruence. }
rewrite list_files_Ok in Hlist by done. injection Hlist as Hfl <-.
assert (Hfiles : ∀ fp, fp ∈ files ↔ ∃ n, fp = directory_path ++ [n] ∧ n ∈ names).
{ intros fp. rewrite <- Hfl. by apply listed_files. }
clear Hfl.
apply io_bind_inv in Hrun as (G & fs3 & Hgroup & Hrun).
rewrite group_files_Ok in Hgroup. injection Hgroup as HG' <-.
destruct (grouping_spec files) as [HGnd HG]. rewrite HG' in HGnd, HG. clear HG'.
assert (Hmember : ∀ c ps n, (c, ps) ∈ G →
          directory_path ++ [n] ∈ ps ↔ n ∈ names ∧ category_of n = c).
{ intros c ps n [_ ->]%HG. rewrite list_elem_of_filter, Hfiles. split.
  - intros [Hc (n' & [_ <-]%app_inj_tail & Hn')]. split; [done|].
    by rewrite name_child in Hc by (apply valid_name_not_root, Hnames, Hn').
  - intros [Hn Hc]. split; [|eauto].
    by rewrite name_child by (apply valid_name_not_root, Hnames, Hn). }
assert (Hgroup : ∀ c, c ∈ cats → ∃ ps, (c, ps) ∈ G).
{ intros c (n & Hn & Hc)%Hcats.
  exists (filter (λ x, category_of (Path.name x) = c) files). apply HG. split; [|done].
  intros Hnil.
  assert (directory_path ++ [n] ∈ filter (λ x, category_of (Path.name x) = c) files) as Hin.
  { apply list_elem_of_filter. split; [|apply Hfiles; eauto].
    by rewrite name_child by (apply valid_name_not_root, Hnames, Hn). }
  rewrite Hnil in Hin. by apply elem_of_nil in Hin. }
assert (Hkeys : ∀ c ps, (c, ps) ∈ G → c ∈ cats).
{ intros c ps Hin. destruct (HG c ps) as [[Hne Hps] _]; [done|].
  destruct ps as [|fp ps']; [done|].
  assert (Hfp : fp ∈ filter (λ x, category_of (Path.name x) = c) files).
  { rewrite <- Hps. by left. }
  apply list_elem_of_filter in Hfp as [Hc (n & -> & Hn)%Hfiles].
  rewrite name_child in Hc by (apply valid_name_not_root, Hnames, Hn).
  apply Hcats. eauto. }
assert (Hsrc1 : ∀ n, n ∈ names →
          fs1 !! (directory_path ++ [n]) = fs !! (directory_path ++ [n])).
{ intros n [_ [data Hd]]%Hnames.
  destruct (Hfs1 (directory_path ++ [n])) as [?|[_ ?]]; [done|congruence]. }
assert (Hfresh1 : ∀ c n, c ∈ cats → fs1 !! (out ++ [c; n]) = None).
{ intros c n Hc. destruct (Hfs1 (out ++ [c; n])) as [->|[Heq _]]; [by apply Hfresh|].
  by apply file_ne_parent in Heq. }
apply io_bind_inv in Hrun as ([] & s & Hcopy & Hdel).
assert (Hst : staged fs1 directory_path out G s).
{ assert (HcatG : ∀ c ps, (c, ps) ∈ G → out </> c = out ++ [c] ∧ c ≠ "/").
  { intros c ps (n & Hn & <-)%Hkeys%Hcats.
    destruct (category_part n) as (? & ? & Hslash); [by apply Hnames|].
    split; [by apply join_part|]. intros Heq. by rewrite Heq in Hslash. }
  assert (HfilesG : ∀ c ps fp, (c, ps) ∈ G → fp ∈ ps →
            ∃ n data, fp = directory_path ++ [n] ∧ valid_name n = true ∧
              fs1 !! (directory_path ++ [n]) = Some (Fs.File data) ∧
              fs1 !! (out ++ [c; n]) = None).
  { intros c ps fp Hin Hfp.
    assert (fp ∈ files) as (n & -> & Hn)%Hfiles.
    { apply HG in Hin as [_ ->]. by apply list_elem_of_filter in Hfp as [_ ?]. }
    destruct (Hnames n Hn) as [Hv [data Hd]]. exists n, data.
    rewrite Hsrc1 by done. split_and!; [done..|].
    apply Hfresh1. by eapply Hkeys. }
  pose proof (copy_stage_staged fs1 directory_path out G HcatG HfilesG fs1
                (staged_nil _ _ _)) as Ht.
  exact (eq_ind _ (λ x, match x with
                         | (Ok _, s') => staged fs1 directory_path out G s'
                         | (Raise _, _) => True
                         end) Ht _ Hcopy). }
clear Hcopy. destruct Hst as [HA HB].
assert (Hfin : ∀ q, fs' !! q = s !! q ∨
          (fs' !! q = None ∧ (∃ n, q = directory_path ++ [n]) ∧ is_file_in s q = true)).
{ change (negb false) with true in Hdel. rewrite andb_true_r in Hdel.
  destruct delete_originals.
  - pose proof (delete_non_foldered_files_spec scan scan_perm directory_path allowed s s
                  eq_refl) as Hd.
    rewrite Hdel in Hd. destruct Hd as [Hrem _]. intros q.
    destruct (Hrem q) as [?|(? & ? & ? & _)]; [by left|by right].
  - injection Hdel as <-. intros q. by left. }
clear Hdel.
assert (H5 : ∀ n, n ∈ names →
          ∃ data, fs !! (directory_path ++ [n]) = Some (Fs.File data) ∧
                  fs' !! (out ++ [category_of n; n]) = Some (Fs.File data)).
{ intros n Hn. destruct (Hnames n Hn) as [Hv [data Hd]]. exists data. split; [done|].
  assert (Hc : category_of n ∈ cats) by (apply Hcats; eauto).
  destruct (Hgroup _ Hc) as [ps Hps]. destruct (HB _ _ Hps) as [_ Hf].
  pose proof (Hf n (proj2 (Hmember _ _ n Hps) (conj Hn eq_refl))) as Hs.
  rewrite Hsrc1, Hd in Hs by done.
  destruct (Hfin (out ++ [category_of n; n])) as [->|(_ & [n' Heq] & _)]; [done|].
  rewrite app_two in Heq. apply app_inj_tail in Heq as [Heq <-].
  specialize (Hfresh _ n Hc). rewrite app_two, Heq in Hfresh. congruence. }
assert (H4 : ∀ c n, c ∈ cats →
          is_Some (fs' !! (out ++ [c; n])) ↔ n ∈ names ∧ category_of n = c).
{ intros c n Hc. split.
  - intros Hsome.
    destruct (Hfin (out ++ [c; n])) as [Heq|[Hnone _]];
      [|rewrite Hnone in Hsome; by apply is_Some_None in Hsome].
    rewrite Heq in Hsome.
    destruct (HA (out ++ [c; n]))
      as [Heq1|[(c' & _ & Heq1 & _)|(c' & ps & n' & d & Hin & Hn' & Heq1 & _)]].
    + rewrite Heq1, Hfresh1 in Hsome by done. by apply is_Some_None in Hsome.
    + symmetry in Heq1. by apply folder_ne_file in Heq1.
    + apply app_inv_head in Heq1. simplify_eq. by apply (Hmember _ _ _ Hin).
  - intros [Hn <-]. destruct (H5 n Hn) as (data & _ & ->). eauto. }
assert (H6 : ∀ c, c ∈ cats →
          Fs.names fs' (out ++ [c]) ≡ₚ filter (λ n, category_of n = c) names).
{ intros c Hc.
  apply NoDup_Permutation; [apply NoDup_names|apply NoDup_filter, matching_NoDup|].
  intros n. rewrite elem_of_names, <- app_two, H4, list_elem_of_filter by done. tauto. }
split_and!.
- apply NoDup_remove_dups.
- intros n Hn. apply Hcats. eauto.
- intros c Hc. destruct (Hgroup _ Hc) as [ps Hps]. destruct (HB _ _ Hps) as [Hd _].
  destruct (Hfin (out ++ [c])) as [->|(_ & _ & Hfile)]; [done|].
  apply is_file_in_lookup in Hfile as ([d Hd'] & _). congruence.
- intros c Hd. destruct (Hfin (out ++ [c])) as [Heq|[Hnone _]]; [|congruence].
  rewrite Heq in Hd.
  destruct (HA (out ++ [c]))
    as [Heq1|[(c' & Hc' & Heq1 & _)|(c' & ps & n' & d & _ & _ & Heq1 & _)]].
  + right. rewrite Heq1 in Hd.
    destruct (Hfs1 (out ++ [c])) as [<-|[Heq2 _]]; [done|]. by apply folder_ne_parent in Heq2.
  + left. apply app_inv_head in Heq1. simplify_eq.
    apply list_elem_of_fmap in Hc' as ([c'' ps] & -> & Hin). by eapply Hkeys.
  + by apply folder_ne_file in Heq1.
- done.
- done.
- done.
- rewrite (list_fmap_ext _ (λ c, length (filter (λ n, category_of n = c) names)) cats).
  + apply sum_list_partition; [apply NoDup_remove_dups|]. intros n Hn. apply Hcats. eauto.
  + intros i c Hi. apply Permutation_length, H6. by eapply list_elem_of_lookup_2.
Qed.

End grouping_claim.

Lemma organize_files_grouping_witness :
  let fs' :=
    (OrganizeFiles.organize_files id ["sprites_done"] (Some ["sorted"]) None false true
       sprites).2 in
  let names := matching sprites ["sprites_done"] [".svg"] in
  let cats := remove_dups (category_of <$> names) in
  sum_list ((λ c, length (Fs.names fs' (["sorted"] ++ [c]))) <$> cats) = length names.
Proof.
  intros fs' names cats.
  assert (Hrun : OrganizeFiles.organize_files id ["sprites_done"] (Some ["sorted"]) None
                   false true sprites = (Ok (), fs')).
  { assert ((OrganizeFiles.organize_files id ["sprites_done"] (Some ["sorted"]) None
               false true sprites).1 = Ok ()) as Hr by (vm_compute; reflexivity).
    unfold fs'. destruct (OrganizeFiles.organize_files _ _ _ _ _ _ _) as [r s].
    simpl in Hr. by subst. }
  refine (proj2 (proj2 (proj2 (proj2 (proj2 (proj2
            (organize_files_grouping id _ ["sprites_done"] (Some ["sorted"]) None true
               sprites fs' eq_refl eq_refl wf_names_sprites _ Hrun))))))).
  - intros l. reflexivity.
  - intros c n _. apply not_elem_of_list_to_map_1. simpl.
    intros Hin. repeat (apply elem_of_cons in Hin as [Hin|Hin]; [discriminate|]).
    by apply elem_of_nil in Hin.
Defined.

(** * Further properties of the code *)

(** ** The rules of the category extractor *)

Section category_rules.

Import OrganizeFiles.
Implicit Types (s t seg d pre after stem ext rest : string) (c : ascii).

Lemma first_match_none s :
  Forall (λ keyword, starts_with_keyword s keyword = false) keywords →
  first_match patterns s = None.
Proof.
intros Hs. destruct (first_match patterns s) as [k|] eqn:Hf; [|done].
apply first_match_keyword in Hf as [Hk Hsk].
rewrite Forall_forall in Hs. by rewrite (Hs k Hk) in Hsk.
Qed.

(** What is left of [extract_category] when neither the prefix rule nor the
    double-underscore rule gives a category. *)
Lemma extract_category_fall_through seg :
  Py.contains "/" seg = false →
  Forall (λ keyword, starts_with_keyword seg keyword = false) keywords →
  double_underscore_silent seg →
  extract_category seg =
    match (if Py.startswith seg "_" then leading_letters (Py.drop 1 seg) else Ok None) with
    | Ok (Some category) => Ok category
    | Ok None => Ok (PosixPath.splitext seg).1
    | Raise e => Raise e
    end.
Proof.
intros Hslash Hname Hsilent.
assert (Hslice : Py.startswith seg "_" = true → Py.slice seg (Some 1%Z) None = Py.drop 1 seg).
{ intros [t ->]%str_prefix_iff. by apply (slice_from 1); simpl; lia. }
unfold extract_category. rewrite Hslash. cbn [mbind result_bind].
rewrite (basename_segment _ Hslash), (first_match_none _ Hname).
destruct Hsilent as [Hno|(pre & after & -> & Hfirst & Hafter & Hrun)].
- rewrite Hno. cbn [mbind result_bind].
  destruct (Py.startswith seg "_") eqn:Hu; [|done]. rewrite Hslice by done.
  by destruct (leading_letters _) as [[?|]|].
- assert (Py.contains "__" (pre +:+ "__" +:+ after) = true) as ->.
  { apply contains_true. eauto. }
  rewrite (split_once _ "__" pre after eq_refl).
  2:{ intros p q. by apply first_double_underscore. }
  change (Py.item [pre; after] 1) with (Ok after). cbn [mbind result_bind].
  rewrite (first_match_none _ Hafter), (leading_letters_run after), Hrun.
  rewrite bool_decide_eq_true_2 by done. cbn [mbind result_bind].
  destruct (Py.startswith _ "_") eqn:Hu; [|done]. rewrite Hslice by done.
  by destruct (leading_letters _) as [[?|]|].
Qed.

(** X1: only the text after the last ['/'] of the filename counts: whatever
    the directory part holds, keywords and ["__"] included, the category is
    that of the last segment. *)
Theorem extract_category_last_segment d seg :
  Py.contains "/" seg = false →
  extract_category (d +:+ "/" +:+ seg) = extract_category seg ∧
  category_of (d +:+ "/" +:+ seg) = category_of seg.
Proof.
intros Hno. unfold category_of. by rewrite extract_category_trim.
Qed.

Lemma extract_category_last_segment_witness :
  extract_category ("_IconArt__Frame" +:+ "/" +:+ "_Doodad07.svg")
    = extract_category "_Doodad07.svg" ∧
  category_of ("_IconArt__Frame" +:+ "/" +:+ "_Doodad07.svg") = category_of "_Doodad07.svg".
Proof.
  apply (extract_category_last_segment "_IconArt__Frame" "_Doodad07.svg").
  vm_compute. reflexivity.
Defined.

(** X2: the underscore rule.  A filename without ['/'] that starts with
    ['_'] and then a letter, that starts with no keyword and for which the
    double-underscore rule gives nothing (no ["__"], or a ["__"] followed by
    neither a keyword nor a letter), has for category the run of letters
    that follows the underscore. *)
Theorem extract_category_underscore rest :
  Py.contains "/" rest = false →
  Forall (λ keyword, starts_with_keyword ("_" +:+ rest) keyword = false) keywords →
  double_underscore_silent ("_" +:+ rest) →
  leading_run is_letter rest ≠ "" →
  extract_category ("_" +:+ rest) = Ok (leading_run is_letter rest).
Proof.
intros Hslash Hname Hsilent Hrun. rewrite sapp_cons, sapp_nil_l in *.
rewrite extract_category_fall_through; [|by apply contains_char_cons|done..].
assert (Py.startswith (String "_" rest) "_" = true) as ->.
{ apply str_prefix_iff. by exists rest. }
change (Py.drop 1 (String "_" rest)) with rest.
rewrite leading_letters_run. by rewrite bool_decide_eq_false_2.
Qed.

Lemma extract_category_underscore_witness :
  extract_category ("_" +:+ "MapArt__05.svg") = Ok "MapArt".
Proof.
  apply (extract_category_underscore "MapArt__05.svg").
  - vm_compute. reflexivity.
  - repeat constructor.
  - right. exists "_MapArt", "05.svg". split_and!.
    + reflexivity.
    + vm_compute. reflexivity.
    + repeat constructor.
    + reflexivity.
  - vm_compute. discriminate.
Defined.

(** *** The stem that [splitext] returns *)

Lemma rfind_nat_last c stem ext :
  Py.contains (String c "") ext = false →
  Py.rfind_nat (stem +:+ String c ext) (String c "") = Some (String.length stem).
Proof.
intros Hext. induction stem as [|a stem IH].
- rewrite sapp_nil_l, rfind_nat_cons, (rfind_nat_None _ _ Hext).
  assert (String.prefix (String c "") (String c ext) = true) as ->; [|done].
  apply str_prefix_iff. by exists ext.
- by rewrite sapp_cons, rfind_nat_cons, IH.
Qed.

Lemma splitext_no_dot s : Py.contains "." s = false → PosixPath.splitext s = (s, "").
Proof.
intros Hdot. unfold PosixPath.splitext.
assert (Py.rfind s "." = (-1)%Z) as ->.
{ unfold Py.rfind. by rewrite rfind_nat_None. }
pose proof (rfind_ge s "/") as Hsep.
destruct (_ <? _)%Z eqn:Hlt; [apply Z.ltb_lt in Hlt; lia|].
by rewrite (slice_to 0) by lia.
Qed.

Lemma splitext_loop_stops (rounds : nat) s (fi di : Z) :
  (∃ j : nat, j < rounds ∧
     Py.slice s (Some (fi + Z.of_nat j)%Z) (Some (fi + Z.of_nat j + 1)%Z) ≠ ".") →
  PosixPath.splitext_loop rounds s fi di
    = Some (Py.slice s None (Some di), Py.slice s (Some di) None).
Proof.
revert fi. induction rounds as [|rounds IH]; intros fi (j & Hj & Hchar); [lia|]. simpl.
case_bool_decide as Hdot; [done|]. apply IH.
destruct j as [|j].
- rewrite Z.add_0_r in Hchar. by destruct Hdot.
- exists j. split; [lia|].
  by replace (fi + 1 + Z.of_nat j)%Z with (fi + Z.of_nat (S j))%Z by lia.
Qed.

Lemma non_dot_position stem t :
  all_chars is_dot stem = false →
  ∃ j, j < String.length stem ∧ Py.take 1 (Py.drop j (stem +:+ t)) ≠ ".".
Proof.
induction stem as [|a stem IH]; [done|]. simpl. intros Hall.
destruct (is_dot a) eqn:Ha; simpl in Hall.
- destruct (IH Hall) as (j & Hj & Hchar). exists (S j). split; [lia|].
  by rewrite sapp_cons.
- exists 0. split; [lia|]. rewrite sapp_cons. simpl. intros [= ->]. done.
Qed.

Lemma splitext_stem stem ext :
  Py.contains "/" (stem +:+ "." +:+ ext) = false →
  Py.contains "." ext = false →
  all_chars is_dot stem = false →
  PosixPath.splitext (stem +:+ "." +:+ ext) = (stem, "." +:+ ext).
Proof.
intros Hslash Hext Hstem. unfold PosixPath.splitext.
assert (Py.rfind (stem +:+ "." +:+ ext) "/" = (-1)%Z) as ->.
{ unfold Py.rfind. by rewrite rfind_nat_None. }
assert (Py.rfind (stem +:+ "." +:+ ext) "." = Z.of_nat (String.length stem)) as ->.
{ unfold Py.rfind. rewrite sapp_cons, sapp_nil_l. by rewrite rfind_nat_last. }
destruct (_ <? _)%Z eqn:Hlt; [|apply Z.ltb_ge in Hlt; lia].
rewrite splitext_loop_stops.
- simpl. rewrite slice_to, slice_from by (rewrite sapp_length; lia).
  by rewrite str_take_app, str_drop_app.
- destruct (non_dot_position stem ("." +:+ ext) Hstem) as (j & Hj & Hchar).
  exists j. split; [lia|].
  replace (-1 + 1 + Z.of_nat j)%Z with (Z.of_nat j) by lia.
  replace (Z.of_nat j + 1)%Z with (Z.of_nat (S j)) by lia.
  rewrite slice_range by (rewrite sapp_length; lia).
  by replace (S j - j) with 1 by lia.
Qed.

(** X3: the last resort.  A filename without ['/'] that starts with no
    keyword, for which the double-underscore rule gives nothing, and that
    does not start with ['_'] and then a letter, has for category what
    [os.path.splitext] leaves of it: the whole name when it has no dot, and
    the text before the last dot when that text is not made of dots only. *)
Theorem extract_category_last_resort s :
  Py.contains "/" s = false →
  Forall (λ keyword, starts_with_keyword s keyword = false) keywords →
  double_underscore_silent s →
  Py.startswith s "_" = false ∨ leading_run is_letter (Py.drop 1 s) = "" →
  extract_category s = Ok (PosixPath.splitext s).1 ∧
  (Py.contains "." s = false → extract_category s = Ok s) ∧
  (∀ stem ext, s = stem +:+ "." +:+ ext → Py.contains "." ext = false →
     all_chars is_dot stem = false → extract_category s = Ok stem).
Proof.
intros Hslash Hname Hsilent Hunder.
assert (Hroot : extract_category s = Ok (PosixPath.splitext s).1).
{ rewrite extract_category_fall_through by done.
  destruct Hunder as [->|Hrun]; [done|].
  destruct (Py.startswith s "_"); [|done].
  rewrite leading_letters_run, Hrun. by rewrite bool_decide_eq_true_2. }
split_and!; [done| |].
- intros Hdot. by rewrite Hroot, splitext_no_dot.
- intros stem ext -> Hext Hstem. by rewrite Hroot, splitext_stem.
Qed.

Lemma extract_category_last_resort_witness :
  extract_category "hero.v2.svg" = Ok "hero.v2" ∧
  extract_category "_9lives__.svg" = Ok "_9lives__".
Proof.
  split.
  - refine (proj2 (proj2 (extract_category_last_resort "hero.v2.svg" _ _ _ _))
              "hero.v2" "svg" _ _ _).
    + vm_compute. reflexivity.
    + repeat constructor.
    + left. vm_compute. reflexivity.
    + left. vm_compute. reflexivity.
    + reflexivity.
    + vm_compute. reflexivity.
    + vm_compute. reflexivity.
  - refine (proj2 (proj2 (extract_category_last_resort "_9lives__.svg" _ _ _ _))
              "_9lives__" "svg" _ _ _).
    + vm_compute. reflexivity.
    + repeat constructor.
    + right. exists "_9lives", ".svg". split_and!.
      * reflexivity.
      * vm_compute. reflexivity.
      * repeat constructor.
      * reflexivity.
    + right. vm_compute. reflexivity.
    + reflexivity.
    + vm_compute. reflexivity.
    + vm_compute. reflexivity.
Defined.

(** *** Categories as folder names *)

Lemma splitext_root_parent n : valid_name n = true → (PosixPath.splitext n).1 ≠ "..".
Proof.
intros (Hne & Hdot & Hdd & Hslash)%valid_name_parts. unfold PosixPath.splitext.
assert (Hsep : Py.rfind n "/" = (-1)%Z).
{ unfold Py.rfind. by rewrite rfind_nat_None. }
rewrite Hsep. pose proof (rfind_lt n "."%char) as Hlt.
destruct (_ <? _)%Z; [|done].
destruct (PosixPath.splitext_loop _ _ _ _) as [r|] eqn:Hloop; [|done].
pose proof (splitext_loop_Some _ _ _ _ _ Hloop) as [Hrounds Hr].
apply splitext_loop_dot in Hloop as (j & Hj & Hchar). simpl. rewrite Hr.
set (di := Py.rfind n ".") in *.
assert (0 ≤ di)%Z as Hdi by lia.
rewrite <-(Z2Nat.id di) by done. rewrite slice_to by lia.
intros Htake. pose proof (f_equal String.length Htake) as Hlen.
rewrite str_take_length in Hlen. simpl in Hlen.
assert (Z.to_nat di = 2) as Htwo by lia. rewrite Htwo in Htake.
apply Hchar.
replace (-1 + 1 + Z.of_nat j)%Z with (Z.of_nat j) by lia.
replace (Z.of_nat j + 1)%Z with (Z.of_nat (S j)) by lia.
rewrite slice_range by lia. replace (S j - j) with 1 by lia.
rewrite <- (str_take_drop 2 n), Htake.
destruct j as [|[|j]]; [done|done|lia].
Qed.

(** X4: the category of a valid file name is itself a valid name: it is
    not empty, not ["."] or [".."], and has no ['/'].  So the folder of a
    category is always a direct child of the output directory. *)
Theorem category_folder_name n :
  valid_name n = true →
  valid_name (category_of n) = true ∧
  ∀ output_dir : Path.t, output_dir </> category_of n = output_dir ++ [category_of n].
Proof.
intros Hv. destruct (category_part n Hv) as (Hne & Hdot & Hslash).
assert (Hdd : category_of n ≠ "..").
{ pose proof (splitext_root_parent n Hv) as Hroot.
  apply valid_name_parts in Hv as (_ & _ & _ & Hs). unfold category_of.
  destruct (extract_category_segment n Hs) as (c & -> & [Hk|[[_ Hall]|Hc]]).
  - unfold keywords in Hk.
    repeat (apply elem_of_cons in Hk as [->|Hk]; [done|]). by apply elem_of_nil in Hk.
  - by intros ->.
  - by subst c. }
split; [|intros output_dir; by apply join_part].
unfold valid_name. rewrite Hslash. by rewrite !bool_decide_eq_false_2.
Qed.

Lemma category_folder_name_witness :
  valid_name (category_of "..hidden.svg") = true ∧
  ∀ output_dir : Path.t,
    output_dir </> category_of "..hidden.svg" = output_dir ++ [category_of "..hidden.svg"].
Proof.
  apply (category_folder_name "..hidden.svg"). vm_compute. reflexivity.
Defined.

End category_rules.

(** ** The grouping loop *)

Section grouping_order.

Import OrganizeFiles.
Implicit Types (l : list string) (x y : string) (files : list Path.t).

Lemma elem_of_first_seen l x : x ∈ first_seen l ↔ x ∈ l.
Proof.
induction l as [|a l IH]; [done|]. simpl.
rewrite !elem_of_cons, list_elem_of_filter, IH.
destruct (decide (x = a)); tauto.
Qed.

Lemma first_seen_snoc l x :
  first_seen (l ++ [x]) = if bool_decide (x ∈ l) then first_seen l else first_seen l ++ [x].
Proof.
induction l as [|a l IH]; [done|]. simpl. rewrite IH.
destruct (decide (x = a)) as [->|Hne].
- rewrite (bool_decide_eq_true_2 (a ∈ a :: l)) by left.
  case_bool_decide; [done|]. rewrite filter_app, filter_cons_False by tauto.
  by rewrite filter_nil, app_nil_r.
- rewrite (bool_decide_ext (x ∈ a :: l) (x ∈ l)) by (rewrite elem_of_cons; tauto).
  case_bool_decide; [done|]. by rewrite filter_app, filter_cons_True by done.
Qed.

Lemma NoDup_first_seen l : NoDup (first_seen l).
Proof.
induction l as [|a l IH]; simpl; [constructor|]. constructor.
- rewrite list_elem_of_filter. tauto.
- by apply NoDup_filter.
Qed.

Lemma grouping_keys files :
  (grouping files).*1 = first_seen ((λ file_path, category_of (Path.name file_path)) <$> files).
Proof.
induction files as [|x files IH] using rev_ind; [done|].
unfold grouping in *. rewrite foldl_app. simpl.
rewrite dict_append_keys, IH, fmap_app. cbn [fmap list_fmap].
rewrite first_seen_snoc.
by rewrite (bool_decide_ext _ _ (elem_of_first_seen _ _)).
Qed.

(** X5: the grouping loop never raises and leaves the filesystem alone.
    The categories come in the order in which the listing first shows them
    (the insertion order of the dictionary), without repetition, and the
    list of a category holds the files of that category, all of them, in
    the order of the listing; no list is empty. *)
Theorem group_files_first_seen files fs :
  ∃ categories,
    group_files files fs = (Ok categories, fs) ∧
    categories.*1
      = first_seen ((λ file_path, category_of (Path.name file_path)) <$> files) ∧
    NoDup categories.*1 ∧
    ∀ category file_paths,
      (category, file_paths) ∈ categories ↔
        file_paths ≠ [] ∧
        file_paths
          = filter (λ file_path, category_of (Path.name file_path) = category) files.
Proof.
exists (grouping files). destruct (grouping_spec files) as [Hnd Hin].
split_and!; [apply group_files_Ok|apply grouping_keys|done|done].
Qed.

End grouping_order.

(** ** Runs that fail, and what they leave behind *)

Section failing_runs.

Import OrganizeFiles.
Variable scan : list string → list string.
Hypothesis scan_perm : ∀ l, scan l ≡ₚ l.
Implicit Types (fs s : gmap Path.t Fs.node) (p q : Path.t) (c n : string).

Lemma list_files_not_dir fs directory_path file_types :
  Fs.lookup fs directory_path ≠ Some Fs.Dir →
  list_files scan directory_path file_types fs
    = (Raise (match Fs.lookup fs directory_path with
              | None => Fs.not_found fs directory_path
              | Some _ => NotADirectoryError
              end), fs).
Proof.
intros Hdir. unfold list_files, iterdir. rewrite !io_bind_unfold. unfold listdir.
by destruct (Fs.lookup fs directory_path) as [[]|].
Qed.

Lemma lookup_mkdir_other fs fs' p q :
  mkdir_exist_ok q fs = (Ok (), fs') → p ≠ q → Fs.lookup fs' p = Fs.lookup fs p.
Proof.
intros [_ [->|[_ ->]]]%mkdir_Ok Hne; [done|].
unfold Fs.lookup. by rewrite lookup_insert_ne.
Qed.

(** Making a directory makes no regular file, so the error for a path
    that is not there stays the same. *)
Lemma not_found_mkdir fs fs' p q :
  mkdir_exist_ok q fs = (Ok (), fs') → Fs.not_found fs' p = Fs.not_found fs p.
Proof.
intros Hmk. unfold Fs.not_found.
set (is_file s a := match Fs.lookup s a with Some (Fs.File _) => true | _ => false end).
enough (∀ l, existsb (is_file fs') l = existsb (is_file fs) l) as -> by done.
intros l. induction l as [|a l IH]; [done|]. simpl. rewrite IH. f_equal. unfold is_file.
destruct (decide (a = q)) as [->|Hne].
- apply mkdir_Ok in Hmk as [Hq [->|[Hnone ->]]]; [done|]. by rewrite Hq, Hnone.
- by rewrite (lookup_mkdir_other _ _ _ _ Hmk Hne).
Qed.

(** The parent of a path is one of its ancestors. *)
Lemma not_found_parent_file fs p data :
  Fs.lookup fs p = None → Fs.lookup fs (Path.parent p) = Some (Fs.File data) →
  Fs.not_found fs p = NotADirectoryError.
Proof.
intros Hp Hparent. unfold Fs.not_found.
assert (existsb (λ q, match Fs.lookup fs q with Some (Fs.File _) => true | _ => false end)
          (Fs.ancestors p) = true) as ->; [|done].
apply existsb_exists. exists (Path.parent p). split; [|by rewrite Hparent].
unfold Path.parent in *. case_bool_decide as Hroot; [by subst|].
destruct p as [|x p] using rev_ind; [done|]. clear IHp.
rewrite removelast_last. apply list_elem_of_In, list_elem_of_fmap.
exists (length p). split; [by rewrite take_app_length|].
apply elem_of_seq. rewrite length_app. simpl. lia.
Qed.

(** X6: when the source directory, a relative path without a part [..]
    as is the output directory, is not there or is a regular file, the
    run raises as soon as it lists it: [NotADirectoryError] when the path
    or one of its ancestors is a regular file, [FileNotFoundError]
    otherwise.  Nothing is copied or deleted, but an output directory that
    was given and absent has been made by then, dry run or not. *)
Theorem organize_files_source_missing directory_path output_dir file_types dry_run
    delete_originals fs :
  plain directory_path = true →
  plain (default directory_path output_dir) = true →
  Fs.lookup fs directory_path ≠ Some Fs.Dir →
  output_dir ≠ Some directory_path →
  let made :=
    match output_dir with
    | None => (Ok (), fs)
    | Some output_dir => mkdir_exist_ok output_dir fs
    end in
  organize_files scan directory_path output_dir file_types dry_run delete_originals fs
    = (Raise (match made.1 with
              | Raise e => e
              | Ok _ =>
                  match Fs.lookup fs directory_path with
                  | None => Fs.not_found fs directory_path
                  | Some _ => NotADirectoryError
                  end
              end), made.2).
Proof.
intros _ _ Hdir Hout made. unfold organize_files. rewrite io_bind_unfold.
destruct output_dir as [o|]; simpl in made.
- rewrite io_bind_unfold. unfold made.
  destruct (mkdir_exist_ok o fs) as [[[]|e] fs1] eqn:Hmk; [|done].
  assert (Fs.lookup fs1 directory_path = Fs.lookup fs directory_path) as Heq.
  { eapply lookup_mkdir_other; [done|congruence]. }
  cbn [mret io_ret]. rewrite io_bind_unfold, list_files_not_dir by congruence.
  by rewrite Heq, (not_found_mkdir _ _ _ _ Hmk).
- cbn [mret io_ret]. by rewrite io_bind_unfold, list_files_not_dir by done.
Qed.

(** X16: the output directory is made without its parents, and before
    anything else.  When it, a relative path without a part [..], is not
    a directory and cannot be made, the run raises at once, dry run or not,
    and the filesystem is as it was: [FileExistsError] when a regular file
    is at that path, [NotADirectoryError] when one of its ancestors is a
    regular file, [FileNotFoundError] when its parent is missing
    otherwise. *)
Theorem organize_files_output_unmakeable directory_path output_dir file_types dry_run
    delete_originals fs :
  plain output_dir = true →
  Fs.lookup fs output_dir ≠ Some Fs.Dir →
  (Fs.lookup fs output_dir = None → Fs.lookup fs (Path.parent output_dir) ≠ Some Fs.Dir) →
  organize_files scan directory_path (Some output_dir) file_types dry_run delete_originals fs
    = (Raise (match Fs.lookup fs output_dir with
              | Some _ => FileExistsError
              | None => Fs.not_found fs output_dir
              end), fs).
Proof.
intros _ Hout Hparent. unfold organize_files. rewrite !io_bind_unfold. unfold mkdir_exist_ok.
destruct (Fs.lookup fs output_dir) as [[]|] eqn:Ho; [done|done|].
specialize (Hparent eq_refl).
destruct (Fs.lookup fs (Path.parent output_dir)) as [[data|]|] eqn:Hp; [|done|done].
by rewrite (not_found_parent_file _ _ _ Ho Hp).
Qed.

End failing_runs.

Lemma organize_files_output_unmakeable_witness :
  OrganizeFiles.organize_files id ["sprites_done"]
      (Some ["sprites_done"; "_FrameBendBronze01.svg"; "by"; "category"]) None true false
      sprites
    = (Raise NotADirectoryError, sprites).
Proof.
  refine (eq_trans
            (organize_files_output_unmakeable id ["sprites_done"]
               ["sprites_done"; "_FrameBendBronze01.svg"; "by"; "category"]
               None true false sprites eq_refl _ _) _).
  - vm_compute. discriminate.
  - intros _. vm_compute. discriminate.
  - reflexivity.
Defined.

Lemma organize_files_source_missing_witness :
  let run :=
    OrganizeFiles.organize_files id ["sprites_done"; "_FrameBendBronze01.svg"; "x"]
      (Some ["sorted"]) None true false sprites in
  sprites !! ["sorted"] = None ∧
  run.1 = Raise NotADirectoryError ∧
  run.2 !! ["sorted"] = Some Fs.Dir.
Proof.
  cbv zeta.
  rewrite (organize_files_source_missing id
             ["sprites_done"; "_FrameBendBronze01.svg"; "x"] (Some ["sorted"]) None true false
             sprites eq_refl eq_refl).
  - split_and!; vm_compute; reflexivity.
  - vm_compute. discriminate.
  - discriminate.
Defined.

(** ** What the copying loops keep *)

Section kinds.

Import OrganizeFiles.
Variable scan : list string → list string.
Hypothesis scan_perm : ∀ l, scan l ≡ₚ l.
Implicit Types (fs s : gmap Path.t Fs.node) (p q src dst : Path.t) (c n : string).

Lemma io_bind_eq {A B : Type} (m : io A) (f g : A → io B) fs :
  (∀ a s, m fs = (Ok a, s) → f a s = g a s) → (m ≫= f) fs = (m ≫= g) fs.
Proof.
intros Hfg. rewrite !io_bind_unfold. destruct (m fs) as [[a|e] s]; [by apply Hfg|done].
Qed.

Lemma for_skip {A : Type} (l : list A) (body : A → io unit) fs :
  (∀ x, x ∈ l → body x fs = (Ok (), fs)) → for_ l body fs = (Ok (), fs).
Proof.
induction l as [|x l IH]; intros Hbody; [done|].
rewrite for_cons, io_bind_unfold, Hbody by left.
apply IH. intros y Hy. apply Hbody. by right.
Qed.

Lemma lookup_insert_dir fs p q x :
  Fs.lookup fs q ≠ Some Fs.Dir → Fs.lookup fs p = Some Fs.Dir →
  Fs.lookup (<[q := x]> fs) p = Some Fs.Dir.
Proof.
intros Hq Hp. assert (p ≠ q) by congruence.
unfold Fs.lookup in *. destruct (bool_decide (p = [] ∨ p = ["/"])); [done|].
by rewrite lookup_insert_ne.
Qed.

Lemma is_file_in_insert fs p q x :
  (∀ data, Fs.lookup fs q ≠ Some (Fs.File data)) ∨ (∃ data, x = Fs.File data) →
  is_file_in fs p = true → is_file_in (<[q := x]> fs) p = true.
Proof.
intros Hq Hp. apply is_file_in_lookup in Hp as ([data Hd] & Hp1 & Hp2).
apply is_file_in_lookup. split_and!; [|done..].
destruct (decide (p = q)) as [->|Hne]; [|rewrite lookup_insert_ne by done; eauto].
rewrite lookup_insert_eq. destruct Hq as [Hq|[data' ->]]; [|eauto].
destruct (Hq data). by apply lookup_File.
Qed.

(** A directory stays a directory and a regular file stays a regular file
    when a directory is made or a file is copied. *)
Lemma mkdir_keeps (P : gmap Path.t Fs.node → Prop) p q :
  (P = (λ s, Fs.lookup s p = Some Fs.Dir) ∨ P = (λ s, is_file_in s p = true)) →
  triple P (mkdir_exist_ok q) (λ _, P) P.
Proof.
intros HP s Hs. unfold mkdir_exist_ok.
destruct (Fs.lookup s q) as [[]|] eqn:Hq; [done..|].
destruct (Fs.lookup s (Path.parent q)) as [[]|]; [done| |done].
destruct HP as [->| ->].
- apply lookup_insert_dir; [congruence|done].
- apply is_file_in_insert; [|done]. left. congruence.
Qed.

Lemma copy2_keeps (P : gmap Path.t Fs.node → Prop) p src dst :
  (P = (λ s, Fs.lookup s p = Some Fs.Dir) ∨ P = (λ s, is_file_in s p = true)) →
  triple P (copy2 src dst) (λ _, P) P.
Proof.
intros HP s Hs. unfold copy2.
set (dst' := match Fs.lookup s dst with Some Fs.Dir => dst </> Path.name src | _ => dst end).
destruct (Fs.lookup s src) as [[data|]|]; [|done..].
case_bool_decide; [done|].
assert (Hgoal : Fs.lookup s dst' ≠ Some Fs.Dir → P (<[dst' := Fs.File data]> s)).
{ intros Hd. destruct HP as [->| ->].
  - by apply lookup_insert_dir.
  - apply is_file_in_insert; [|done]. right. eauto. }
destruct (Fs.lookup s dst') as [[]|] eqn:Hd; [|done|];
  (destruct (Fs.lookup s (Path.parent dst')) as [[]|]; [done| |done]);
  by apply Hgoal.
Qed.

Lemma copy_stage_keeps (P : gmap Path.t Fs.node → Prop) p output_dir
    (categories : list (string * list Path.t)) (dry_run : bool) :
  (P = (λ s, Fs.lookup s p = Some Fs.Dir) ∨ P = (λ s, is_file_in s p = true)) →
  triple P
    (for_ categories (λ '(category, file_paths),
       let category_dir := output_dir </> category in
       (if negb dry_run then mkdir_exist_ok category_dir else mret ());;
       for_ file_paths (λ file_path,
         let dest_path := category_dir </> Path.name file_path in
         if dry_run then mret ()
         else if bool_decide (file_path = dest_path) then mret ()
         else copy2 file_path dest_path)))
    (λ _, P) P.
Proof.
intros HP. apply triple_for. intros [c ps] _. cbn zeta.
apply (triple_bind _ _ _ (λ _, P)).
{ destruct dry_run; simpl; [by apply triple_ret|by eapply mkdir_keeps]. }
intros []. apply triple_for. intros fp _.
destruct dry_run; [by apply triple_ret|].
case_bool_decide; [by apply triple_ret|]. by eapply copy2_keeps.
Qed.

(** X7: with an empty list of file types the listing takes every regular
    file of the directory, but the deletion takes none ([suffix in []] never
    holds): the flag [delete_originals] changes nothing in such a run, be
    it its result or the filesystem. *)
Theorem organize_files_empty_types_keep_originals directory_path output_dir dry_run fs :
  organize_files scan directory_path output_dir (Some []) dry_run true fs
  = organize_files scan directory_path output_dir (Some []) dry_run false fs.
Proof.
destruct dry_run; [reflexivity|]. unfold organize_files.
apply io_bind_eq. intros out fs1 _. cbn zeta.
apply io_bind_eq. intros files fs2 Hlist.
apply io_bind_eq. intros categories fs3 Hgroup.
apply io_bind_eq. intros [] s Hcopy.
change (delete_non_foldered_files scan directory_path (Some []) s = (Ok (), s)).
assert (Hdir : Fs.lookup fs1 directory_path = Some Fs.Dir).
{ destruct (decide (Fs.lookup fs1 directory_path = Some Fs.Dir)) as [|Hdir]; [done|].
  rewrite list_files_not_dir in Hlist by done. done. }
rewrite list_files_Ok in Hlist by done. injection Hlist as _ <-.
rewrite group_files_Ok in Hgroup. injection Hgroup as _ <-.
pose proof (copy_stage_keeps _ directory_path out categories false (or_introl eq_refl)
              fs1 Hdir) as Hkept.
pose proof (eq_ind _ (λ x, match x with
                           | (Ok _, s') => Fs.lookup s' directory_path = Some Fs.Dir
                           | (Raise _, s') => Fs.lookup s' directory_path = Some Fs.Dir
                           end) Hkept _ Hcopy) as Hs.
cbv beta iota in Hs. clear Hkept Hcopy.
unfold delete_non_foldered_files. rewrite io_bind_unfold, iterdir_Ok by done.
apply for_skip. intros item _. rewrite io_bind_unfold. unfold is_file.
by rewrite andb_false_r.
Qed.

End kinds.

(** ** A category folder that cannot be made *)

Section blocked.

Import OrganizeFiles.
Variable scan : list string → list string.
Hypothesis scan_perm : ∀ l, scan l ≡ₚ l.
Implicit Types (fs s : gmap Path.t Fs.node) (p q : Path.t) (c n : string).

Lemma output_stage_made dir (output_dir : option Path.t) fs out fs1 :
  (match output_dir with
   | None => mret dir
   | Some output_dir => mkdir_exist_ok output_dir;; mret output_dir
   end) fs = (Ok out, fs1) →
  ∀ o, output_dir = Some o → Fs.lookup fs1 o = Some Fs.Dir.
Proof.
intros Hout o ->. apply io_bind_inv in Hout as ([] & s & Hmk & Hret).
injection Hret as <- <-. by apply mkdir_Ok in Hmk as [? _].
Qed.

Lemma output_stage_precise dir (output_dir : option Path.t) fs out fs1 :
  (match output_dir with
   | None => mret dir
   | Some output_dir => mkdir_exist_ok output_dir;; mret output_dir
   end) fs = (Ok out, fs1) →
  fs1 = fs ∨ (fs !! out = None ∧ fs1 = <[out := Fs.Dir]> fs).
Proof.
destruct output_dir as [o|]; simpl.
- intros ([] & s & Hmk & Hret)%io_bind_inv. injection Hret as <- <-.
  apply mkdir_Ok in Hmk as [_ [->|[Hnone ->]]]; [by left|right].
  split; [|done]. by apply lookup_None.
- intros [= <- <-]. by left.
Qed.

(** The stages of a run that is not dry and that returns. *)
Lemma organize_files_returns directory_path output_dir file_types delete_originals fs fs' :
  let out := default directory_path output_dir in
  let allowed := default [".svg"] file_types in
  organize_files scan directory_path output_dir file_types false delete_originals fs
    = (Ok (), fs') →
  ∃ fs1 files s,
    (∀ q, fs1 !! q = fs !! q ∨ (q = out ∧ fs !! q = None)) ∧
    (∀ q, is_file_in fs1 q = is_file_in fs q) ∧
    (∀ o, output_dir = Some o → Fs.lookup fs1 o = Some Fs.Dir) ∧
    (fs1 = fs ∨ (fs !! out = None ∧ fs1 = <[out := Fs.Dir]> fs)) ∧
    Fs.lookup fs1 directory_path = Some Fs.Dir ∧
    (∀ fp, fp ∈ files ↔ ∃ n, fp = directory_path ++ [n] ∧
                             n ∈ matching fs directory_path allowed) ∧
    for_ (grouping files) (λ '(category, file_paths),
       let category_dir := out </> category in
       (if negb false then mkdir_exist_ok category_dir else mret ());;
       for_ file_paths (λ file_path,
         let dest_path := category_dir </> Path.name file_path in
         if false then mret ()
         else if bool_decide (file_path = dest_path) then mret ()
         else copy2 file_path dest_path)) fs1 = (Ok (), s) ∧
    (if delete_originals
     then delete_non_foldered_files scan directory_path (Some allowed) s
     else (Ok (), s)) = (Ok (), fs').
Proof.
intros out allowed Hrun. unfold organize_files in Hrun.
apply io_bind_inv in Hrun as (out_ & fs1 & Hout & Hrun).
pose proof (output_stage_made _ _ _ _ _ Hout) as Hmade.
pose proof (output_stage_precise _ _ _ _ _ Hout) as Hprecise.
apply output_stage in Hout as (-> & Hfs1 & Hif). fold out in Hrun, Hfs1, Hprecise.
cbn zeta in Hrun. fold allowed in Hrun.
apply io_bind_inv in Hrun as (files & fs2 & Hlist & Hrun).
destruct (decide (Fs.lookup fs1 directory_path = Some Fs.Dir)) as [Hdir|Hdir].
2:{ destruct (list_files_Raise scan _ _ allowed Hdir) as [e He]. congruence. }
rewrite list_files_Ok in Hlist by done. injection Hlist as Hfl <-.
apply io_bind_inv in Hrun as (G & fs3 & Hgroup & Hrun).
rewrite group_files_Ok in Hgroup. injection Hgroup as <- <-.
apply io_bind_inv in Hrun as ([] & s & Hcopy & Hdel).
exists fs1, files, s. split_and!; [done..| |exact Hcopy|].
- intros fp. rewrite <- Hfl. by apply listed_files.
- by destruct delete_originals.
Qed.

(** When the run returns, no folder of a category had its place taken by
    a regular file. *)
Lemma organize_files_folder_free directory_path output_dir file_types delete_originals
    fs fs' n :
  let out := default directory_path output_dir in
  let allowed := default [".svg"] file_types in
  wf_names fs →
  organize_files scan directory_path output_dir file_types false delete_originals fs
    = (Ok (), fs') →
  n ∈ matching fs directory_path allowed →
  is_file_in fs (out ++ [category_of n]) = false.
Proof.
intros out allowed Hwf Hrun Hn.
destruct (is_file_in fs (out ++ [category_of n])) eqn:Hfile; [exfalso|done].
apply organize_files_returns in Hrun
  as (fs1 & files & s & _ & Hif & _ & _ & _ & Hfiles & Hcopy & _).
fold out allowed in Hfiles, Hcopy.
pose proof Hn as [[data Hd] _]%matching_spec; [|done].
pose proof (wf_names_child _ _ _ _ Hwf Hd) as Hv.
destruct (category_part n Hv) as (Hne & Hdot & Hslash).
set (c0 := category_of n) in *.
destruct (grouping_spec files) as [_ HG].
assert (Hc0 : c0 ∈ (grouping files).*1).
{ apply list_elem_of_fmap.
  exists (c0, filter (λ x, category_of (Path.name x) = c0) files). split; [done|].
  apply HG. split; [|done]. intros Hnil.
  assert (directory_path ++ [n] ∈ filter (λ x, category_of (Path.name x) = c0) files) as Hin.
  { apply list_elem_of_filter. split; [|apply Hfiles; eauto].
    by rewrite name_child by (by apply valid_name_not_root). }
  rewrite Hnil in Hin. by apply elem_of_nil in Hin. }
set (I := λ (seen : list (string * list Path.t)) s,
       is_file_in s (out ++ [c0]) = true ∧ c0 ∉ seen.*1).
match type of Hcopy with for_ _ ?b _ = _ =>
  assert (Hloop : triple (I []) (for_ (grouping files) b) (λ _, I (grouping files))
                    (λ _, True)) end.
{ apply triple_for_prefix. intros seen [c ps] rest _. cbn zeta.
  destruct (decide (c = c0)) as [->|Hc].
  - intros s0 [Hs0 _]. rewrite io_bind_unfold. change (negb false) with true. cbv iota.
    rewrite join_part by done. unfold mkdir_exist_ok.
    apply is_file_in_File in Hs0 as [d ->]. done.
  - apply (triple_bind _ _ _ (λ _, I seen)).
    { intros s0 [Hs0 Hseen]. change (negb false) with true. cbv iota.
      pose proof (mkdir_keeps _ (out ++ [c0]) (out </> c) (or_intror eq_refl) s0 Hs0) as Hk.
      by destruct (mkdir_exist_ok _ s0) as [[[]|?] ?]. }
    intros [].
    apply (triple_weaken (I seen) (I seen) _ (λ _, I (seen ++ [(c, ps)])) (λ _, I seen)
             (λ _, True) (λ _, True)); [|done| |done].
    + apply triple_for. intros fp _. case_bool_decide; [by apply triple_ret|].
      intros s0 [Hs0 Hseen].
      pose proof (copy2_keeps _ (out ++ [c0]) fp (out </> c </> Path.name fp)
                    (or_intror eq_refl) s0 Hs0) as Hk.
      by destruct (copy2 _ _ s0) as [[[]|?] ?].
    + intros _ s0 [Hs0 Hseen]. split; [done|].
      rewrite fmap_app, elem_of_app. intros [?|Hin]; [done|].
      apply list_elem_of_singleton in Hin. done. }
assert (HI0 : I [] fs1).
{ split; [by rewrite Hif|]. apply not_elem_of_nil. }
specialize (Hloop fs1 HI0). rewrite Hcopy in Hloop. by destruct Hloop as [_ Hnot].
Qed.

(** X8: [mkdir(exist_ok=True)] accepts a directory that exists, not a
    regular file.  When the place of the folder of a category of one of the
    matching files is taken by a regular file, a run that is not dry cannot
    return: it raises, at that [mkdir] at the latest. *)
Theorem organize_files_category_is_file directory_path output_dir file_types
    delete_originals fs n :
  let out := default directory_path output_dir in
  let allowed := default [".svg"] file_types in
  wf_names fs →
  n ∈ matching fs directory_path allowed →
  is_file_in fs (out ++ [category_of n]) = true →
  ∃ e fs',
    organize_files scan directory_path output_dir file_types false delete_originals fs
      = (Raise e, fs').
Proof.
intros out allowed Hwf Hn Hfile.
destruct (organize_files _ _ _ _ _ _ fs) as [[[]|e] fs'] eqn:Hrun; [exfalso|eauto].
pose proof (organize_files_folder_free _ _ _ _ _ _ n Hwf Hrun Hn) as Hfree.
fold out in Hfree. congruence.
Qed.

End blocked.

Lemma organize_files_category_is_file_witness :
  ∃ e fs',
    OrganizeFiles.organize_files id ["docs"] None (Some []) false false docs = (Raise e, fs').
Proof.
  apply (organize_files_category_is_file id (λ l, reflexivity l) ["docs"] None (Some [])
           false docs "README").
  - apply (bool_decide_unpack _). vm_compute. exact I.
  - apply (bool_decide_unpack _). vm_compute. exact I.
  - vm_compute. reflexivity.
Defined.

(** ** The command line *)

Section command_line.

Import OrganizeFiles.
Variable scan : list string → list string.
Implicit Types (s t e : string) (c : ascii) (item : Path.t).

Lemma lower_char_idem c : Py.lower_char (Py.lower_char c) = Py.lower_char c.
Proof. by destruct c as [[] [] [] [] [] [] [] []]. Qed.

Lemma lower_char_dot c : Py.lower_char c = "."%char ↔ c = "."%char.
Proof. destruct c as [[] [] [] [] [] [] [] []]; by split. Qed.

Lemma lower_idem s : Py.lower (Py.lower s) = Py.lower s.
Proof. induction s as [|c s IH]; [done|]. simpl. by rewrite lower_char_idem, IH. Qed.

Lemma lstrip_lower s : Py.lstrip (Py.lower s) "." = Py.lower (Py.lstrip s ".").
Proof.
induction s as [|c s IH]; [done|]. simpl.
destruct (decide (c = "."%char)) as [->|Hc].
- by rewrite !bool_decide_eq_true_2.
- rewrite !bool_decide_eq_false_2; [done|done|]. by rewrite lower_char_dot.
Qed.

Lemma lstrip_head s c : Py.startswith (Py.lstrip s c) (String c "") = false.
Proof.
induction s as [|a s IH]; [done|]. simpl. case_bool_decide as Ha; [done|].
unfold Py.startswith. rewrite str_prefix_cons. by rewrite bool_decide_eq_false_2.
Qed.

Lemma lstrip_fixed s c : Py.startswith s (String c "") = false → Py.lstrip s c = s.
Proof.
destruct s as [|a s]; [done|]. unfold Py.startswith. rewrite str_prefix_cons. simpl.
case_bool_decide as Ha; [|by rewrite bool_decide_eq_false_2].
subst. by destruct s.
Qed.

Lemma lstrip_dots s c : Py.lstrip (String c s) c = Py.lstrip s c.
Proof. simpl. by rewrite bool_decide_eq_true_2. Qed.

Lemma type_arg_idem t : type_arg (type_arg t) = type_arg t.
Proof.
assert (Hdot : ∀ u, type_arg ("." +:+ u) = type_arg u).
{ intros u. unfold type_arg. rewrite !sapp_cons, !sapp_nil_l.
  change (Py.lower (String "." u)) with (String "." (Py.lower u)).
  by rewrite lstrip_dots. }
unfold type_arg at 2. rewrite Hdot. unfold type_arg.
rewrite lstrip_lower, (lstrip_fixed _ _ (lstrip_head _ _)).
by rewrite <- lstrip_lower, lower_idem.
Qed.

(** X9: the normal form of a type given on the command line: a dot, then
    the type in lower case without its leading dots.  Normalising twice is
    normalising once, and leading dots in the argument do not count. *)
Theorem type_arg_normal t :
  type_arg (type_arg t) = type_arg t ∧
  type_arg ("." +:+ t) = type_arg t ∧
  ∃ e, type_arg t = "." +:+ e ∧ Py.startswith e "." = false ∧ Py.lower e = e.
Proof.
assert (Hdot : ∀ u, type_arg ("." +:+ u) = type_arg u).
{ intros u. unfold type_arg. rewrite !sapp_cons, !sapp_nil_l.
  change (Py.lower (String "." u)) with (String "." (Py.lower u)).
  by rewrite lstrip_dots. }
assert (Hlow : Py.lower (Py.lstrip (Py.lower t) ".") = Py.lstrip (Py.lower t) ".").
{ by rewrite <- lstrip_lower, lower_idem. }
split_and!; [apply type_arg_idem|done|].
- exists (Py.lstrip (Py.lower t) "."). split_and!; [done|apply lstrip_head|done].
Qed.

(** X10: what [main] hands to [organize_files].  The list of types is
    [None] (for the default [.svg]) or a list that is not empty, of types in
    normal form; so, from the command line, the listing and the deletion
    select the files by the same test, and the mode of the empty list, in
    which every file is taken, cannot be reached. *)
Theorem main_file_types (args : args.t) :
  ∃ file_types,
    main scan args
      = organize_files scan (Path.parse (args.directory args))
          (Path.parse <$> args.output args) file_types
          (args.dry_run args) (args.delete_originals args) ∧
    file_types ≠ Some [] ∧
    (file_types = None ↔ args.types args = None ∨ args.types args = Some []) ∧
    (∀ types, file_types = Some types →
       length types = length (default [] (args.types args)) ∧
       Forall (λ t, type_arg t = t) types) ∧
    ∀ item, type_selected (default [".svg"] file_types) item
            = type_listed (default [".svg"] file_types) item.
Proof.
unfold main. destruct (args.types args) as [[|t ts]|] eqn:Htypes.
- exists None. split_and!; [done|done| |done|done]. split; [by right|done].
- exists (Some (type_arg <$> t :: ts)). split_and!; [done|done| | |done].
  + split; [done|]. by intros [|].
  + intros types [= <-]. change (list_fmap string string type_arg ts) with (type_arg <$> ts).
    split; [simpl; by rewrite length_fmap|].
    change (Forall (λ t0, type_arg t0 = t0) (type_arg <$> t :: ts)).
    apply Forall_fmap, Forall_forall. intros x _. apply type_arg_idem.
- exists None. split_and!; [done|done| |done|done]. split; [by left|done].
Qed.

(** *** Suffixes have one dot *)

Lemma rfind_nat_char_None c s :
  Py.rfind_nat s (String c "") = None → Py.contains (String c "") s = false.
Proof.
induction s as [|a s IH]; [done|]. rewrite rfind_nat_cons.
destruct (Py.rfind_nat s (String c "")); [done|].
rewrite str_prefix_cons. case_bool_decide as Ha; simpl.
- by destruct s.
- intros _. apply contains_char_cons. split; [congruence|by apply IH].
Qed.

Lemma rfind_nat_char_Some c s i :
  Py.rfind_nat s (String c "") = Some i →
  ∃ rest, Py.drop i s = String c rest ∧ Py.contains (String c "") rest = false.
Proof.
revert i. induction s as [|a s IH]; intros i; [done|]. rewrite rfind_nat_cons.
destruct (Py.rfind_nat s (String c "")) as [j|] eqn:Hj.
- intros [= <-]. by apply IH.
- rewrite str_prefix_cons. case_bool_decide as Ha; simpl; [|by destruct s].
  destruct (String.prefix "" s); [|done]. intros [= <-]. subst a.
  exists s. split; [done|]. by apply rfind_nat_char_None.
Qed.

Lemma suffix_one_dot item :
  Path.suffix item = "" ∨
  ∃ e, Path.suffix item = "." +:+ e ∧ Py.contains "." e = false.
Proof.
unfold Path.suffix. set (name := Path.name item).
destruct (_ && _) eqn:Hcond; [|by left]. right.
apply andb_true_iff in Hcond as [Hpos Hlt]. apply Z.ltb_lt in Hpos, Hlt.
unfold Py.rfind in *. destruct (Py.rfind_nat name ".") as [i|] eqn:Hi; [|lia].
rewrite slice_from by lia.
apply rfind_nat_char_Some in Hi as (rest & -> & Hrest). by exists rest.
Qed.

Lemma contains_dot_lower e : Py.contains "." e = false → Py.contains "." (Py.lower e) = false.
Proof.
induction e as [|c e IH]; [done|]. simpl.
intros [Hc He]%contains_char_cons. apply contains_char_cons.
split; [by rewrite lower_char_dot|by apply IH].
Qed.

(** X11: the suffix of a path has its only dot in front.  So a type given
    with a dot inside, as [tar.gz], matches no file: with such types only,
    the listing selects nothing and the deletion removes nothing. *)
Theorem type_with_inner_dot (types : list string) item :
  types ≠ [] →
  Forall (λ t, Py.contains "." (Py.lstrip (Py.lower t) ".") = true) types →
  type_selected (type_arg <$> types) item = false ∧
  type_listed (type_arg <$> types) item = false.
Proof.
intros Hne Hdots.
assert (Hlisted : type_listed (type_arg <$> types) item = false).
{ unfold type_listed. apply bool_decide_eq_false. intros Hin.
  apply list_elem_of_fmap in Hin as (t & Ht & Hin).
  rewrite Forall_forall in Hdots. specialize (Hdots t Hin). unfold type_arg in Ht.
  rewrite sapp_cons, sapp_nil_l in Ht.
  destruct (suffix_one_dot item) as [Hs|(e & Hs & He)]; rewrite Hs in Ht; [done|].
  rewrite sapp_cons, sapp_nil_l in Ht.
  change (Py.lower (String "." e)) with (String "." (Py.lower e)) in Ht.
  injection Ht as Ht.
  apply contains_dot_lower in He. congruence. }
split; [|done]. unfold type_selected. fold (type_listed (type_arg <$> types) item).
rewrite Hlisted, orb_false_r. apply bool_decide_eq_false.
by destruct types.
Qed.

Lemma type_with_inner_dot_witness :
  OrganizeFiles.type_selected (OrganizeFiles.type_arg <$> ["tar.gz"; ".Min.JS"])
    ["sprites_done"; "hero.tar.gz"] = false ∧
  OrganizeFiles.type_listed (OrganizeFiles.type_arg <$> ["tar.gz"; ".Min.JS"])
    ["sprites_done"; "hero.tar.gz"] = false.
Proof.
  apply (type_with_inner_dot ["tar.gz"; ".Min.JS"]).
  - discriminate.
  - repeat constructor.
Defined.

End command_line.

(** ** The shape of a proper name *)

Section name_shape.

Import RenameSprites.
Implicit Types (s t w : string) (g : gmap nat string).

Lemma at_eol_inv t : Re.at_eol t = true → t = "" ∨ t = String Re.newline "".
Proof.
destruct t as [|c [|]]; simpl; [by left| |done].
intros ->%bool_decide_eq_true. by right.
Qed.

Lemma run_rest_group_end n j s g m :
  Re.run (Re.Cat (Re.Group n (Re.Plus Re.Dot)) Re.Eol) j s g Re.accept = Some m →
  ∃ w t, s = w +:+ t ∧ w ≠ "" ∧ Re.at_eol t = true ∧ m = <[n := w]> g.
Proof.
cbn [Re.run]. intros Hm. apply plus_loop_Some in Hm as (w & t & -> & Hw & _ & Hm).
exists w, t. destruct (Re.at_eol t); [|done].
unfold Re.accept in Hm. injection Hm as <-.
replace (j + String.length w - j) with (String.length w) by lia.
by rewrite str_take_app.
Qed.

(** X12: [extract_proper_name] never raises: the group it reads has always
    taken part in the match.  The proper name is a piece of the folder
    name that runs to its end, or to a newline that ends it, and it is
    empty for the empty folder name only. *)
Theorem extract_proper_name_total folder_name :
  ∃ name a b,
    extract_proper_name folder_name = Ok name ∧
    folder_name = a +:+ name +:+ b ∧
    (b = "" ∨ b = String Re.newline "") ∧
    (name = "" ↔ folder_name = "").
Proof.
unfold extract_proper_name, Re.search.
destruct (Re.search_go a_pattern 0 folder_name) as [m|] eqn:Ha.
{ apply search_go_Some in Ha as (p1 & p2 & -> & Hm).
  unfold a_pattern in Hm. rewrite run_cat, run_word in Hm.
  destruct (String.prefix "a_" p2) eqn:Hp; [|done]. apply str_prefix_inv in Hp.
  apply run_rest_group_end in Hm as (w & t & Hw & Hne & Ht & ->).
  unfold Re.group. rewrite lookup_insert_eq.
  exists w, (p1 +:+ "a_"), t. split_and!; [done| |by apply at_eol_inv|].
  - by rewrite Hp, Hw, !sapp_assoc.
  - split; [done|]. intros Hnil. rewrite Hp in Hnil.
    apply sapp_eq_nil in Hnil as [_ Hnil]. by rewrite sapp_cons in Hnil. }
destruct (Re.search_go sprite_pattern 0 folder_name) as [m|] eqn:Hs.
{ apply search_go_Some in Hs as (p1 & p2 & -> & Hm).
  unfold sprite_pattern in Hm. rewrite run_cat, run_word in Hm.
  destruct (String.prefix "DefineSprite_" p2) eqn:Hp; [|done]. apply str_prefix_inv in Hp.
  rewrite run_cat in Hm. cbn [Re.run] in Hm.
  apply plus_loop_Some in Hm as (ds & t & Ht & _ & _ & Hm).
  destruct t as [|c t]; [done|]. destruct (Re.cset_ok _ c); [|done].
  pose proof (run_rest_group_end 2) as Hrest. cbn [Re.run] in Hrest.
  apply Hrest in Hm as (w & t' & Hw & Hne & Ht' & ->).
  unfold Re.group. rewrite lookup_insert_eq.
  exists w, (p1 +:+ "DefineSprite_" +:+ ds +:+ String c ""), t'.
  split_and!; [done| |by apply at_eol_inv|].
  - rewrite Hp, Ht, Hw, !sapp_assoc. done.
  - split; [done|]. intros Hnil. rewrite Hp in Hnil.
    apply sapp_eq_nil in Hnil as [_ Hnil]. by rewrite sapp_cons in Hnil. }
exists folder_name, "", "". rewrite sapp_nil_r. split_and!; [done|done|by left|done].
Qed.

End name_shape.

(** ** Deleting twice *)

Section deleting_twice.

Import OrganizeFiles.
Variable scan : list string → list string.
Hypothesis scan_perm : ∀ l, scan l ≡ₚ l.
Implicit Types (fs s : gmap Path.t Fs.node) (p q : Path.t) (n : string).

Lemma for_returns {A : Type} (l : list A) (body : A → io unit) fs :
  (∀ x s, ∃ s', body x s = (Ok (), s')) → ∃ fs', for_ l body fs = (Ok (), fs').
Proof.
intros Hbody. revert fs. induction l as [|x l IH]; intros fs; [by exists fs|].
rewrite for_cons, io_bind_unfold. destruct (Hbody x fs) as [s' ->]. apply IH.
Qed.

(** X13: [delete_non_foldered_files] on a directory returns, having
    removed the regular files directly in it whose lower-cased suffix is
    listed ([.svg] when no list is given) and nothing else; calling it
    again changes nothing. *)
Theorem delete_non_foldered_files_twice directory_path file_types fs :
  Fs.lookup fs directory_path = Some Fs.Dir →
  let allowed := default [".svg"] file_types in
  ∃ fs1,
    delete_non_foldered_files scan directory_path file_types fs = (Ok (), fs1) ∧
    (∀ q, fs1 !! q = fs !! q ∨
          (fs1 !! q = None ∧ (∃ n, q = directory_path ++ [n]) ∧
           is_file_in fs q = true ∧ type_listed allowed q = true)) ∧
    (∀ n, is_file_in fs (directory_path ++ [n]) = true →
          type_listed allowed (directory_path ++ [n]) = true →
          fs1 !! (directory_path ++ [n]) = None) ∧
    delete_non_foldered_files scan directory_path file_types fs1 = (Ok (), fs1).
Proof.
intros Hdir allowed.
assert (Hsame : delete_non_foldered_files scan directory_path file_types
                = delete_non_foldered_files scan directory_path (Some allowed)).
{ by destruct file_types. }
rewrite Hsame.
assert (Hret : ∃ fs1, delete_non_foldered_files scan directory_path (Some allowed) fs
                      = (Ok (), fs1)).
{ unfold delete_non_foldered_files. rewrite io_bind_unfold, iterdir_Ok by done.
  apply for_returns. intros item s. rewrite io_bind_unfold. unfold is_file.
  destruct (Fs.lookup s item) as [[data|]|] eqn:Hitem; simpl; [|by eauto..].
  destruct (type_listed _ item); [|by eauto]. unfold unlink. rewrite Hitem. eauto. }
destruct Hret as [fs1 Hrun]. exists fs1.
pose proof (delete_non_foldered_files_spec scan scan_perm directory_path allowed fs fs
              eq_refl) as Hspec.
rewrite Hrun in Hspec. destruct Hspec as [Hrem Hgone].
split_and!; [done..|].
assert (Hdir1 : Fs.lookup fs1 directory_path = Some Fs.Dir).
{ unfold Fs.lookup in *. destruct (bool_decide _) eqn:Hroot; [done|].
  destruct (Hrem directory_path) as [->|(_ & _ & Hfile & _)]; [done|].
  unfold is_file_in, Fs.lookup in Hfile. by rewrite Hroot, Hdir in Hfile. }
unfold delete_non_foldered_files. rewrite io_bind_unfold, iterdir_Ok by done.
apply for_skip. intros item [n [-> _]]%list_elem_of_fmap.
rewrite io_bind_unfold. unfold is_file. fold (is_file_in fs1 (directory_path ++ [n])).
destruct (is_file_in fs1 _ && type_listed _ _) eqn:Hcond; [exfalso|by destruct (is_file_in _ _)].
apply andb_true_iff in Hcond as [Hfile Hlisted].
assert (Hfile0 : is_file_in fs (directory_path ++ [n]) = true).
{ apply is_file_in_lookup in Hfile as ([d Hd] & ? & ?). apply is_file_in_lookup.
  split_and!; [|done..]. destruct (Hrem (directory_path ++ [n])) as [<-|[Hn _]]; [eauto|congruence]. }
apply is_file_in_lookup in Hfile as ([d Hd] & _).
rewrite (Hgone n Hfile0 Hlisted) in Hd. done.
Qed.

End deleting_twice.

Lemma delete_non_foldered_files_twice_witness :
  ∃ fs1,
    OrganizeFiles.delete_non_foldered_files id ["sprites_done"] None sprites = (Ok (), fs1) ∧
    (∀ q, fs1 !! q = sprites !! q ∨
          (fs1 !! q = None ∧ (∃ n, q = ["sprites_done"] ++ [n]) ∧
           is_file_in sprites q = true ∧
           OrganizeFiles.type_listed (default [".svg"] None) q = true)) ∧
    (∀ n, is_file_in sprites (["sprites_done"] ++ [n]) = true →
          OrganizeFiles.type_listed (default [".svg"] None) (["sprites_done"] ++ [n]) = true →
          fs1 !! (["sprites_done"] ++ [n]) = None) ∧
    OrganizeFiles.delete_non_foldered_files id ["sprites_done"] None fs1 = (Ok (), fs1).
Proof.
  apply (delete_non_foldered_files_twice id (λ l, reflexivity l) ["sprites_done"] None sprites).
  vm_compute. reflexivity.
Defined.

(** ** What the fan-out stage leaves alone *)

Section fan_out_frame.

Import RenameSprites.
Variable scan : list string → list string.
Hypothesis scan_perm : ∀ l, scan l ≡ₚ l.
Implicit Types (fs s : gmap Path.t Fs.node) (p q src dst : Path.t) (f name folder : string).

Lemma sources_kept_refl fs : sources_kept fs fs.
Proof. by split. Qed.

Lemma sources_kept_insert fs s q x :
  head q = Some "sprites_done" → sources_kept fs s → sources_kept fs (<[q := x]> s).
Proof.
intros Hq [Hsome Hout]. split.
- intros p Hp. destruct (decide (p = q)) as [->|Hne].
  + rewrite lookup_insert_eq. eauto.
  + rewrite lookup_insert_ne by done. by apply Hsome.
- intros p Hp. rewrite lookup_insert_ne by congruence. by apply Hout.
Qed.

Lemma head_app_Some (q l : Path.t) x : head q = Some x → head (q ++ l) = Some x.
Proof. by destruct q. Qed.

Lemma mkdir_sources_kept fs q :
  head q = Some "sprites_done" →
  triple (sources_kept fs) (mkdir_exist_ok q) (λ _, sources_kept fs) (sources_kept fs).
Proof.
intros Hq s Hs. unfold mkdir_exist_ok.
destruct (Fs.lookup s q) as [[]|]; [done..|].
destruct (Fs.lookup s (Path.parent q)) as [[]|]; [done| |done].
by apply sources_kept_insert.
Qed.

Lemma copy2_sources_kept fs src dst :
  head dst = Some "sprites_done" → Py.startswith (Path.name src) "/" = false →
  triple (sources_kept fs) (copy2 src dst) (λ _, sources_kept fs) (sources_kept fs).
Proof.
intros Hdst Hname s Hs. unfold copy2.
set (dst' := match Fs.lookup s dst with Some Fs.Dir => dst </> Path.name src | _ => dst end).
assert (Hdst' : head dst' = Some "sprites_done").
{ unfold dst'. destruct (Fs.lookup s dst) as [[]|]; [done| |done].
  unfold Path.join. rewrite Hname. by apply head_app_Some. }
destruct (Fs.lookup s src) as [[data|]|]; [|done..].
case_bool_decide; [done|].
destruct (Fs.lookup s dst') as [[]|];
  [|done|]; (destruct (Fs.lookup s (Path.parent dst')) as [[]|]; [done| |done]);
  by apply sources_kept_insert.
Qed.

Lemma elem_of_enumerate {A : Type} (l : list A) a i x : (i, x) ∈ enumerate l a → x ∈ l.
Proof.
intros [k Hk]%list_elem_of_lookup_1. rewrite enumerate_lookup in Hk.
destruct (l !! k) as [y|] eqn:Hy; [|done]. simpl in Hk. injection Hk as _ <-.
by eapply list_elem_of_lookup_2.
Qed.

Lemma not_output_prefix folder :
  Py.startswith folder "sprites_done" = false → folder ≠ "sprites_done".
Proof. by intros Hs ->. Qed.

Lemma process_folder_sources_kept fs folder :
  wf_names fs → valid_name folder = true →
  Py.startswith folder "sprites_done" = false →
  triple (sources_kept fs) (process_folder scan folder)
    (λ _, sources_kept fs) (sources_kept fs).
Proof.
intros Hwf Hv Hprefix s Hs.
pose proof (not_output_prefix _ Hprefix) as Hfolder.
pose proof (parse_valid _ Hv) as Hparse.
pose proof (proper_name_no_slash _ Hv) as Hname.
destruct (extract_proper_name_substring folder) as (a & b & Hpn & _).
unfold process_folder. rewrite io_bind_unfold. unfold io_lift at 1. rewrite Hpn.
rewrite io_bind_unfold, Hparse. unfold listdir.
destruct (Fs.lookup s [folder]) as [[]|]; [done| |done].
set (entries := scan (Fs.names s [folder])).
assert (Hvalid : ∀ f, f ∈ entries → valid_name f = true).
{ intros f [x Hx]%elem_of_scan_names; [|done].
  destruct Hs as [_ Hout]. rewrite Hout in Hx by (simpl; congruence).
  by eapply wf_names_child. }
clearbody entries. cbn zeta.
set (svg := filter (λ f, Py.endswith (Py.lower f) ".svg" = true) entries).
assert (Hsvg : ∀ f, f ∈ svg → valid_name f = true).
{ intros f [_ Hf]%list_elem_of_filter. by apply Hvalid. }
clearbody svg. revert s Hs.
change (triple (sources_kept fs)
  (subfolder ←
     (if 1 <? length svg
      then mkdir_exist_ok (output_dir </> proper_name_of folder);;
           mret (Some (output_dir </> proper_name_of folder))
      else mret None);
   for_ (enumerate (Py.sorted svg) 1) (λ '(i, svg_file),
     dest_path ←
       (if length svg =? 1 then
          mret (output_dir </> (proper_name_of folder +:+ ".svg"))
        else
          match subfolder with
          | Some subfolder =>
              mret (subfolder </>
                      (proper_name_of folder +:+ "_" +:+ format_02d i +:+ ".svg"))
          | None => io_lift (Raise TypeError)
          end);
     copy2 ([folder] </> svg_file) dest_path))
  (λ _, sources_kept fs) (sources_kept fs)).
assert (Hsub : head (output_dir </> proper_name_of folder) = Some "sprites_done").
{ by rewrite join_no_slash, output_dir_parts. }
apply (triple_bind _ _ _
         (λ subfolder s, sources_kept fs s ∧
            ∀ sf, subfolder = Some sf → head sf = Some "sprites_done")).
{ destruct (1 <? length svg).
  - apply (triple_bind _ _ _ (λ _, sources_kept fs)); [by apply mkdir_sources_kept|].
    intros []. apply triple_ret. intros s Hs. split; [done|]. by intros sf [= <-].
  - apply triple_ret. intros s Hs. split; [done|]. by intros sf [=]. }
intros subfolder.
apply (triple_weaken _ (λ s, sources_kept fs s ∧
          ∀ sf, subfolder = Some sf → head sf = Some "sprites_done") _ _
         (λ _ s, sources_kept fs s ∧
            ∀ sf, subfolder = Some sf → head sf = Some "sprites_done") _
         (λ s, sources_kept fs s ∧
            ∀ sf, subfolder = Some sf → head sf = Some "sprites_done"));
  [|done|by intros _ s []|by intros s []].
apply triple_for. intros [i f] Hin.
assert (Hf : valid_name f = true).
{ apply Hsvg. apply elem_of_enumerate in Hin.
  by rewrite <- (merge_sort_Permutation String.le svg). }
rewrite (join_valid [folder]) by done.
apply (triple_bind _ _ _
         (λ dest_path s, (sources_kept fs s ∧
            ∀ sf, subfolder = Some sf → head sf = Some "sprites_done") ∧
            head dest_path = Some "sprites_done")).
{ destruct (length svg =? 1).
  - apply triple_ret. intros s Hs. split; [done|].
    rewrite join_no_slash, output_dir_parts; [done|].
    apply contains_char_app. split; [done|by vm_compute].
  - destruct subfolder as [sf|].
    + apply triple_ret. intros s [Hs Hsf]. split; [done|].
      rewrite join_no_slash.
      * apply head_app_Some. by apply Hsf.
      * apply valid_name_parts. by apply numbered_name_valid.
    + by intros s Hs. }
intros dest_path s [[Hs Hsf] Hdest].
pose proof (copy2_sources_kept fs ([folder] ++ [f]) dest_path Hdest) as Hcp.
rewrite name_child in Hcp by (by apply valid_name_not_root).
assert (Hnoroot : Py.startswith f "/" = false).
{ apply valid_name_parts in Hf as (_ & _ & _ & Hslash).
  destruct (Py.startswith f "/") eqn:Hp; [|done].
  apply str_prefix_iff in Hp as [t ->]. by destruct (contains_false_1 _ _ "" t Hslash). }
specialize (Hcp Hnoroot s Hs).
by destruct (copy2 _ _ s) as [[[]|?] ?].
Qed.

(** X14: the fan-out stage copies and never moves.  On a filesystem
    whose entries bear valid names, where no folder of the working
    directory has the proper name [..] (a part that [pathlib] keeps and
    that leads out of the output directory), a run of [main], returning or
    raising, removes no entry, and every entry whose path does not start
    with [sprites_done] is as it was: the sprite folders and their images
    are never modified. *)
Theorem main_keeps_sources fs r fs' :
  wf_names fs →
  Forall (λ d, proper_name_of d ≠ "..") (Fs.names fs []) →
  main scan fs = (r, fs') →
  (∀ p, is_Some (fs !! p) → is_Some (fs' !! p)) ∧
  (∀ p, head p ≠ Some "sprites_done" → fs' !! p = fs !! p).
Proof.
intros Hwf _ Hrun.
cut (triple (sources_kept fs) (main scan) (λ _, sources_kept fs) (sources_kept fs)).
{ intros Ht. specialize (Ht fs (sources_kept_refl fs)). rewrite Hrun in Ht.
  by destruct r. }
unfold main.
apply (triple_bind _ _ _ (λ _, sources_kept fs)).
{ apply mkdir_sources_kept. by rewrite output_dir_parts. }
intros [] s Hs. rewrite io_bind_unfold. unfold listdir at 1.
change (Fs.lookup s []) with (Some Fs.Dir). cbv beta iota.
set (names := scan (Fs.names s [])). rewrite io_bind_unfold.
set (selected := λ d : string,
       match Fs.lookup s (Path.parse d) with Some Fs.Dir => true | _ => false end
       && negb (Py.startswith d "sprites_done")).
rewrite (for_acc_pure _ _ _ (λ directories d,
           if selected d then directories ++ [d] else directories)).
2:{ intros directories d _. rewrite io_bind_unfold. unfold isdir. fold (selected d).
    by destruct (selected d). }
rewrite foldl_snoc_filter. simpl.
apply (triple_for (sources_kept fs)); [|done].
intros d [Hsel Hd]%list_elem_of_filter.
apply andb_true_iff in Hsel as [_ Hprefix%negb_true_iff].
apply process_folder_sources_kept; [done..| |done].
apply elem_of_scan_names in Hd as [x Hx]; [|done].
destruct Hs as [_ Hout]. rewrite Hout in Hx.
- by apply (wf_names_child fs [] d x).
- simpl. intros [= ->]. done.
Qed.

End fan_out_frame.

Lemma main_keeps_sources_witness :
  (∀ p, is_Some (exports !! p) → is_Some ((RenameSprites.main id exports).2 !! p)) ∧
  (∀ p, head p ≠ Some "sprites_done" →
        (RenameSprites.main id exports).2 !! p = exports !! p).
Proof.
  apply (main_keeps_sources id (λ l, reflexivity l) exports (RenameSprites.main id exports).1).
  - exact wf_names_exports.
  - apply (bool_decide_unpack _). vm_compute. exact I.
  - apply surjective_pairing.
Defined.

(** ** Two folders with one proper name *)

Section same_name.

Import RenameSprites.
Variable scan : list string → list string.
Hypothesis scan_perm : ∀ l, scan l ≡ₚ l.
Implicit Types (fs s : gmap Path.t Fs.node) (p q src dst : Path.t) (f name folder : string).

Lemma lookup_insert_other fs p q x :
  p ≠ q → Fs.lookup (<[q := x]> fs) p = Fs.lookup fs p.
Proof. intros Hne. unfold Fs.lookup. by rewrite lookup_insert_ne. Qed.

Lemma copy2_Ok_iff fs src dst fs' :
  Fs.lookup fs dst ≠ Some Fs.Dir →
  copy2 src dst fs = (Ok (), fs') ↔
    ∃ data, Fs.lookup fs src = Some (Fs.File data) ∧ src ≠ dst ∧
            Fs.lookup fs (Path.parent dst) = Some Fs.Dir ∧
            fs' = <[dst := Fs.File data]> fs.
Proof.
intros Hdst. unfold copy2.
assert (match Fs.lookup fs dst with
        | Some Fs.Dir => dst </> Path.name src
        | _ => dst
        end = dst) as ->.
{ by destruct (Fs.lookup fs dst) as [[]|]. }
split.
- destruct (Fs.lookup fs src) as [[data|]|]; [|done..].
  case_bool_decide; [done|].
  destruct (Fs.lookup fs dst) as [[]|]; [|done|];
    (destruct (Fs.lookup fs (Path.parent dst)) as [[]|]; [done| |done]);
    intros [= <-]; eauto.
- intros (data & -> & Hne & Hparent & ->). rewrite bool_decide_eq_false_2 by done.
  rewrite Hparent. by destruct (Fs.lookup fs dst) as [[]|].
Qed.

Lemma process_folder_listing folder fs fs' :
  process_folder scan folder fs = (Ok (), fs') →
  Fs.lookup fs (Path.parse folder) = Some Fs.Dir.
Proof.
destruct (extract_proper_name_substring folder) as (a & b & Hpn & _).
unfold process_folder. rewrite io_bind_unfold. unfold io_lift at 1. rewrite Hpn.
rewrite io_bind_unfold. unfold listdir.
by destruct (Fs.lookup fs (Path.parse folder)) as [[]|].
Qed.

(** A folder with a single image: the run is the copy of that image. *)
Lemma process_folder_single folder f fs :
  valid_name folder = true → valid_name f = true →
  Fs.lookup fs (Path.parse folder) = Some Fs.Dir →
  svg_files_of scan fs folder = [f] →
  process_folder scan folder fs
    = copy2 ([folder] ++ [f]) (output_dir ++ [proper_name_of folder +:+ ".svg"]) fs.
Proof.
intros Hv Hf Hdir Hsvg.
destruct (extract_proper_name_substring folder) as (a & b & Hpn & _).
unfold process_folder. rewrite io_bind_unfold. unfold io_lift at 1. rewrite Hpn.
rewrite io_bind_unfold, (listdir_Ok scan fs _ Hdir). cbn zeta.
fold (svg_files_of scan fs folder). rewrite Hsvg. simpl length.
cbn [Nat.ltb Nat.leb Nat.eqb]. change (Py.sorted [f]) with [f].
rewrite io_bind_unfold. cbn [mret io_ret enumerate].
rewrite for_cons, !io_bind_unfold. cbn [mret io_ret].
rewrite (join_valid output_dir) by (by apply valid_name_svg, proper_name_no_slash).
rewrite (parse_valid folder), (join_valid [folder]) by done.
by destruct (copy2 _ _ fs) as [[[]|e] s'].
Qed.

(** X15: two folders with the same proper name and one image each write
    to the same place, [sprites_done/<ProperName>.svg].  When both are
    processed, one after the other, the image of the second replaces that
    of the first without a notice: the filesystem is left as if the second
    folder alone had been processed. *)
Theorem process_folder_same_name folder1 folder2 f1 f2 fs fs1 fs2 :
  wf_names fs →
  valid_name folder1 = true → valid_name folder2 = true → folder2 ≠ "sprites_done" →
  proper_name_of folder1 = proper_name_of folder2 →
  svg_files_of scan fs folder1 = [f1] → svg_files_of scan fs folder2 = [f2] →
  let single := output_dir ++ [proper_name_of folder2 +:+ ".svg"] in
  Fs.lookup fs single ≠ Some Fs.Dir →
  process_folder scan folder1 fs = (Ok (), fs1) →
  process_folder scan folder2 fs1 = (Ok (), fs2) →
  process_folder scan folder2 fs = (Ok (), fs2) ∧
  ∃ data, fs !! ([folder2] ++ [f2]) = Some (Fs.File data) ∧
          fs2 !! single = Some (Fs.File data) ∧
          fs2 = <[single := Fs.File data]> fs.
Proof.
intros Hwf Hv1 Hv2 Hfolder2 Hsame Hsvg1 Hsvg2 single Hsingle Hrun1 Hrun2.
pose proof (parse_valid _ Hv1) as Hparse1. pose proof (parse_valid _ Hv2) as Hparse2.
destruct (svg_files_spec scan scan_perm fs folder1) as [_ Hspec1].
destruct (svg_files_spec scan scan_perm fs folder2) as [_ Hspec2].
assert (Hf1 : valid_name f1 = true).
{ destruct (proj1 (Hspec1 f1)) as [[x Hx] _]; [rewrite Hsvg1; by left|].
  by eapply wf_names_child. }
assert (Hf2 : valid_name f2 = true).
{ destruct (proj1 (Hspec2 f2)) as [[x Hx] _]; [rewrite Hsvg2; by left|].
  by eapply wf_names_child. }
pose proof (process_folder_listing _ _ _ Hrun1) as Hdir1.
rewrite (process_folder_single folder1 f1) in Hrun1 by done.
rewrite Hsame in Hrun1. fold single in Hrun1.
apply copy2_Ok_iff in Hrun1 as (d1 & Hsrc1 & Hne1 & Hparent & ->); [|done].
assert (Hother : ∀ p, p ≠ single →
          Fs.lookup (<[single := Fs.File d1]> fs) p = Fs.lookup fs p).
{ intros p Hp. by apply lookup_insert_other. }
assert (Hsrc : ∀ f, [folder2] ++ [f] ≠ single).
{ intros f. unfold single. rewrite output_dir_parts. simpl. congruence. }
assert (Hnew : Fs.lookup (<[single := Fs.File d1]> fs) single = Some (Fs.File d1)).
{ unfold Fs.lookup. rewrite lookup_insert_eq. unfold single. by rewrite output_dir_parts. }
pose proof (process_folder_listing _ _ _ Hrun2) as Hdir2.
assert (Hsvg2' : svg_files_of scan (<[single := Fs.File d1]> fs) folder2 = [f2]).
{ apply Permutation_singleton_r. rewrite <- Hsvg2.
  destruct (svg_files_spec scan scan_perm (<[single := Fs.File d1]> fs) folder2)
    as [Hnd' Hspec'].
  apply NoDup_Permutation; [done|apply svg_files_spec; done|].
  intros f. rewrite Hspec', Hspec2, Hparse2.
  by rewrite lookup_insert_ne by (by apply not_eq_sym). }
rewrite (process_folder_single folder2 f2) in Hrun2 by done. fold single in Hrun2.
apply copy2_Ok_iff in Hrun2 as (d2 & Hsrc2 & Hne2 & Hparent2 & ->); [|congruence].
rewrite Hother in Hsrc2 by done.
rewrite insert_insert_eq.
assert (Hdir2' : Fs.lookup fs (Path.parse folder2) = Some Fs.Dir).
{ rewrite <- Hdir2, Hparse2. symmetry. apply Hother.
  unfold single. rewrite output_dir_parts. simpl. congruence. }
split.
- rewrite (process_folder_single folder2 f2) by done. fold single.
  apply copy2_Ok_iff; [done|]. exists d2. split_and!; done.
- exists d2. apply lookup_File in Hsrc2 as [Hsrc2 _].
  split_and!; [done|by rewrite lookup_insert_eq|done].
Qed.

End same_name.

Lemma wf_names_twins : wf_names twins.
Proof. apply (bool_decide_unpack _). vm_compute. exact I. Qed.

Lemma process_folder_same_name_witness :
  let fs1 := (RenameSprites.process_folder id "DefineSprite_1_a_Head" twins).2 in
  let fs2 := (RenameSprites.process_folder id "DefineSprite_2_a_Head" fs1).2 in
  let single :=
    RenameSprites.output_dir ++ [proper_name_of "DefineSprite_2_a_Head" +:+ ".svg"] in
  RenameSprites.process_folder id "DefineSprite_2_a_Head" twins = (Ok (), fs2) ∧
  ∃ data, twins !! (["DefineSprite_2_a_Head"] ++ ["7.svg"]) = Some (Fs.File data) ∧
          fs2 !! single = Some (Fs.File data) ∧
          fs2 = <[single := Fs.File data]> twins.
Proof.
  intros fs1 fs2 single.
  assert (Hrun1 : RenameSprites.process_folder id "DefineSprite_1_a_Head" twins
                  = (Ok (), fs1)).
  { assert ((RenameSprites.process_folder id "DefineSprite_1_a_Head" twins).1 = Ok ()) as Hr
      by (vm_compute; reflexivity).
    unfold fs1. destruct (RenameSprites.process_folder _ _ twins) as [r s].
    simpl in Hr. by subst. }
  assert (Hrun2 : RenameSprites.process_folder id "DefineSprite_2_a_Head" fs1
                  = (Ok (), fs2)).
  { assert ((RenameSprites.process_folder id "DefineSprite_2_a_Head" fs1).1 = Ok ()) as Hr
      by (vm_compute; reflexivity).
    unfold fs2. destruct (RenameSprites.process_folder _ _ fs1) as [r s].
    simpl in Hr. by subst. }
  refine (process_folder_same_name id _ "DefineSprite_1_a_Head" "DefineSprite_2_a_Head"
            "1.svg" "7.svg" twins fs1 fs2 wf_names_twins _ _ _ _ _ _ _ Hrun1 Hrun2).
  - intros l. reflexivity.
  - vm_compute. reflexivity.
  - vm_compute. reflexivity.
  - discriminate.
  - vm_compute. reflexivity.
  - vm_compute. reflexivity.
  - vm_compute. reflexivity.
  - vm_compute. discriminate.
Defined.

(** ** Copying over what is there *)

Section overwriting.

Import OrganizeFiles.
Variables (fs1 : gmap Path.t Fs.node) (dir out : Path.t).
Implicit Types (s : gmap Path.t Fs.node) (p q : Path.t) (c n : string).
Implicit Types (ps : list Path.t) (G : list (string * list Path.t)).

(** The copy of a file onto a place that holds no directory. *)
Lemma staged_copy_over G c ps n data s s' :
  valid_name n = true →
  fs1 !! (dir ++ [n]) = Some (Fs.File data) →
  fs1 !! (out ++ [c; n]) ≠ Some Fs.Dir →
  staged fs1 dir out (G ++ [(c, ps)]) s →
  copy2 (dir ++ [n]) (out ++ [c; n]) s = (Ok (), s') →
  staged fs1 dir out (G ++ [(c, ps ++ [dir ++ [n]])]) s'.
Proof.
intros Hv Hsrc Hnodir [HA HB] Hcp.
pose proof (valid_name_not_root _ Hv) as Hn.
assert (Hdst : Fs.lookup s (out ++ [c; n]) ≠ Some Fs.Dir).
{ rewrite app_two, lookup_child, <- app_two by done.
  destruct (HA (out ++ [c; n]))
    as [->|[(c' & _ & Heq & _)|(c' & ps' & n' & d' & _ & _ & _ & _ & ->)]];
    [done| |done].
  symmetry in Heq. by apply folder_ne_file in Heq. }
apply copy2_Ok in Hcp as (d & Hd & ->); [|done].
rewrite lookup_child in Hd by done.
assert (d = data) as ->.
{ destruct (HA (dir ++ [n]))
    as [Heq|[(c' & _ & _ & ?)|(c' & ps' & n' & d' & _ & _ & Heq & ? & ?)]];
    [congruence..|].
  rewrite app_two in Heq. apply app_inj_tail in Heq as [_ <-]. congruence. }
split.
- intros q. destruct (decide (q = out ++ [c; n])) as [->|Hne].
  { right; right. exists c, (ps ++ [dir ++ [n]]), n, data.
    rewrite lookup_insert_eq. split_and!; [| |done..].
    - apply elem_of_app. right. by apply list_elem_of_singleton.
    - apply elem_of_app. right. by apply list_elem_of_singleton. }
  rewrite lookup_insert_ne by done.
  destruct (HA q) as [?|[(c' & Hc' & ? & ?)|(c' & ps' & n' & d' & Hin & Hn' & ? & ? & ?)]].
  + by left.
  + right; left. exists c'. split_and!; [|done..].
    rewrite fmap_app in Hc' |- *. done.
  + right; right. apply elem_of_app in Hin as [Hin|Hin].
    * exists c', ps', n', d'. split_and!; [|done..]. apply elem_of_app. by left.
    * apply list_elem_of_singleton in Hin. simplify_eq.
      exists c, (ps ++ [dir ++ [n]]), n', d'. split_and!; [| |done..].
      -- apply elem_of_app. right. by apply list_elem_of_singleton.
      -- apply elem_of_app. by left.
- assert (Hfile : ∀ c' n', (c' = c ∧ n' = n) ∨ s !! (out ++ [c'; n']) = fs1 !! (dir ++ [n']) →
            <[out ++ [c; n] := Fs.File data]> s !! (out ++ [c'; n']) = fs1 !! (dir ++ [n'])).
  { intros c' n' Hcase.
    destruct (decide (out ++ [c'; n'] = out ++ [c; n])) as [Heq|Hne].
    - rewrite Heq, lookup_insert_eq. apply app_inv_head in Heq. by simplify_eq.
    - rewrite lookup_insert_ne by done. destruct Hcase as [[-> ->]|?]; done. }
  intros c' ps' [Hin|Hin]%elem_of_app.
  + destruct (HB c' ps') as [Hd' Hf]; [apply elem_of_app; by left|]. split.
    * rewrite lookup_insert_ne; [done|]. intros Heq. symmetry in Heq.
      by apply folder_ne_file in Heq.
    * intros n' Hn'. apply Hfile. right. by apply Hf.
  + apply list_elem_of_singleton in Hin. simplify_eq.
    destruct (HB c ps) as [Hd' Hf].
    { apply elem_of_app. right. by apply list_elem_of_singleton. }
    split.
    * rewrite lookup_insert_ne; [done|]. intros Heq. symmetry in Heq.
      by apply folder_ne_file in Heq.
    * intros n' [Hn'|Hn']%elem_of_app; apply Hfile.
      -- right. by apply Hf.
      -- apply list_elem_of_singleton in Hn'. apply app_inj_tail in Hn' as [_ ->]. by left.
Qed.

(** A file that is where it has to go is left there. *)
Lemma staged_skip G c ps n data s :
  fs1 !! (dir ++ [n]) = Some (Fs.File data) →
  dir ++ [n] = out ++ [c; n] →
  staged fs1 dir out (G ++ [(c, ps)]) s →
  staged fs1 dir out (G ++ [(c, ps ++ [dir ++ [n]])]) s.
Proof.
intros Hsrc Heq [HA HB].
assert (Hsame : s !! (dir ++ [n]) = fs1 !! (dir ++ [n])).
{ destruct (HA (dir ++ [n]))
    as [?|[(c' & _ & Hq & _)|(c' & ps' & n' & d' & _ & _ & Hq & ? & ?)]]; [done| |].
  - rewrite Heq in Hq. symmetry in Hq. by apply folder_ne_file in Hq.
  - rewrite app_two in Hq. apply app_inj_tail in Hq as [_ <-]. congruence. }
split.
- intros q.
  destruct (HA q) as [?|[(c' & Hc' & ? & ?)|(c' & ps' & n' & d' & Hin & Hn' & ? & ? & ?)]].
  + by left.
  + right; left. exists c'. split_and!; [|done..].
    rewrite fmap_app in Hc' |- *. done.
  + right; right. apply elem_of_app in Hin as [Hin|Hin].
    * exists c', ps', n', d'. split_and!; [|done..]. apply elem_of_app. by left.
    * apply list_elem_of_singleton in Hin. simplify_eq.
      exists c, (ps ++ [dir ++ [n]]), n', d'. split_and!; [| |done..].
      -- apply elem_of_app. right. by apply list_elem_of_singleton.
      -- apply elem_of_app. by left.
- intros c' ps' [Hin|Hin]%elem_of_app.
  + apply HB. apply elem_of_app. by left.
  + apply list_elem_of_singleton in Hin. simplify_eq.
    destruct (HB c ps) as [Hd' Hf].
    { apply elem_of_app. right. by apply list_elem_of_singleton. }
    split; [done|]. intros n' [Hn'|Hn']%elem_of_app; [by apply Hf|].
    apply list_elem_of_singleton in Hn'. apply app_inj_tail in Hn' as [_ ->].
    by rewrite <- Heq.
Qed.

(** The copying loops of a run that is not dry, when no file has to go
    where a directory stands. *)
Lemma copy_stage_staged_over G :
  (∀ c ps, (c, ps) ∈ G → out </> c = out ++ [c] ∧ c ≠ "/") →
  (∀ c ps fp, (c, ps) ∈ G → fp ∈ ps →
     ∃ n data, fp = dir ++ [n] ∧ valid_name n = true ∧
       fs1 !! (dir ++ [n]) = Some (Fs.File data) ∧
       fs1 !! (out ++ [c; n]) ≠ Some Fs.Dir) →
  triple (staged fs1 dir out [])
    (for_ G (λ '(category, file_paths),
       let category_dir := out </> category in
       (if negb false then mkdir_exist_ok category_dir else mret ());;
       for_ file_paths (λ file_path,
         let dest_path := category_dir </> Path.name file_path in
         if false then mret ()
         else if bool_decide (file_path = dest_path) then mret ()
         else copy2 file_path dest_path)))
    (λ _, staged fs1 dir out G) (λ _, True).
Proof.
intros Hcat Hfiles. apply (triple_for_prefix (staged fs1 dir out)).
intros G1 [c ps] G2 HG. cbn zeta.
assert (Hin : (c, ps) ∈ G).
{ rewrite HG. apply elem_of_app. right. apply elem_of_cons. by left. }
destruct (Hcat _ _ Hin) as [-> Hc].
apply (triple_bind _ _ _ (λ _, staged fs1 dir out (G1 ++ [(c, [])]))).
{ intros s Hs. change (negb false) with true. cbv iota.
  destruct (mkdir_exist_ok (out ++ [c]) s) as [[[]|e] s'] eqn:Hmk; [|done].
  by eapply staged_mkdir. }
intros [].
apply (triple_for_prefix (λ ps1, staged fs1 dir out (G1 ++ [(c, ps1)]))).
intros ps1 fp ps2 Hps.
assert (Hfp : fp ∈ ps).
{ rewrite Hps. apply elem_of_app. right. apply elem_of_cons. by left. }
destruct (Hfiles c ps fp Hin Hfp) as (n & data & -> & Hv & Hsrc & Hnodir).
rewrite (name_child _ _ (valid_name_not_root _ Hv)), join_valid, <- app_two by done.
case_bool_decide as Heq.
- apply triple_ret. intros s Hs. by eapply staged_skip.
- intros s Hs.
  destruct (copy2 (dir ++ [n]) (out ++ [c; n]) s) as [[[]|e] s'] eqn:Hcp; [|done].
  by eapply staged_copy_over.
Qed.

End overwriting.

(** ** Running the organiser over its own result *)

Section rerun.

Import OrganizeFiles.
Variable scan : list string → list string.
Hypothesis scan_perm : ∀ l, scan l ≡ₚ l.
Implicit Types (fs s : gmap Path.t Fs.node) (p q dir : Path.t) (c n : string).

(** What the groups hold. *)
Lemma grouping_members dir (names : list string) (files : list Path.t) :
  (∀ n, n ∈ names → valid_name n = true) →
  (∀ fp, fp ∈ files ↔ ∃ n, fp = dir ++ [n] ∧ n ∈ names) →
  (∀ c ps fp, (c, ps) ∈ grouping files → fp ∈ ps →
     ∃ n, fp = dir ++ [n] ∧ n ∈ names ∧ category_of n = c) ∧
  (∀ c ps, (c, ps) ∈ grouping files → ∃ n, n ∈ names ∧ category_of n = c) ∧
  (∀ n, n ∈ names → ∃ ps, (category_of n, ps) ∈ grouping files ∧ dir ++ [n] ∈ ps).
Proof.
intros Hvalid Hfiles. destruct (grouping_spec files) as [_ HG].
assert (Hname : ∀ n, n ∈ names → Path.name (dir ++ [n]) = n).
{ intros n Hn. apply name_child, valid_name_not_root. by apply Hvalid. }
assert (H1 : ∀ c ps fp, (c, ps) ∈ grouping files → fp ∈ ps →
          ∃ n, fp = dir ++ [n] ∧ n ∈ names ∧ category_of n = c).
{ intros c ps fp [_ ->]%HG [Hc (n & -> & Hn)%Hfiles]%list_elem_of_filter.
  exists n. rewrite Hname in Hc by done. done. }
split_and!; [done| |].
- intros c ps Hin. pose proof Hin as [Hne _]%HG. destruct ps as [|fp ps]; [done|].
  destruct (H1 c (fp :: ps) fp Hin) as (n & _ & ? & ?); [by left|]. eauto.
- intros n Hn.
  exists (filter (λ x, category_of (Path.name x) = category_of n) files).
  assert (Hin : dir ++ [n] ∈ filter (λ x, category_of (Path.name x) = category_of n) files).
  { apply list_elem_of_filter. split; [by rewrite Hname|apply Hfiles; eauto]. }
  split; [|done]. apply HG. split; [|done].
  intros Hnil. rewrite Hnil in Hin. by apply elem_of_nil in Hin.
Qed.

(** What a run that is not dry, that deletes nothing and that returns has
    done, when no file had to go where a directory stood. *)
Lemma organize_files_effect directory_path output_dir file_types fs fs' :
  let out := default directory_path output_dir in
  let allowed := default [".svg"] file_types in
  let names := matching fs directory_path allowed in
  wf_names fs →
  (∀ n, n ∈ names → fs !! (out ++ [category_of n; n]) ≠ Some Fs.Dir) →
  organize_files scan directory_path output_dir file_types false false fs = (Ok (), fs') →
  (∀ o, output_dir = Some o → Fs.lookup fs' o = Some Fs.Dir) ∧
  Fs.lookup fs' directory_path = Some Fs.Dir ∧
  (∀ n, n ∈ names → fs' !! (out ++ [category_of n]) = Some Fs.Dir) ∧
  (∀ n, n ∈ names →
     fs' !! (out ++ [category_of n; n]) = fs !! (directory_path ++ [n])) ∧
  (∀ q, fs' !! q = fs !! q ∨
        (q = out ∧ fs !! q = None ∧ fs' !! q = Some Fs.Dir) ∨
        (∃ n, n ∈ names ∧ q = out ++ [category_of n]) ∨
        (∃ n, n ∈ names ∧ q = out ++ [category_of n; n])).
Proof.
intros out allowed names Hwf Hnodir Hrun.
apply (organize_files_returns scan scan_perm) in Hrun
  as (fs1 & files & s & Hfs1 & Hif & Hmade & Hprecise & Hdir & Hfiles & Hcopy & Hdel).
fold out allowed names in Hfs1, Hprecise, Hfiles, Hcopy. injection Hdel as <-.
assert (Hnames : ∀ n, n ∈ names →
          valid_name n = true ∧ ∃ data, fs !! (directory_path ++ [n]) = Some (Fs.File data)).
{ intros n [[data Hd] _]%matching_spec; [|done]. split; [by eapply wf_names_child|eauto]. }
destruct (grouping_members directory_path names files) as (M1 & M2 & M3);
  [by intros n [? _]%Hnames|done|].
assert (Hsrc1 : ∀ n, n ∈ names →
          fs1 !! (directory_path ++ [n]) = fs !! (directory_path ++ [n])).
{ intros n [_ [data Hd]]%Hnames.
  destruct (Hfs1 (directory_path ++ [n])) as [?|[_ ?]]; [done|congruence]. }
assert (Hst : staged fs1 directory_path out (grouping files) s).
{ assert (HcatG : ∀ c ps, (c, ps) ∈ grouping files → out </> c = out ++ [c] ∧ c ≠ "/").
  { intros c ps (n & Hn & <-)%M2.
    destruct (category_part n) as (? & ? & Hslash); [by apply Hnames|].
    split; [by apply join_part|]. intros Heq. by rewrite Heq in Hslash. }
  assert (HfilesG : ∀ c ps fp, (c, ps) ∈ grouping files → fp ∈ ps →
            ∃ n data, fp = directory_path ++ [n] ∧ valid_name n = true ∧
              fs1 !! (directory_path ++ [n]) = Some (Fs.File data) ∧
              fs1 !! (out ++ [c; n]) ≠ Some Fs.Dir).
  { intros c ps fp Hin Hfp. destruct (M1 c ps fp Hin Hfp) as (n & -> & Hn & <-).
    destruct (Hnames n Hn) as [Hv [data Hd]]. exists n, data.
    rewrite Hsrc1 by done. split_and!; [done..|].
    destruct (Hfs1 (out ++ [category_of n; n])) as [->|[Heq _]]; [by apply Hnodir|].
    by apply file_ne_parent in Heq. }
  pose proof (copy_stage_staged_over fs1 directory_path out (grouping files) HcatG HfilesG
                fs1 (staged_nil _ _ _)) as Ht.
  exact (eq_ind _ (λ x, match x with
                         | (Ok _, s') => staged fs1 directory_path out (grouping files) s'
                         | (Raise _, _) => True
                         end) Ht _ Hcopy). }
assert (Hkeeps : ∀ p, Fs.lookup fs1 p = Some Fs.Dir → Fs.lookup s p = Some Fs.Dir).
{ intros p Hp.
  pose proof (copy_stage_keeps _ p out (grouping files) false (or_introl eq_refl) fs1 Hp)
    as Hkept.
  exact (eq_ind _ (λ x, match x with
                         | (Ok _, s') => Fs.lookup s' p = Some Fs.Dir
                         | (Raise _, s') => Fs.lookup s' p = Some Fs.Dir
                         end) Hkept _ Hcopy). }
destruct Hst as [HA HB].
split_and!.
- intros o Ho. apply Hkeeps. by apply Hmade.
- by apply Hkeeps.
- intros n (ps & Hin & _)%M3. by destruct (HB _ _ Hin).
- intros n Hn. destruct (M3 n Hn) as (ps & Hin & Hfp). destruct (HB _ _ Hin) as [_ Hf].
  rewrite Hf by done. by apply Hsrc1.
- intros q. destruct (HA q)
    as [Heq|[(c & Hc & -> & _)|(c & ps & n & d & Hin & Hfp & -> & _)]].
  + rewrite Heq. destruct Hprecise as [->|[Hnone ->]]; [by left|].
    destruct (decide (q = out)) as [->|Hne].
    * right; left. rewrite lookup_insert_eq in Heq |- *. done.
    * left. by rewrite lookup_insert_ne.
  + right; right; left. apply list_elem_of_fmap in Hc as ([c' ps] & -> & Hin).
    destruct (M2 _ _ Hin) as (n & Hn & <-). eauto.
  + right; right; right. destruct (M1 _ _ _ Hin Hfp) as (n' & Heq & Hn & <-).
    apply app_inj_tail in Heq as [_ ->]. eauto.
Qed.

(** X17: copying over what is there.  Take a run that is not dry, that
    deletes nothing and that returns, with relative paths without a part
    [..] for the source and the output directory, on a filesystem with
    valid names where no matching file has to go where a directory stands.
    Afterwards every matching file is in the folder of its category with
    the content of the source, whatever stood at that place: a file of
    the same name is overwritten without a notice.  Apart from the output
    directory, the category folders and these places, every entry is as
    it was, the other entries of the category folders included. *)
Theorem organize_files_overwrites directory_path output_dir file_types fs fs' :
  let out := default directory_path output_dir in
  let allowed := default [".svg"] file_types in
  let names := matching fs directory_path allowed in
  plain directory_path = true →
  plain out = true →
  wf_names fs →
  (∀ n, n ∈ names → fs !! (out ++ [category_of n; n]) ≠ Some Fs.Dir) →
  organize_files scan directory_path output_dir file_types false false fs = (Ok (), fs') →
  (∀ n, n ∈ names →
     fs' !! (out ++ [category_of n]) = Some Fs.Dir ∧
     fs' !! (out ++ [category_of n; n]) = fs !! (directory_path ++ [n]) ∧
     ∃ data, fs !! (directory_path ++ [n]) = Some (Fs.File data)) ∧
  (∀ q, q ≠ out →
        (∀ n, n ∈ names → q ≠ out ++ [category_of n] ∧ q ≠ out ++ [category_of n; n]) →
        fs' !! q = fs !! q).
Proof.
intros out allowed names _ _ Hwf Hnodir Hrun.
destruct (organize_files_effect _ _ _ _ _ Hwf Hnodir Hrun) as (_ & _ & Hc & Hd & He).
fold out allowed names in Hc, Hd, He. split.
- intros n Hn. split_and!; [by apply Hc|by apply Hd|].
  by apply matching_spec in Hn as [? _].
- intros q Hout Hq.
  destruct (He q) as [?|[[? _]|[(n & Hn & ?)|(n & Hn & ?)]]]; [done|done|..];
    by destruct (Hq n Hn).
Qed.


End rerun.

Lemma wf_names_stale : wf_names stale.
Proof. apply (bool_decide_unpack _). vm_compute. exact I. Qed.

Lemma stale_no_directory n :
  n ∈ matching stale ["sprites_done"] (default [".svg"] None) →
  stale !! (default ["sprites_done"] (Some ["sorted"]) ++ [category_of n; n]) ≠ Some Fs.Dir.
Proof.
assert (matching stale ["sprites_done"] (default [".svg"] None) = ["_FrameBendBronze01.svg"])
  as -> by (vm_compute; reflexivity).
intros ->%list_elem_of_singleton. vm_compute. discriminate.
Qed.

Lemma stale_run :
  OrganizeFiles.organize_files id ["sprites_done"] (Some ["sorted"]) None false false stale
  = (Ok (), (OrganizeFiles.organize_files id ["sprites_done"] (Some ["sorted"]) None
               false false stale).2).
Proof.
assert ((OrganizeFiles.organize_files id ["sprites_done"] (Some ["sorted"]) None
           false false stale).1 = Ok ()) as Hr by (vm_compute; reflexivity).
destruct (OrganizeFiles.organize_files _ _ _ _ _ _ stale) as [r s].
simpl in Hr. by subst.
Qed.

Lemma organize_files_overwrites_witness :
  let fs' :=
    (OrganizeFiles.organize_files id ["sprites_done"] (Some ["sorted"]) None false false
       stale).2 in
  let names := matching stale ["sprites_done"] (default [".svg"] None) in
  (∀ n, n ∈ names →
     fs' !! (["sorted"] ++ [category_of n]) = Some Fs.Dir ∧
     fs' !! (["sorted"] ++ [category_of n; n]) = stale !! (["sprites_done"] ++ [n]) ∧
     ∃ data, stale !! (["sprites_done"] ++ [n]) = Some (Fs.File data)) ∧
  (∀ q, q ≠ ["sorted"] →
        (∀ n, n ∈ names →
           q ≠ ["sorted"] ++ [category_of n] ∧ q ≠ ["sorted"] ++ [category_of n; n]) →
        fs' !! q = stale !! q).
Proof.
  apply (organize_files_overwrites id (λ l, reflexivity l) ["sprites_done"] (Some ["sorted"])
           None stale _ eq_refl eq_refl wf_names_stale stale_no_directory stale_run).
Defined.

